(** * Eventuraa client: session store, approval workflow, routing, catalog

    A shallow embedding of the behavioural core of the Eventuraa web client
    (TypeScript/React): the axios API client with its two interceptors, the
    [AuthContext] session store, the role-gated [ProtectedRoute], the public
    catalog filter of [EventsList], the two admin review handlers
    ([EventApproval.handleReview], [PendingEvents.handleQuickAction]) and the
    organizer's [CreateEvent] form.

    Conventions of the embedding.
    - A JavaScript string is a [string]: a sequence of code units, here
      restricted to code units below 256.  [null] and [undefined] are [None].
    - A value used in a condition is tested for truthiness as JavaScript
      does: a string is truthy iff it is not empty.
    - [localStorage], [sessionStorage], header objects and the form's error
      object are finite maps from strings to strings.
    - Handlers that touch the browser or the network run in a small monad
      that threads the browser state, records every observable effect in a
      trace, and propagates exceptions.  What the user answers to
      [window.prompt] and what the server replies are read from an
      environment.
    - Console logging is not observable behaviour here and is left out. *)

From Stdlib Require Import Ascii String ZArith Lia.
From stdpp Require Import base option list gmap strings.

Local Open Scope string_scope.
Local Open Scope Z_scope.

(** ** JavaScript strings *)

Module JS.

(** Truthiness of a string: only the empty string is falsy. *)
Definition truthy (s : string) : bool :=
  match s with
  | EmptyString => false
  | String _ _ => true
  end.

(** Truthiness of a value that may be [null]/[undefined]. *)
Definition truthy_opt (o : option string) : bool :=
  match o with
  | Some s => truthy s
  | None => false
  end.

(** [a || b] on possibly-null strings. *)
Definition or_else (a b : option string) : option string :=
  if truthy_opt a then a else b.

(** [a || 'literal']. *)
Definition or_default (a : option string) (d : string) : string :=
  match a with
  | Some s => if truthy s then s else d
  | None => d
  end.

Definition code (c : ascii) : Z := Z.of_N (N_of_ascii c).

(** [String.prototype.toLowerCase] on code units below 256: the letters
    A-Z and the Latin-1 capitals U+00C0-U+00DE (U+00D7 is the
    multiplication sign) move up by 32. *)
Definition lower_unit (c : ascii) : ascii :=
  let n := code c in
  if ((65 <=? n) && (n <=? 90)) || ((192 <=? n) && (n <=? 222) && negb (n =? 215))
  then ascii_of_N (Z.to_N (n + 32))
  else c.

Fixpoint toLowerCase (s : string) : string :=
  match s with
  | EmptyString => EmptyString
  | String c s' => String (lower_unit c) (toLowerCase s')
  end.

(** [s.startsWith(t)]. *)
Fixpoint startsWith (s t : string) {struct t} : bool :=
  match t, s with
  | EmptyString, _ => true
  | String _ _, EmptyString => false
  | String b t', String a s' => if Ascii.eqb a b then startsWith s' t' else false
  end.

(** [s.includes(t)]: [t] occurs in [s] at some position. *)
Fixpoint includes (s t : string) : bool :=
  startsWith s t ||
  match s with
  | EmptyString => false
  | String _ s' => includes s' t
  end.

(** White space and line terminators stripped by [trim], below 256:
    TAB, LF, VT, FF, CR, SPACE, NBSP. *)
Definition isWhiteSpace (c : ascii) : bool :=
  let n := code c in
  ((9 <=? n) && (n <=? 13)) || (n =? 32) || (n =? 160).

Fixpoint trimStart (s : string) : string :=
  match s with
  | EmptyString => EmptyString
  | String c s' => if isWhiteSpace c then trimStart s' else s
  end.

Fixpoint trimEnd (s : string) : string :=
  match s with
  | EmptyString => EmptyString
  | String c s' =>
      match trimEnd s' with
      | EmptyString => if isWhiteSpace c then EmptyString else String c EmptyString
      | r => String c r
      end
  end.

Definition trim (s : string) : string := trimEnd (trimStart s).

(** The character class [[^\s@]] of the e-mail pattern. *)
Definition plain (c : ascii) : bool := negb (isWhiteSpace c) && negb (Ascii.eqb c "@"%char).

Fixpoint allPlain (s : string) : bool :=
  match s with
  | EmptyString => true
  | String c s' => plain c && allPlain s'
  end.

(** [s] has a dot that is followed by at least one more character. *)
Fixpoint dotBeforeEnd (s : string) : bool :=
  match s with
  | String c (String _ _ as s') => Ascii.eqb c "."%char || dotBeforeEnd s'
  | _ => false
  end.

(** [s] matches [[^\s@]+\.[^\s@]+]: plain characters with a dot that is
    neither the first nor the last of them. *)
Definition dottedName (s : string) : bool :=
  allPlain s &&
  match s with
  | EmptyString => false
  | String _ s' => dotBeforeEnd s'
  end.

(** [/^[^\s@]+@[^\s@]+\.[^\s@]+$/.test(s)]: a non-empty plain local part,
    an at sign, and a dotted name. *)
Fixpoint emailRegex_from (seen : bool) (s : string) : bool :=
  match s with
  | EmptyString => false
  | String c s' =>
      if Ascii.eqb c "@"%char then seen && dottedName s'
      else plain c && emailRegex_from true s'
  end.

Definition emailRegex_test (s : string) : bool := emailRegex_from false s.

(** [s.split('T')[0]]: the part of [s] before the first ['T']. *)
Fixpoint beforeT (s : string) : string :=
  match s with
  | EmptyString => EmptyString
  | String c s' => if Ascii.eqb c "T"%char then EmptyString else String c (beforeT s')
  end.

(** An object written as a literal is modelled by the finite map of its own
    properties; what it inherits comes from [Object.prototype], whose
    string-keyed properties are these (ECMAScript 20.1.3 and B.2.2). *)
Definition objectPrototype : list string :=
  ["constructor"; "hasOwnProperty"; "isPrototypeOf"; "propertyIsEnumerable";
   "toLocaleString"; "toString"; "valueOf"; "__proto__";
   "__defineGetter__"; "__defineSetter__"; "__lookupGetter__"; "__lookupSetter__"].

Definition inherited (key : string) : bool := existsb (String.eqb key) objectPrototype.

(** [key in o]: an own property or an inherited one. *)
Definition hasProperty (o : gmap string string) (key : string) : bool :=
  bool_decide (is_Some (o !! key)) || inherited key.

(** [o[key] = value] for a string [value]: the key becomes an own property,
    except that [__proto__] is an accessor of the prototype whose setter
    ignores a value that is not an object. *)
Definition setProperty (key value : string) (o : gmap string string) : gmap string string :=
  if String.eqb key "__proto__" then o else <[key:=value]> o.

End JS.

(** ** Shapes of the values exchanged with the REST backend *)

Module Wire.

(** [role] of the [User] interface (AuthContext). *)
Inductive Role := role_user | role_admin | role_organizer | role_doctor | role_property_owner.

Record User := {
  user_id : string;
  user_name : string;
  user_email : string;
  role : Role;
}.

(** ['pending' | 'approved' | 'rejected']. *)
Inductive ApprovalStatus := pending | approved | rejected.

(** The argument of the two review handlers: ['approved' | 'rejected']. *)
Inductive ReviewStatus := review_approved | review_rejected.

Definition status_text (s : ReviewStatus) : string :=
  match s with
  | review_approved => "approved"
  | review_rejected => "rejected"
  end.

(** [TicketType] of CreateEvent.tsx: the three inputs of a tier, as typed. *)
Record TicketType := {
  name : string;
  price : string;
  quantity : string;
}.

(** [eventData] posted by CreateEvent.handleSubmit. *)
Record EventData := {
  ed_title : string;
  ed_description : string;
  ed_date : string;
  ed_time : string;
  ed_location : string;
  ed_category : string;
  ed_images : list string;
  ed_published : bool;
  ed_tickets : list TicketType;
}.

Record Organizer := { organizer_name : string }.

(** An event object of the public catalog.  The [Event] interface of
    EventsList declares the first eight fields; [approvalStatus] and
    [published] are fields the backend's event objects carry as well.
    The interface does not declare them and no code of the view reads
    them. *)
Record CatalogEvent := {
  _id : string;
  title : string;
  description : string;
  date : string;
  location : string;
  category : string;
  organizer : option Organizer;
  images : list string;
  approvalStatus : ApprovalStatus;
  published : bool;
}.

(** Request bodies. *)
Inductive Body :=
| NoBody
| SignInBody (email password : string)
| ReviewBody (approvalStatus : ReviewStatus) (adminFeedback : string)
| QuickReviewBody (status : ReviewStatus) (reviewNotes : string)
| EventBody (eventData : EventData).

(** One entry of the [errors] array of the error envelope. *)
Record FieldError := { param : string; msg : string }.

(** [response.data]: the envelope [{success, message?, errors?}]; for
    [GET /events], [data] and [count]; for the sign-in, [token] and [user]. *)
Record ResponseData := {
  success : bool;
  message : option string;
  errors : option (list FieldError);
  data : option (list CatalogEvent);
  count : option Z;
  token : option string;
  user : option User;
}.

End Wire.

(** ** The browser, the effect trace and the handler monad *)

Module Browser.
Import Wire.

(** An axios request config, after defaults are merged in. *)
Record Config := {
  method : string;
  url : string;
  body : Body;
  headers : gmap string string;
}.

(** What comes back for a request: a response with a status code, or
    nothing at all (network failure, or the 10 s timeout). *)
Inductive Reply :=
| Answer (status : Z) (d : ResponseData)
| NoAnswer.

(** Exceptions a handler can see. *)
Inductive JsError :=
| AxiosError (response : option (Z * ResponseData))
| SyntaxError
| TypeError.

(** Observable effects, in the order they happen. *)
Inductive Effect :=
| ToastError (text : string)
| ToastSuccess (text : string)
| Http (request : Config)
| Navigate (to : string).

Definition is_network (e : Effect) : bool :=
  match e with
  | Http _ => true
  | _ => false
  end.

Definition is_redirect (e : Effect) : bool :=
  match e with
  | Navigate _ => true
  | _ => false
  end.

(** Web storage: [getItem] yields [null] for a missing key. *)
Definition getItem (s : gmap string string) (k : string) : option string := s !! k.
Definition setItem (s : gmap string string) (k v : string) : gmap string string := <[k:=v]> s.
Definition removeItem (s : gmap string string) (k : string) : gmap string string := delete k s.

Record State := {
  localStorage : gmap string string;
  sessionStorage : gmap string string;
  (** [api.defaults.headers.common] *)
  defaults_common : gmap string string;
  trace : list Effect;
}.

Definition set_local (f : gmap string string -> gmap string string) (b : State) : State :=
  {| localStorage := f (localStorage b); sessionStorage := sessionStorage b;
     defaults_common := defaults_common b; trace := trace b |}.
Definition set_session (f : gmap string string -> gmap string string) (b : State) : State :=
  {| localStorage := localStorage b; sessionStorage := f (sessionStorage b);
     defaults_common := defaults_common b; trace := trace b |}.
Definition set_defaults (f : gmap string string -> gmap string string) (b : State) : State :=
  {| localStorage := localStorage b; sessionStorage := sessionStorage b;
     defaults_common := f (defaults_common b); trace := trace b |}.
Definition record (e : Effect) (b : State) : State :=
  {| localStorage := localStorage b; sessionStorage := sessionStorage b;
     defaults_common := defaults_common b; trace := trace b ++ [e] |}.

(** The world outside the page. *)
Record Env := {
  (** what [window.prompt] returns: the text, or [null] on Cancel *)
  promptAnswer : option string;
  (** what the backend answers to a request *)
  server : Config -> Reply;
}.

Inductive Completion (A : Type) :=
| Normal (a : A)
| Throw (e : JsError).
Arguments Normal {A} a.
Arguments Throw {A} e.

Definition M (A : Type) : Type := Env -> State -> Completion A * State.

Definition ret {A} (a : A) : M A := fun _ b => (Normal a, b).

Definition bind {A B} (m : M A) (k : A -> M B) : M B :=
  fun env b =>
    match m env b with
    | (Normal a, b') => k a env b'
    | (Throw e, b') => (Throw e, b')
    end.

Definition throw {A} (e : JsError) : M A := fun _ b => (Throw e, b).

(** [try { m } catch (error) { h error }] *)
Definition try_catch {A} (m : M A) (h : JsError -> M A) : M A :=
  fun env b =>
    match m env b with
    | (Normal a, b') => (Normal a, b')
    | (Throw e, b') => h e env b'
    end.

Definition get : M State := fun _ b => (Normal b, b).
Definition modify (f : State -> State) : M unit := fun _ b => (Normal tt, f b).
Definition ask : M Env := fun env b => (Normal env, b).

Definition emit (e : Effect) : M unit := modify (record e).
Definition toast_error (text : string) : M unit := emit (ToastError text).
Definition toast_success (text : string) : M unit := emit (ToastSuccess text).
Definition navigate (to : string) : M unit := emit (Navigate to).
Definition prompt : M (option string) := fun env b => (Normal (promptAnswer env), b).

(** The effects a run of [m] adds to the trace, and the state it leaves. *)
Definition effects_of {A} (m : M A) (env : Env) (b : State) : list Effect :=
  drop (length (trace b)) (trace (snd (m env b))).
Definition state_after {A} (m : M A) (env : Env) (b : State) : State := snd (m env b).
Definition result_of {A} (m : M A) (env : Env) (b : State) : Completion A := fst (m env b).

Definition no_network (l : list Effect) : Prop := existsb is_network l = false.
Definition no_redirect (l : list Effect) : Prop := existsb is_redirect l = false.

(** Axios resolves a reply whose status is 2xx and rejects any other. *)
Definition resolves (status : Z) : bool := (200 <=? status) && (status <? 300).

End Browser.

Declare Scope js_scope.
Delimit Scope js_scope with js.
Notation "'let*' x ':=' c1 'in' c2" := (Browser.bind c1 (fun x => c2))
  (at level 10, x name, c1 at level 100, c2 at level 200) : js_scope.
Notation "c1 ';;' c2" := (Browser.bind c1 (fun _ => c2))
  (at level 100, c2 at level 200, right associativity) : js_scope.

(** ** lib/axios: the shared API client and its interceptors *)

Module Axios.
Import Wire Browser.
Local Open Scope js_scope.

(** [axios.create({ ..., headers: {'Content-Type': 'application/json'} })] *)
Definition instance_headers : gmap string string :=
  {[ "Content-Type" := "application/json" ]}.

Definition with_header (k v : string) (config : Config) : Config :=
  {| method := method config; url := url config; body := body config;
     headers := <[k:=v]> (headers config) |}.

(** [api.interceptors.request.use((config) => ...)] *)
Definition requestInterceptor (config : Config) : M Config :=
  let* b := get in
  let token := JS.or_else (getItem (localStorage b) "token")
                          (getItem (sessionStorage b) "token") in
  ret (match token with
       | Some t =>
           if JS.truthy t then with_header "Authorization" ("Bearer " +:+ t) config
           else config
       | None => config
       end).

Definition clearCredentials (b : State) : State :=
  set_session (fun s => removeItem s "user")
    (set_local (fun s => removeItem s "user")
      (set_session (fun s => removeItem s "token")
        (set_local (fun s => removeItem s "token") b))).

Definition error_status (error : JsError) : option Z :=
  match error with
  | AxiosError (Some (status, _)) => Some status
  | _ => None
  end.

(** [api.interceptors.response.use((response) => response, (error) => ...)]:
    the rejection handler.  It never redirects (the redirect is commented
    out in the source) and always rejects again. *)
Definition responseErrorInterceptor {A} (error : JsError) : M A :=
  (match error_status error with
   | Some status => if status =? 401 then modify clearCredentials else ret tt
   | None => ret tt
   end) ;;
  throw error.

(** A request through [api]: the instance defaults are merged under the
    request's own headers, the request interceptor runs, the request goes
    out, and the reply is resolved (status 2xx) or rejected through the
    response interceptor. *)
Definition request (method url : string) (body : Body)
    (own : gmap string string) : M ResponseData :=
  let* b := get in
  let config := {| Browser.method := method; Browser.url := url; Browser.body := body;
                   headers := own ∪ defaults_common b ∪ instance_headers |} in
  let* config := requestInterceptor config in
  emit (Http config) ;;
  let* env := ask in
  match server env config with
  | Answer status d =>
      if resolves status then ret d
      else responseErrorInterceptor (AxiosError (Some (status, d)))
  | NoAnswer => responseErrorInterceptor (AxiosError None)
  end.

(** The config that leaves for the wire when the request is made in
    browser state [b]. *)
Definition outgoing (method url : string) (body : Body)
    (own : gmap string string) (env : Env) (b : State) : Config :=
  match requestInterceptor
          {| Browser.method := method; Browser.url := url; Browser.body := body;
             headers := own ∪ defaults_common b ∪ instance_headers |} env b with
  | (Normal config, _) => config
  | (Throw _, _) =>
      {| Browser.method := method; Browser.url := url; Browser.body := body;
         headers := own ∪ defaults_common b ∪ instance_headers |}
  end.

Definition get (url : string) : M ResponseData := request "get" url NoBody ∅.
Definition put (url : string) (body : Body) : M ResponseData := request "put" url body ∅.
Definition post (url : string) (body : Body) : M ResponseData := request "post" url body ∅.

(** [error.response?.data?.message] *)
Definition error_message (error : JsError) : option string :=
  match error with
  | AxiosError (Some (_, d)) => message d
  | _ => None
  end.

(** [error.response?.data?.errors] *)
Definition error_errors (error : JsError) : option (list FieldError) :=
  match error with
  | AxiosError (Some (_, d)) => errors d
  | _ => None
  end.

End Axios.

(** ** context/AuthContext: the session store *)

Module AuthContext.
Import Wire Browser.
Local Open Scope js_scope.

(** The provider's React state. *)
Record AuthState := {
  user : option User;
  token : option string;
  loading : bool;
}.

Definition initial : AuthState := {| user := None; token := None; loading := true |}.

(** [isAuthenticated: !!user] *)
Definition isAuthenticated (st : AuthState) : bool :=
  match user st with
  | Some _ => true
  | None => false
  end.

Section JSON.
(** [JSON.parse] on a stored user: [None] when it throws. *)
Variable JSON_parse : string -> option User.
Variable JSON_stringify : User -> string.

(** The effect run once on mount. *)
Definition loadUserFromStorage (st : AuthState) : M AuthState :=
  let* b := Browser.get in
  let savedToken := getItem (localStorage b) "token" in
  let savedUser := getItem (localStorage b) "user" in
  let* st :=
    match savedToken, savedUser with
    | Some t, Some u =>
        if JS.truthy t && JS.truthy u then
          match JSON_parse u with
          | Some parsedUser =>
              modify (set_defaults (fun h => <["Authorization" := "Bearer " +:+ t]> h)) ;;
              ret {| user := Some parsedUser; token := Some t; loading := loading st |}
          | None => throw SyntaxError
          end
        else ret st
    | _, _ => ret st
    end in
  ret {| user := user st; token := token st; loading := false |}.

Definition login (newToken : string) (userData : User) (st : AuthState) : M AuthState :=
  modify (set_local (fun s => setItem s "token" newToken)) ;;
  modify (set_local (fun s => setItem s "user" (JSON_stringify userData))) ;;
  modify (set_defaults (fun h => <["Authorization" := "Bearer " +:+ newToken]> h)) ;;
  ret {| user := Some userData; token := Some newToken; loading := loading st |}.
End JSON.

Definition logout (st : AuthState) : M AuthState :=
  modify (set_local (fun s => removeItem s "token")) ;;
  modify (set_local (fun s => removeItem s "user")) ;;
  modify (set_defaults (fun h => delete "Authorization" h)) ;;
  ret {| user := None; token := None; loading := loading st |}.

End AuthContext.

(** ** pages/OrganizerLoginPage: the organizer's sign-in *)

Module OrganizerLoginPage.
Import Wire Browser.
Local Open Scope js_scope.

(** The page's React state. *)
Record Page := {
  email : string;
  password : string;
  rememberMe : bool;
  isLoading : bool;
  emailError : string;
  passwordError : string;
  generalError : string;
}.

Definition with_emailError (t : string) (p : Page) : Page :=
  {| email := email p; password := password p; rememberMe := rememberMe p;
     isLoading := isLoading p; emailError := t; passwordError := passwordError p;
     generalError := generalError p |}.
Definition with_passwordError (t : string) (p : Page) : Page :=
  {| email := email p; password := password p; rememberMe := rememberMe p;
     isLoading := isLoading p; emailError := emailError p; passwordError := t;
     generalError := generalError p |}.
Definition with_generalError (t : string) (p : Page) : Page :=
  {| email := email p; password := password p; rememberMe := rememberMe p;
     isLoading := isLoading p; emailError := emailError p;
     passwordError := passwordError p; generalError := t |}.
Definition with_isLoading (l : bool) (p : Page) : Page :=
  {| email := email p; password := password p; rememberMe := rememberMe p;
     isLoading := l; emailError := emailError p; passwordError := passwordError p;
     generalError := generalError p |}.

Definition resetErrors (p : Page) : Page :=
  with_generalError "" (with_passwordError "" (with_emailError "" p)).

(** [validateEmail]: the verdict and the page with its e-mail error set. *)
Definition validateEmail (value : string) (p : Page) : bool * Page :=
  if negb (JS.emailRegex_test value) && JS.truthy value
  then (false, with_emailError "Please enter a valid email address" p)
  else (true, with_emailError "" p).

(** The text stored for a token that may be [undefined]. *)
Definition token_text (t : option string) : string := default "undefined" t.

Section JSON.
Variable JSON_stringify : User -> string.

(** The storing step of [handleLogin]: the tier is chosen by "remember me". *)
Definition store (remember : bool) (response : ResponseData) (userData : User) : M unit :=
  if remember then
    modify (set_local (fun s => setItem s "token" (token_text (token response)))) ;;
    modify (set_local (fun s => setItem s "user" (JSON_stringify userData)))
  else
    modify (set_session (fun s => setItem s "token" (token_text (token response)))) ;;
    modify (set_session (fun s => setItem s "user" (JSON_stringify userData))).

Definition handleLogin (p : Page) : M Page :=
  let p := resetErrors p in
  let '(emailBad, p) :=
    if negb (JS.truthy (email p)) then (true, with_emailError "Email is required" p)
    else let '(ok, p) := validateEmail (email p) p in (negb ok, p) in
  let '(passwordBad, p) :=
    if negb (JS.truthy (password p)) then (true, with_passwordError "Password is required" p)
    else (false, p) in
  if emailBad || passwordBad then ret p
  else
    let p := with_isLoading true p in
    let* p :=
      try_catch
        (let* response := Axios.post "/auth/signin" (SignInBody (email p) (password p)) in
         if success response then
           match user response with
           | None => throw TypeError
           | Some userData =>
               match role userData with
               | role_organizer =>
                   store (rememberMe p) response userData ;;
                   toast_success "Successfully logged in!" ;;
                   navigate "/organizer-portal" ;;
                   ret p
               | _ =>
                   toast_error "This account is not registered as an organizer" ;;
                   ret (with_generalError "This account is not registered as an organizer" p)
               end
           end
         else
           let text := JS.or_default (message response) "Authentication failed" in
           toast_error text ;;
           ret (with_generalError text p))
        (fun error =>
           match error with
           | AxiosError (Some (status, d)) =>
               if status =? 401 then
                 toast_error "Invalid email or password" ;;
                 ret (with_passwordError "Invalid email or password" p)
               else if status =? 400 then
                 let text := JS.or_default (message d) "Invalid request" in
                 toast_error text ;;
                 ret (with_generalError text p)
               else
                 toast_error "Authentication failed. Please try again." ;;
                 ret (with_generalError "Authentication failed. Please try again." p)
           | AxiosError None =>
               toast_error "Network error. Please check your internet connection." ;;
               ret (with_generalError "Network error. Please check your internet connection." p)
           | _ =>
               toast_error "An unexpected error occurred. Please try again." ;;
               ret (with_generalError "An unexpected error occurred. Please try again." p)
           end) in
    ret (with_isLoading false p).
End JSON.

(** The page as the request finds it (errors reset, loading), and the
    sign-in request as it leaves from browser state [b]. *)
Definition submitted (p : Page) : Page :=
  with_isLoading true (with_emailError "" (resetErrors p)).

Definition signInRequest (p : Page) (env : Env) (b : State) : Config :=
  Axios.outgoing "post" "/auth/signin" (SignInBody (email p) (password p)) ∅ env b.

End OrganizerLoginPage.

(** ** routes: the role-gated route *)

Module Routes.
Import Wire AuthContext.

(** [requiredRole?: 'user' | 'organizer' | 'admin'] *)
Inductive RequiredRole := required_user | required_organizer | required_admin.

Definition role_text (r : Role) : string :=
  match r with
  | role_user => "user"
  | role_admin => "admin"
  | role_organizer => "organizer"
  | role_doctor => "doctor"
  | role_property_owner => "property-owner"
  end.

Definition required_text (r : RequiredRole) : string :=
  match r with
  | required_user => "user"
  | required_organizer => "organizer"
  | required_admin => "admin"
  end.

(** What the component returns. *)
Inductive Element :=
| LoadingPlaceholder
| NavigateTo (to : string)
| Children.

Definition ProtectedRoute (auth : AuthState) (requiredRole : option RequiredRole) : Element :=
  if loading auth then LoadingPlaceholder
  else
    match user auth with
    | None => NavigateTo "/signin"
    | Some u =>
        match requiredRole with
        | Some r =>
            if negb (String.eqb (role_text (role u)) (required_text r))
            then NavigateTo "/"
            else Children
        | None => Children
        end
    end.

End Routes.

(** ** components/events/EventsList: the public catalog *)

Module EventsList.
Import Wire Browser.
Local Open Scope js_scope.

(** The component's React state, search box and category badge apart. *)
Record ViewState := {
  events : list CatalogEvent;
  loading : bool;
  error : option string;
}.

Definition initial : ViewState := {| events := []; loading := true; error := None |}.

Definition fetchApprovedEvents (st : ViewState) : M ViewState :=
  let st := {| events := events st; loading := true; error := None |} in
  let* st :=
    try_catch
      (let* response := Axios.get "/events" in
       if success response then
         let st := {| events := default [] (data response); loading := loading st;
                      error := error st |} in
         ret (match count response with
              | Some 0 => {| events := events st; loading := loading st;
                             error := Some "No approved events found. Please check back later." |}
              | _ => st
              end)
       else
         let text := JS.or_default (message response) "Failed to load events" in
         toast_error text ;;
         ret {| events := events st; loading := loading st; error := Some text |})
      (fun err =>
         toast_error "Failed to load events. Please try again later." ;;
         ret {| events := events st; loading := loading st;
                error := Some (JS.or_default (Axios.error_message err)
                                 "An error occurred while fetching events") |}) in
  ret {| events := events st; loading := false; error := error st |}.

(** [event.organizer?.name?.toLowerCase().includes(...) || false] *)
Definition organizerMatches (event : CatalogEvent) (term : string) : bool :=
  match organizer event with
  | Some o => JS.includes (JS.toLowerCase (organizer_name o)) term
  | None => false
  end.

Definition matchesSearch (searchTerm : string) (event : CatalogEvent) : bool :=
  JS.includes (JS.toLowerCase (title event)) (JS.toLowerCase searchTerm) ||
  JS.includes (JS.toLowerCase (description event)) (JS.toLowerCase searchTerm) ||
  JS.includes (JS.toLowerCase (location event)) (JS.toLowerCase searchTerm) ||
  organizerMatches event (JS.toLowerCase searchTerm).

Definition matchesCategory (selectedCategory : string) (event : CatalogEvent) : bool :=
  String.eqb selectedCategory "all" || String.eqb (category event) selectedCategory.

Definition filteredEvents (searchTerm selectedCategory : string)
    (events : list CatalogEvent) : list CatalogEvent :=
  List.filter
    (fun event => matchesSearch searchTerm event && matchesCategory selectedCategory event)
    events.

(** [truncateDescription(text, maxLength = 150)]; [substring(0, n)] takes
    a negative [n] for 0. *)
Definition defaultMaxLength : Z := 150.

Definition truncateDescription (text : string) (maxLength : Z) : string :=
  if Z.of_nat (String.length text) <=? maxLength then text
  else substring 0 (Z.to_nat maxLength) text +:+ "...".


End EventsList.

(** ** pages/admin/PendingEvents: the review queue *)

Module PendingEvents.
Import Wire Browser.
Local Open Scope js_scope.

Record Event := {
  _id : string;
  title : string;
  date : string;
  location : string;
  organizer : option Organizer;
  createdAt : string;
}.

(** The queue's search box: title, location or organizer name. *)
Definition matchesSearch (searchTerm : string) (event : Event) : bool :=
  JS.includes (JS.toLowerCase (title event)) (JS.toLowerCase searchTerm) ||
  JS.includes (JS.toLowerCase (location event)) (JS.toLowerCase searchTerm) ||
  match organizer event with
  | Some o => JS.includes (JS.toLowerCase (organizer_name o)) (JS.toLowerCase searchTerm)
  | None => false
  end.

Definition filteredEvents (searchTerm : string) (events : list Event) : list Event :=
  List.filter (matchesSearch searchTerm) events.

(** [events.filter(event => event._id !== eventId)] *)
Definition without (eventId : string) (events : list Event) : list Event :=
  List.filter (fun event => negb (String.eqb (_id event) eventId)) events.

(** The handler returns the next value of the [events] state. *)
Definition handleQuickAction (events : list Event) (eventId : string)
    (status : ReviewStatus) : M (list Event) :=
  try_catch
    (let* feedback :=
       match status with
       | review_rejected => prompt
       | review_approved => ret (Some "")
       end in
     match status, JS.truthy_opt feedback with
     | review_rejected, false =>
         toast_error "Feedback is required for rejections" ;;
         ret events
     | _, _ =>
         let* response :=
           Axios.put ("/admin/events/" +:+ eventId +:+ "/review")
             (QuickReviewBody status (JS.or_default feedback "")) in
         if success response then
           toast_success ("Event " +:+ status_text status +:+ " successfully") ;;
           ret (without eventId events)
         else
           toast_error (JS.or_default (message response)
                          ("Failed to " +:+ status_text status +:+ " event")) ;;
           ret events
     end)
    (fun err =>
       toast_error (JS.or_default (Axios.error_message err)
                      ("An error occurred while " +:+ status_text status +:+ "ing the event")) ;;
       ret events).

End PendingEvents.

(** ** components/admin/EventApproval: the review detail page *)

Module EventApproval.
Import Wire Browser.
Local Open Scope js_scope.

(** [id] is the route parameter, [feedback] the text area; the handler
    returns the next value of the [submitting] state. *)
Definition handleReview (id feedback : string) (submitting : bool)
    (status : ReviewStatus) : M bool :=
  match status, JS.truthy (JS.trim feedback) with
  | review_rejected, false =>
      toast_error "Please provide feedback explaining why the event was rejected" ;;
      ret submitting
  | _, _ =>
      try_catch
        (let* response :=
           Axios.put ("/admin/events/" +:+ id +:+ "/review") (ReviewBody status feedback) in
         if success response then
           toast_success ("Event " +:+ status_text status +:+ " successfully") ;;
           navigate "/admin/events/pending"
         else
           toast_error (JS.or_default (message response)
                          ("Failed to " +:+ status_text status +:+ " event")))
        (fun err =>
           toast_error (JS.or_default (Axios.error_message err)
                          ("An error occurred while " +:+ status_text status +:+ "ing the event"))) ;;
      ret false
  end.

End EventApproval.

(** ** components/organizer/CreateEvent: the submission form *)

Module CreateEvent.
Import Wire Browser.
Local Open Scope js_scope.

(** The form's React state.  [date] is the picked [Date], held as its
    [toISOString()] text; [errors] is the [FormErrors] object. *)
Record Form := {
  title : string;
  date : option string;
  time : string;
  location : string;
  category : string;
  description : string;
  isPublished : bool;
  eventImages : list string;
  ticketTypes : list TicketType;
  errors : gmap string string;
  isSubmitting : bool;
}.

Definition with_errors (e : gmap string string) (f : Form) : Form :=
  {| title := title f; date := date f; time := time f; location := location f;
     category := category f; description := description f;
     isPublished := isPublished f; eventImages := eventImages f;
     ticketTypes := ticketTypes f; errors := e; isSubmitting := isSubmitting f |}.

Definition with_submitting (s : bool) (f : Form) : Form :=
  {| title := title f; date := date f; time := time f; location := location f;
     category := category f; description := description f;
     isPublished := isPublished f; eventImages := eventImages f;
     ticketTypes := ticketTypes f; errors := errors f; isSubmitting := s |}.

Definition with_ticketTypes (l : list TicketType) (f : Form) : Form :=
  {| title := title f; date := date f; time := time f; location := location f;
     category := category f; description := description f;
     isPublished := isPublished f; eventImages := eventImages f;
     ticketTypes := l; errors := errors f; isSubmitting := isSubmitting f |}.

Definition with_eventImages (l : list string) (f : Form) : Form :=
  {| title := title f; date := date f; time := time f; location := location f;
     category := category f; description := description f;
     isPublished := isPublished f; eventImages := l;
     ticketTypes := ticketTypes f; errors := errors f; isSubmitting := isSubmitting f |}.

Definition blankTicket : TicketType := {| name := ""; price := ""; quantity := "" |}.

Definition handleAddTicketType (f : Form) : Form :=
  with_ticketTypes (ticketTypes f ++ [blankTicket]) f.

(** [l.filter((_, i) => i !== index)], with [i] counting from [from]. *)
Fixpoint filterIndex {A} (from index : Z) (l : list A) : list A :=
  match l with
  | [] => []
  | x :: l' =>
      if from =? index then filterIndex (from + 1) index l'
      else x :: filterIndex (from + 1) index l'
  end.

Definition handleRemoveTicketType (index : Z) (f : Form) : Form :=
  with_ticketTypes (filterIndex 0 index (ticketTypes f)) f.

(** [l.splice(index, 1)] on a copy of [l], for an integer [index]: a
    negative index counts from the end, and the start is clamped to the
    list. *)
Definition splice1 {A} (index : Z) (l : list A) : list A :=
  let len := Z.of_nat (length l) in
  let start := if index <? 0 then Z.max (len + index) 0 else Z.min index len in
  take (Z.to_nat start) l ++ drop (Z.to_nat start + 1) l.

Definition handleRemoveImage (index : Z) (f : Form) : Form :=
  with_eventImages (splice1 index (eventImages f)) f.

(** [ticket.name && ticket.price && ticket.quantity] as a condition. *)
Definition ticketFilled (ticket : TicketType) : bool :=
  JS.truthy (name ticket) && JS.truthy (price ticket) && JS.truthy (quantity ticket).

(** The loop of [validateForm] that looks for a valid ticket type. *)
Fixpoint hasValidTicket (tickets : list TicketType) : bool :=
  match tickets with
  | [] => false
  | ticket :: rest => if ticketFilled ticket then true else hasValidTicket rest
  end.

Definition require (ok : bool) (field text : string)
    (acc : gmap string string * bool) : gmap string string * bool :=
  if ok then acc else (<[field:=text]> (fst acc), false).

(** [validateForm]: the new [errors] object and [isValid]. *)
Definition validateForm (f : Form) : gmap string string * bool :=
  require (hasValidTicket (ticketTypes f)) "tickets" "At least one valid ticket type is required"
 (require (JS.truthy (JS.trim (description f))) "description" "Event description is required"
 (require (JS.truthy (category f)) "category" "Event category is required"
 (require (JS.truthy (JS.trim (location f))) "location" "Event location is required"
 (require (JS.truthy (time f)) "time" "Event time is required"
 (require (match date f with Some _ => true | None => false end) "date" "Event date is required"
 (require (JS.truthy (JS.trim (title f))) "title" "Event title is required"
 (∅, true))))))).

(** The [eventData] object built by [handleSubmit]. *)
Definition eventData (f : Form) : EventData :=
  {| ed_title := title f;
     ed_description := description f;
     ed_date := match date f with Some iso => JS.beforeT iso | None => "" end;
     ed_time := time f;
     ed_location := location f;
     ed_category := category f;
     ed_images := eventImages f;
     ed_published := isPublished f;
     ed_tickets := List.filter ticketFilled (ticketTypes f) |}.

(** The [forEach] that maps backend validation errors onto form fields;
    [current] is the [errors] object the handler closed over. *)
Definition mapBackendError (current : gmap string string)
    (backendErrors : gmap string string) (err : FieldError) : gmap string string :=
  if JS.startsWith (param err) "tickets" then <["tickets" := msg err]> backendErrors
  else if JS.hasProperty current (param err) then
    JS.setProperty (param err) (msg err) backendErrors
  else <["general" := msg err]> backendErrors.

Definition handleSubmit (f : Form) : M Form :=
  let (newErrors, isValid) := validateForm f in
  if negb isValid then
    toast_error "Please fix the errors in the form" ;;
    ret (with_errors newErrors f)
  else
    let* g :=
      try_catch
        (let* response := Axios.post "/public/events" (EventBody (eventData f)) in
         if success response then
           toast_success "Event created successfully!" ;;
           navigate "/organizer-portal/events" ;;
           ret (with_errors newErrors f)
         else
           let text := JS.or_default (message response) "Error creating event" in
           toast_error text ;;
           ret (with_errors {[ "general" := text ]} f))
        (fun err =>
           let e :=
             match Axios.error_errors err with
             | Some l => fold_left (mapBackendError (errors f)) l ∅
             | None => {[ "general" := JS.or_default (Axios.error_message err)
                                         "Failed to create event. Please try again." ]}
             end in
           toast_error (JS.or_default (Axios.error_message err) "Failed to create event") ;;
           ret (with_errors e f)) in
    ret (with_submitting false g).

End CreateEvent.

(** ** components/organizer: the organizer's own event list *)

Module OrganizerEvents.
Import Wire Browser.
Local Open Scope js_scope.

(** The [Event] interface of the list, without the fields none of the
    functions below reads (images, tickets, description, the timestamps and
    the admin's feedback). *)
Record Event := {
  _id : string;
  title : string;
  date : string;
  time : string;
  location : string;
  category : string;
  published : bool;
  approvalStatus : ApprovalStatus;
}.

(** ['upcoming' | 'ongoing' | 'completed'] *)
Inductive EventStatus := upcoming | ongoing | completed.

(** The badges [getStatusBadge] can return. *)
Inductive Badge :=
| PendingApproval
| Rejected
| Draft
| Upcoming
| Ongoing
| Completed.

Section Clock.
(** [getEventStatus] compares the event's date with today's; the clock and
    the time zone are outside the page, so it is taken as given. *)
Variable getEventStatus : Event -> EventStatus.

Definition getStatusBadge (event : Event) : Badge :=
  match approvalStatus event with
  | pending => PendingApproval
  | rejected => Rejected
  | approved =>
      if negb (published event) then Draft
      else
        match getEventStatus event with
        | upcoming => Upcoming
        | ongoing => Ongoing
        | completed => Completed
        end
  end.
End Clock.

(** The double quote of the deletion message. *)
Definition quote : string := String "034"%char EmptyString.

(** [handleDelete]; [confirmed] is what [window.confirm] returned.  The
    handler returns the next value of the [events] state. *)
Definition handleDelete (events : list Event) (confirmed : bool)
    (eventId eventTitle : string) : M (list Event) :=
  if confirmed then
    try_catch
      (let* response := Axios.request "delete" ("/events/" +:+ eventId) NoBody ∅ in
       if success response then
         toast_success ("Event " +:+ quote +:+ eventTitle +:+ quote +:+ " has been deleted") ;;
         ret (List.filter (fun event => negb (String.eqb (_id event) eventId)) events)
       else
         toast_error (JS.or_default (message response) "Failed to delete event") ;;
         ret events)
      (fun err =>
         toast_error (JS.or_default (Axios.error_message err)
                        "An error occurred while deleting the event") ;;
         ret events)
  else ret events.

End OrganizerEvents.

(** ** components/auth/AdminLogin: the administrator's sign-in *)

Module AdminLogin.
Import Wire Browser.
Local Open Scope js_scope.

(** The form's React state. *)
Record Page := {
  email : string;
  password : string;
  isLoading : bool;
  error : option string;
}.

Definition with_error (e : option string) (p : Page) : Page :=
  {| email := email p; password := password p; isLoading := isLoading p; error := e |}.
Definition with_isLoading (l : bool) (p : Page) : Page :=
  {| email := email p; password := password p; isLoading := l; error := error p |}.

Section JSON.
Variable JSON_stringify : User -> string.

(** [login(response.data.token, userData)]: a missing token is
    [undefined], which the store keeps as such in its state and writes as
    the text "undefined" to storage and header. *)
Definition login_with (t : option string) (userData : User)
    (auth : AuthContext.AuthState) : M AuthContext.AuthState :=
  match t with
  | Some newToken => AuthContext.login JSON_stringify newToken userData auth
  | None =>
      let* auth := AuthContext.login JSON_stringify "undefined" userData auth in
      ret {| AuthContext.user := AuthContext.user auth; AuthContext.token := None;
             AuthContext.loading := AuthContext.loading auth |}
  end.

(** [handleSubmit]: the next page state and the session store's state. *)
Definition handleSubmit (p : Page) (auth : AuthContext.AuthState)
    : M (Page * AuthContext.AuthState) :=
  if negb (JS.truthy (email p)) || negb (JS.truthy (password p)) then
    ret (with_error (Some "Please provide both email and password") p, auth)
  else
    let p := with_error None (with_isLoading true p) in
    let* r :=
      try_catch
        (let* response := Axios.post "/auth/signin" (SignInBody (email p) (password p)) in
         if success response then
           match user response with
           | None => throw TypeError
           | Some userData =>
               match role userData with
               | role_admin =>
                   let* auth := login_with (token response) userData auth in
                   toast_success "Login successful!" ;;
                   navigate "/admin" ;;
                   ret (p, auth)
               | _ =>
                   ret (with_error (Some "Access denied. Only admin users can login here.") p,
                        auth)
               end
           end
         else
           ret (with_error (Some (JS.or_default (message response) "Login failed")) p, auth))
        (fun err =>
           ret (with_error
                  (Some (JS.or_default (Axios.error_message err) "Invalid credentials")) p,
                auth)) in
    ret (with_isLoading false (fst r), snd r).
End JSON.

End AdminLogin.

(** ** pages/OrganizerSignupPage: the field validators *)

Module OrganizerSignupPage.

(** A pattern that is a fixed sequence of one-character classes, anchored
    at both ends. *)
Fixpoint matchClasses (classes : list (ascii -> bool)) (s : string) : bool :=
  match classes, s with
  | [], EmptyString => true
  | p :: classes', String c s' => p c && matchClasses classes' s'
  | _, _ => false
  end.

Definition isChar (x : ascii) (c : ascii) : bool := Ascii.eqb c x.

(** [\d] *)
Definition isDigit (c : ascii) : bool :=
  let n := JS.code c in (48 <=? n) && (n <=? 57).

(** [/^\+94\s\d{2}\s\d{3}\s\d{4}$/] *)
Definition phoneRegex : list (ascii -> bool) :=
  [isChar "+"%char; isChar "9"%char; isChar "4"%char; JS.isWhiteSpace; isDigit; isDigit;
   JS.isWhiteSpace; isDigit; isDigit; isDigit;
   JS.isWhiteSpace; isDigit; isDigit; isDigit; isDigit].

(** Each validator gives its verdict and the text it sets its error to. *)
Definition validateEmail (value : string) : bool * string :=
  if negb (JS.emailRegex_test value) && JS.truthy value
  then (false, "Please enter a valid email address")
  else (true, "").

Definition validatePhone (value : string) : bool * string :=
  if JS.truthy value && JS.truthy (JS.trim value) && negb (matchClasses phoneRegex value)
  then (false, "Phone number must be in format: +94 XX XXX XXXX")
  else (true, "").

End OrganizerSignupPage.

(** ** contexts/EventContext: the organizer's events, through axios itself *)

Module EventContext.
Import Wire Browser.
Local Open Scope js_scope.

(** Of the context's events only [_id] is read below. *)
Record Event := {
  _id : string;
  title : string;
  published : bool;
}.

(** The provider's React state. *)
Record Provider := {
  events : list Event;
  loading : bool;
  error : option string;
}.

(** How a call of the provider settles: the provider's state once the
    setters have run, and the error its promise rejects with, if any. *)
Record Settled := {
  provider : Provider;
  rejected : option JsError;
}.

(** A request through the imported [axios] itself, not through [api].  The
    repository registers no interceptor on this instance and sets none of
    its defaults, so the request leaves with no header of the page's and a
    reply outside 2xx is rejected as it is. *)
Definition axios_request (method url : string) (body : Body) : M ResponseData :=
  let config := {| Browser.method := method; Browser.url := url; Browser.body := body;
                   headers := ∅ |} in
  emit (Http config) ;;
  let* env := ask in
  match server env config with
  | Answer status d =>
      if resolves status then ret d else throw (AxiosError (Some (status, d)))
  | NoAnswer => throw (AxiosError None)
  end.

Section Messages.
(** [err.message] of a caught error; every [JsError] is an [Error]. *)
Variable message_of : JsError -> string.

(** [setLoading(true); setError(null)] come first and [setLoading(false)]
    last in either case; the catch block sets the error and throws again. *)
Definition deleteEvent (st : Provider) (id : string) : M Settled :=
  try_catch
    (axios_request "delete" ("/api/events/" +:+ id) NoBody ;;
     ret {| provider :=
              {| events := List.filter (fun event => negb (String.eqb (_id event) id))
                             (events st);
                 loading := false; error := None |};
            rejected := None |})
    (fun err =>
       ret {| provider := {| events := events st; loading := false;
                             error := Some (message_of err) |};
              rejected := Some err |}).
End Messages.

End EventContext.

(** ** The specification's wording, for comparison with the code *)

Module Spec.
Import Wire.

(** "case-insensitive substring match": the term occurs in the field once
    both are brought to lower case. *)
Definition ci_substring (term field : string) : Prop :=
  ∃ pre suf, JS.toLowerCase field = pre +:+ JS.toLowerCase term +:+ suf.

(** "over title/description/location/organizer name" *)
Definition matches_search (term : string) (e : CatalogEvent) : Prop :=
  ci_substring term (title e) ∨ ci_substring term (description e) ∨
  ci_substring term (location e) ∨
  ∃ o, organizer e = Some o ∧ ci_substring term (organizer_name o).

(** "category filter (exact match or all)" *)
Definition matches_category (selected : string) (e : CatalogEvent) : Prop :=
  selected = "all" ∨ category e = selected.

(** A storage tier holds a value under a key when [getItem] gives back a
    non-empty string, which is the test the client applies to what it
    reads from storage. *)
Definition holds (s : gmap string string) (k v : string) : Prop :=
  Browser.getItem s k = Some v ∧ v ≠ "".

Definition holds_nothing (s : gmap string string) (k : string) : Prop :=
  Browser.getItem s k = None ∨ Browser.getItem s k = Some "".

(** A "success response": the reply resolves and its envelope says
    [success]; anything else is a failure response or a transport error. *)
Definition reply_ok (r : Browser.Reply) : bool :=
  match r with
  | Browser.Answer status d => Browser.resolves status && success d
  | Browser.NoAnswer => false
  end.

Definition digit (c : ascii) : option Z :=
  let n := JS.code c in
  if (48 <=? n) && (n <=? 57) then Some (n - 48) else None.

Fixpoint digits (acc : Z) (s : string) : option Z :=
  match s with
  | EmptyString => Some acc
  | String c s' =>
      match digit c with
      | Some d => digits (10 * acc + d) s'
      | None => None
      end
  end.

(** The number written by a non-empty string of decimal digits. *)
Definition numeral (s : string) : option Z :=
  match s with
  | EmptyString => None
  | _ => digits 0 s
  end.

(** "non-empty name AND numeric price AND numeric quantity ≥ 1", with
    numeric read as a decimal numeral. *)
Definition tier_valid (t : TicketType) : Prop :=
  name t ≠ "" ∧ (∃ p, numeral (price t) = Some p) ∧
  (∃ q, numeral (quantity t) = Some q ∧ 1 ≤ q).


(** The required role as a [Role]. *)
Definition role_of (r : Routes.RequiredRole) : Role :=
  match r with
  | Routes.required_user => role_user
  | Routes.required_organizer => role_organizer
  | Routes.required_admin => role_admin
  end.

End Spec.

(** ** Concrete data used by the examples *)

Module Examples.
Import Wire Browser.

Definition event (t c : string) (a : ApprovalStatus) : CatalogEvent :=
  {| _id := t; title := t; description := ""; date := "2025-12-01";
     location := ""; category := c; organizer := None; images := [];
     approvalStatus := a; published := true |}.

Definition jazzNight : CatalogEvent := event "Jazz Night" "music" approved.
Definition foodFest : CatalogEvent := event "Food Fest" "culinary" approved.

Definition envelope (ok : bool) : ResponseData :=
  {| success := ok; message := None; errors := None; data := None; count := None;
     token := None; user := None |}.


(** A backend that answers every request the same way. *)
Definition always (r : Reply) : Env := {| promptAnswer := None; server := fun _ => r |}.

Definition answering (text : option string) (r : Reply) : Env :=
  {| promptAnswer := text; server := fun _ => r |}.

Definition fresh : State :=
  {| localStorage := ∅; sessionStorage := ∅; defaults_common := ∅; trace := [] |}.

Definition alice : User :=
  {| user_id := "u1"; user_name := "Alice"; user_email := "alice@example.org";
     role := role_organizer |}.

(** A stand-in for [JSON.stringify]/[JSON.parse] on the one user above. *)
Definition stringify (u : User) : string := "{alice}".
Definition parse (s : string) : option User :=
  if String.eqb s "{alice}" then Some alice else None.

Definition remembered : State :=
  {| localStorage := {[ "token" := "abc"; "user" := "{alice}" ]};
     sessionStorage := ∅; defaults_common := ∅; trace := [] |}.

(** A session kept in session storage only (signed in without
    "remember me"), and one with a token in each tier. *)
Definition sessionOnly : State :=
  {| localStorage := ∅;
     sessionStorage := {[ "token" := "xyz"; "user" := "{alice}" ]};
     defaults_common := ∅; trace := [] |}.

Definition bothTiers : State :=
  {| localStorage := {[ "token" := "abc"; "user" := "{alice}" ]};
     sessionStorage := {[ "token" := "xyz"; "user" := "{alice}" ]};
     defaults_common := ∅; trace := [] |}.

(** The reply to a successful sign-in of the user above, and the sign-in
    page filled in by her. *)
Definition signedIn (t : string) : ResponseData :=
  {| success := true; message := None; errors := None; data := None; count := None;
     token := Some t; user := Some alice |}.

Definition signInPage (remember : bool) : OrganizerLoginPage.Page :=
  {| OrganizerLoginPage.email := "alice@example.org";
     OrganizerLoginPage.password := "secret";
     OrganizerLoginPage.rememberMe := remember;
     OrganizerLoginPage.isLoading := false;
     OrganizerLoginPage.emailError := "";
     OrganizerLoginPage.passwordError := "";
     OrganizerLoginPage.generalError := "" |}.

(** The sign-in page with an e-mail that lacks its at sign. *)
Definition mistypedPage : OrganizerLoginPage.Page :=
  {| OrganizerLoginPage.email := "alice.example.org";
     OrganizerLoginPage.password := "secret";
     OrganizerLoginPage.rememberMe := true;
     OrganizerLoginPage.isLoading := false;
     OrganizerLoginPage.emailError := "";
     OrganizerLoginPage.passwordError := "";
     OrganizerLoginPage.generalError := "" |}.

Definition root : User :=
  {| user_id := "u0"; user_name := "Root"; user_email := "root@example.org";
     role := role_admin |}.

Definition signedInAs (u : User) (t : string) : ResponseData :=
  {| success := true; message := None; errors := None; data := None; count := None;
     token := Some t; user := Some u |}.

Definition adminPage : AdminLogin.Page :=
  {| AdminLogin.email := "root@example.org"; AdminLogin.password := "secret";
     AdminLogin.isLoading := false; AdminLogin.error := None |}.

(** The session store once its mount effect has run without a stored
    session. *)
Definition anonymous : AuthContext.AuthState :=
  {| AuthContext.user := None; AuthContext.token := None; AuthContext.loading := false |}.

Definition corrupted : State :=
  {| localStorage := {[ "token" := "abc"; "user" := "{alice" ]};
     sessionStorage := ∅; defaults_common := ∅; trace := [] |}.

Definition owned (i t : string) (a : ApprovalStatus) (p : bool) : OrganizerEvents.Event :=
  {| OrganizerEvents._id := i; OrganizerEvents.title := t;
     OrganizerEvents.date := "2025-12-01"; OrganizerEvents.time := "18:30";
     OrganizerEvents.location := "Colombo"; OrganizerEvents.category := "music";
     OrganizerEvents.published := p; OrganizerEvents.approvalStatus := a |}.

Definition listEvents : Config :=
  {| method := "get"; url := "/events"; body := NoBody; headers := ∅ |}.

Definition queued (i : string) : PendingEvents.Event :=
  {| PendingEvents._id := i; PendingEvents.title := "Event " +:+ i;
     PendingEvents.date := "2025-12-01"; PendingEvents.location := "Colombo";
     PendingEvents.organizer := None; PendingEvents.createdAt := "2025-11-01" |}.

Definition vip : TicketType := {| name := "VIP"; price := "5000"; quantity := "20" |}.
Definition unnamed : TicketType := {| name := ""; price := "1000"; quantity := "50" |}.
Definition soldOut : TicketType := {| name := "Early Bird"; price := "10"; quantity := "0" |}.

Definition form (tiers : list TicketType) : CreateEvent.Form :=
  {| CreateEvent.title := "Jazz Night"; CreateEvent.date := Some "2025-12-01T18:30:00.000Z";
     CreateEvent.time := "18:30"; CreateEvent.location := "Colombo";
     CreateEvent.category := "music"; CreateEvent.description := "An evening of jazz";
     CreateEvent.isPublished := true; CreateEvent.eventImages := [];
     CreateEvent.ticketTypes := tiers; CreateEvent.errors := ∅;
     CreateEvent.isSubmitting := false |}.

(** Message texts for caught errors, and an organizer's loaded events. *)
Definition errorMessage (e : JsError) : string :=
  match e with
  | AxiosError (Some _) => "Request failed"
  | AxiosError None => "Network Error"
  | SyntaxError => "Unexpected token"
  | TypeError => "Not a function"
  end.

Definition listed : EventContext.Provider :=
  {| EventContext.events :=
       [{| EventContext._id := "e1"; EventContext.title := "Jazz Night";
           EventContext.published := true |}];
     EventContext.loading := false; EventContext.error := None |}.

(** The envelope of a reply that refuses one field. *)
Definition refused (param msg : string) : Wire.ResponseData :=
  {| Wire.success := false; Wire.message := None;
     Wire.errors := Some [{| Wire.param := param; Wire.msg := msg |}];
     Wire.data := None; Wire.count := None; Wire.token := None; Wire.user := None |}.

End Examples.

(** * Properties *)

(** ** Strings *)

Lemma startsWith_spec (s t : string) :
  JS.startsWith s t = true ↔ ∃ suf, s = t +:+ suf.
Proof.
  revert s. induction t as [|b t IH]; intros s; simpl.
  - split; [intros _; by exists s | done].
  - destruct s as [|a s].
    + split; [done | intros [suf H]; discriminate].
    + destruct (Ascii.eqb_spec a b) as [->|Hne].
      * rewrite IH. split; intros [suf H]; exists suf; [by rewrite H | by injection H].
      * split; [done | intros [suf H]; injection H; congruence].
Qed.

Lemma includes_spec (s t : string) :
  JS.includes s t = true ↔ ∃ pre suf, s = pre +:+ t +:+ suf.
Proof.
  induction s as [|a s IH]; simpl.
  - rewrite orb_false_r, startsWith_spec. split.
    + intros [suf H]. by exists "", suf.
    + intros (pre & suf & H). destruct pre; [by exists suf | discriminate].
  - rewrite orb_true_iff, IH, startsWith_spec. split.
    + intros [[suf H] | (pre & suf & H)].
      * by exists "", suf.
      * exists (String a pre), suf. simpl. by rewrite H.
    + intros (pre & suf & H). destruct pre as [|c pre]; simpl in H.
      * left. by exists suf.
      * right. injection H as _ H. by exists pre, suf.
Qed.

Lemma includes_empty (s : string) : JS.includes s "" = true.
Proof. apply includes_spec. by exists "", s. Qed.

Lemma truthy_spec (s : string) : JS.truthy s = true ↔ s ≠ "".
Proof. destruct s; simpl; split; congruence. Qed.

Lemma truthy_false (s : string) : JS.truthy s = false ↔ s = "".
Proof. destruct s; simpl; split; congruence. Qed.

Lemma trim_nonempty (s : string) : JS.trim s ≠ "" → s ≠ "".
Proof. intros H ->. by apply H. Qed.

(** ** The catalog filter *)

Lemma matchesSearch_spec (term : string) (e : Wire.CatalogEvent) :
  EventsList.matchesSearch term e = true ↔ Spec.matches_search term e.
Proof.
  unfold EventsList.matchesSearch, Spec.matches_search, Spec.ci_substring,
    EventsList.organizerMatches.
  rewrite !orb_true_iff, !includes_spec.
  destruct (Wire.organizer e) as [o|].
  - rewrite includes_spec. split.
    + intros [[[H|H]|H]|H]; eauto 7.
    + intros [H|[H|[H|(o' & [= <-] & H)]]]; eauto.
  - split.
    + intros [[[H|H]|H]|H]; eauto 7. discriminate.
    + intros [H|[H|[H|(o' & [=] & H)]]]; eauto.
Qed.

Lemma matchesCategory_spec (selected : string) (e : Wire.CatalogEvent) :
  EventsList.matchesCategory selected e = true ↔ Spec.matches_category selected e.
Proof.
  unfold EventsList.matchesCategory, Spec.matches_category.
  by rewrite orb_true_iff, !String.eqb_eq.
Qed.

Lemma filteredEvents_In (term selected : string) (l : list Wire.CatalogEvent)
    (e : Wire.CatalogEvent) :
  In e (EventsList.filteredEvents term selected l) ↔
  In e l ∧ EventsList.matchesSearch term e = true ∧
  EventsList.matchesCategory selected e = true.
Proof.
  unfold EventsList.filteredEvents. by rewrite filter_In, andb_true_iff.
Qed.

Lemma filter_sublist {A} (f : A → bool) (l : list A) : sublist (List.filter f l) l.
Proof.
  induction l as [|x l IH]; simpl; [constructor|].
  destruct (f x); by constructor.
Qed.

(** C6.  The catalog filter keeps exactly the events that match the search
    term, as a case-insensitive substring of title, description, location
    or organizer name, and whose category is the selected one (or the
    selection is "all"); the two tests are combined with AND, and the kept
    events stay in their order: the result is the list filtered by any
    test that decides the two conditions.  On the two-event example, "jazz" with
    "all" keeps only Jazz Night and the empty search with "culinary" keeps
    only Food Fest. *)
Theorem catalog_filter_search_and_category :
  (∀ (term selected : string) (l : list Wire.CatalogEvent) (e : Wire.CatalogEvent),
     In e (EventsList.filteredEvents term selected l) ↔
     In e l ∧ Spec.matches_search term e ∧ Spec.matches_category selected e) ∧
  (∀ (term selected : string) (l : list Wire.CatalogEvent),
     sublist (EventsList.filteredEvents term selected l) l) ∧
  (∀ (term selected : string) (keep : Wire.CatalogEvent → bool),
     (∀ e, keep e = true ↔ Spec.matches_search term e ∧ Spec.matches_category selected e) →
     ∀ l, EventsList.filteredEvents term selected l = List.filter keep l) ∧
  EventsList.filteredEvents "jazz" "all" [Examples.jazzNight; Examples.foodFest]
    = [Examples.jazzNight] ∧
  EventsList.filteredEvents "" "culinary" [Examples.jazzNight; Examples.foodFest]
    = [Examples.foodFest].
Proof.
  split; [|split; [|split; [|split]]].
  - intros term selected l e.
    by rewrite filteredEvents_In, matchesSearch_spec, matchesCategory_spec.
  - intros term selected l. apply filter_sublist.
  - intros term selected keep Hkeep l. unfold EventsList.filteredEvents.
    apply List.filter_ext. intros e. apply eq_true_iff_eq.
    by rewrite Hkeep, andb_true_iff, matchesSearch_spec, matchesCategory_spec.
  - reflexivity.
  - reflexivity.
Qed.

Lemma catalog_filter_search_and_category_witness :
  EventsList.filteredEvents "FEST" "culinary" [Examples.jazzNight; Examples.foodFest] =
  List.filter
    (fun e => EventsList.matchesSearch "FEST" e && EventsList.matchesCategory "culinary" e)
    [Examples.jazzNight; Examples.foodFest] ∧
  In Examples.foodFest
    (EventsList.filteredEvents "FEST" "culinary" [Examples.jazzNight; Examples.foodFest]).
Proof.
  destruct catalog_filter_search_and_category as (Hin & _ & Hfilter & _).
  split.
  - apply Hfilter. intros e.
    by rewrite andb_true_iff, matchesSearch_spec, matchesCategory_spec.
  - apply Hin. split; [right; left; reflexivity|]. split.
    + left. by exists "food ", "".
    + right. reflexivity.
Defined.

(** ** Running the API client *)

Lemma trace_record (e : Browser.Effect) (b : Browser.State) :
  Browser.trace (Browser.record e b) = (Browser.trace b ++ [e])%list.
Proof. reflexivity. Qed.

Lemma trace_clearCredentials (b : Browser.State) :
  Browser.trace (Axios.clearCredentials b) = Browser.trace b.
Proof. reflexivity. Qed.

Lemma requestInterceptor_state (config : Browser.Config) (env : Browser.Env)
    (b : Browser.State) :
  ∃ config', Axios.requestInterceptor config env b = (Browser.Normal config', b).
Proof.
  unfold Axios.requestInterceptor, Browser.bind, Browser.get, Browser.ret. eauto.
Qed.

(** A request leaves exactly one [Http] effect; a reply outside 2xx, or no
    reply, is thrown, and a 401 clears the stored credentials on its way. *)
Lemma request_run (method url : string) (body : Wire.Body) (own : gmap string string)
    (env : Browser.Env) (b : Browser.State) :
  Axios.request method url body own env b =
  let config := Axios.outgoing method url body own env b in
  let b1 := Browser.record (Browser.Http config) b in
  match Browser.server env config with
  | Browser.Answer status d =>
      if Browser.resolves status then (Browser.Normal d, b1)
      else (Browser.Throw (Browser.AxiosError (Some (status, d))),
            if status =? 401 then Axios.clearCredentials b1 else b1)
  | Browser.NoAnswer => (Browser.Throw (Browser.AxiosError None), b1)
  end.
Proof.
  unfold Axios.request, Axios.outgoing.
  unfold Browser.bind at 1. unfold Browser.get at 1.
  unfold Browser.bind at 1.
  destruct (requestInterceptor_state
              {| Browser.method := method; Browser.url := url; Browser.body := body;
                 Browser.headers := own ∪ Browser.defaults_common b ∪ Axios.instance_headers |}
              env b) as [config' ->].
  cbv zeta. unfold Browser.bind, Browser.emit, Browser.modify, Browser.ask.
  destruct (Browser.server env config') as [status d|].
  - destruct (Browser.resolves status); [reflexivity|].
    unfold Axios.responseErrorInterceptor, Browser.bind, Browser.throw. simpl.
    destruct (status =? 401); reflexivity.
  - reflexivity.
Qed.

Lemma drop_trace {A} (l l' : list A) : drop (length l) (l ++ l')%list = l'.
Proof. apply drop_app_length. Qed.

Ltac trace_effects :=
  unfold Browser.effects_of; simpl;
  rewrite ?trace_clearCredentials, ?trace_record;
  rewrite <- ?app_assoc; rewrite ?drop_trace; simpl.

(** ** Review handlers *)

Lemma handleReview_blank (id feedback : string) (submitting : bool)
    (env : Browser.Env) (b : Browser.State) :
  JS.trim feedback = "" →
  EventApproval.handleReview id feedback submitting Wire.review_rejected env b =
  (Browser.Normal submitting,
   Browser.record
     (Browser.ToastError "Please provide feedback explaining why the event was rejected") b).
Proof.
  intros H. unfold EventApproval.handleReview. rewrite H. reflexivity.
Qed.

Lemma handleReview_dispatch (id feedback : string) (submitting : bool)
    (status : Wire.ReviewStatus) (env : Browser.Env) (b : Browser.State) :
  status = Wire.review_approved ∨ JS.trim feedback ≠ "" →
  ∃ rest,
    Browser.effects_of (EventApproval.handleReview id feedback submitting status) env b =
    Browser.Http (Axios.outgoing "put" ("/admin/events/" +:+ id +:+ "/review")
                    (Wire.ReviewBody status feedback) ∅ env b) :: rest.
Proof.
  intros H.
  assert (EventApproval.handleReview id feedback submitting status =
          Browser.bind
            (Browser.try_catch
               (Browser.bind
                  (Axios.put ("/admin/events/" +:+ id +:+ "/review")
                     (Wire.ReviewBody status feedback))
                  (fun response =>
                     if Wire.success response then
                       Browser.bind
                         (Browser.toast_success
                            ("Event " +:+ Wire.status_text status +:+ " successfully"))
                         (fun _ => Browser.navigate "/admin/events/pending")
                     else
                       Browser.toast_error
                         (JS.or_default (Wire.message response)
                            ("Failed to " +:+ Wire.status_text status +:+ " event"))))
               (fun err =>
                  Browser.toast_error
                    (JS.or_default (Axios.error_message err)
                       ("An error occurred while " +:+ Wire.status_text status
                        +:+ "ing the event"))))
            (fun _ => Browser.ret false)) as ->.
  { unfold EventApproval.handleReview.
    destruct H as [-> | H]; [reflexivity|].
    apply truthy_spec in H. rewrite H. by destruct status. }
  unfold Browser.effects_of, Browser.bind, Browser.try_catch, Axios.put.
  rewrite request_run. cbv zeta.
  destruct (Browser.server env _) as [st d|].
  - destruct (Browser.resolves st).
    + destruct (Wire.success d); trace_effects; eauto.
    + destruct (st =? 401); trace_effects; eauto.
  - trace_effects; eauto.
Qed.

Lemma handleQuickAction_no_feedback (events : list PendingEvents.Event) (eventId : string)
    (env : Browser.Env) (b : Browser.State) :
  JS.truthy_opt (Browser.promptAnswer env) = false →
  PendingEvents.handleQuickAction events eventId Wire.review_rejected env b =
  (Browser.Normal events,
   Browser.record (Browser.ToastError "Feedback is required for rejections") b).
Proof.
  intros H. unfold PendingEvents.handleQuickAction, Browser.try_catch, Browser.bind,
    Browser.prompt.
  rewrite H. reflexivity.
Qed.

(** The notes sent with a quick review: nothing for an approval, the
    prompt's answer for a rejection. *)
Lemma handleQuickAction_run (events : list PendingEvents.Event) (eventId : string)
    (status : Wire.ReviewStatus) (env : Browser.Env) (b : Browser.State) :
  status = Wire.review_approved ∨ JS.truthy_opt (Browser.promptAnswer env) = true →
  let notes := match status with
               | Wire.review_approved => ""
               | Wire.review_rejected => JS.or_default (Browser.promptAnswer env) ""
               end in
  let config := Axios.outgoing "put" ("/admin/events/" +:+ eventId +:+ "/review")
                  (Wire.QuickReviewBody status notes) ∅ env b in
  let b1 := Browser.record (Browser.Http config) b in
  let failed := "An error occurred while " +:+ Wire.status_text status +:+ "ing the event" in
  PendingEvents.handleQuickAction events eventId status env b =
  match Browser.server env config with
  | Browser.Answer st d =>
      if Browser.resolves st then
        if Wire.success d then
          (Browser.Normal (PendingEvents.without eventId events),
           Browser.record
             (Browser.ToastSuccess ("Event " +:+ Wire.status_text status +:+ " successfully")) b1)
        else
          (Browser.Normal events,
           Browser.record
             (Browser.ToastError
                (JS.or_default (Wire.message d)
                   ("Failed to " +:+ Wire.status_text status +:+ " event"))) b1)
      else
        (Browser.Normal events,
         Browser.record (Browser.ToastError (JS.or_default (Wire.message d) failed))
           (if st =? 401 then Axios.clearCredentials b1 else b1))
  | Browser.NoAnswer =>
      (Browser.Normal events, Browser.record (Browser.ToastError failed) b1)
  end.
Proof.
  intros H. cbv zeta.
  unfold PendingEvents.handleQuickAction, Browser.try_catch.
  unfold Browser.bind at 1.
  destruct status.
  - unfold Browser.ret at 1. cbn [JS.truthy_opt JS.truthy JS.or_default].
    unfold Browser.bind at 1, Axios.put. rewrite request_run. cbv zeta.
    destruct (Browser.server env _) as [st d|]; [|reflexivity].
    destruct (Browser.resolves st); [destruct (Wire.success d); reflexivity|].
    destruct (st =? 401); reflexivity.
  - destruct H as [H|H]; [discriminate|].
    unfold Browser.prompt at 1. rewrite H.
    unfold Browser.bind at 1, Axios.put. rewrite request_run. cbv zeta.
    destruct (Browser.server env _) as [st d|]; [|reflexivity].
    destruct (Browser.resolves st); [destruct (Wire.success d); reflexivity|].
    destruct (st =? 401); reflexivity.
Qed.

Lemma without_In (eventId : string) (events : list PendingEvents.Event)
    (e : PendingEvents.Event) :
  In e (PendingEvents.without eventId events) ↔
  In e events ∧ PendingEvents._id e ≠ eventId.
Proof.
  unfold PendingEvents.without. rewrite filter_In, negb_true_iff.
  by rewrite <- not_true_iff_false, String.eqb_eq.
Qed.

Lemma without_absent (eventId : string) (events : list PendingEvents.Event) :
  ¬ In eventId (map PendingEvents._id events) →
  PendingEvents.without eventId events = events.
Proof.
  induction events as [|e l IH]; simpl; [done|].
  intros H. destruct (String.eqb_spec (PendingEvents._id e) eventId) as [Heq|Hne]; simpl.
  - exfalso. apply H. by left.
  - f_equal. apply IH. intros Hin. apply H. by right.
Qed.

(** With distinct ids, removing the reviewed event takes out that entry and
    leaves the rest as it was, in order. *)
Lemma without_unique (eventId : string) (l1 l2 : list PendingEvents.Event)
    (e0 : PendingEvents.Event) :
  PendingEvents._id e0 = eventId →
  List.NoDup (map PendingEvents._id (l1 ++ e0 :: l2)%list) →
  PendingEvents.without eventId (l1 ++ e0 :: l2)%list = (l1 ++ l2)%list.
Proof.
  intros Hid Hnd. unfold PendingEvents.without.
  rewrite List.filter_app. simpl. rewrite Hid, String.eqb_refl. simpl.
  rewrite map_app in Hnd. simpl in Hnd. rewrite Hid in Hnd.
  pose proof (List.NoDup_remove_2 _ _ _ Hnd) as Hnot.
  fold (PendingEvents.without eventId l1). fold (PendingEvents.without eventId l2).
  rewrite !without_absent; [done| |].
  - intros Hin. apply Hnot. apply in_or_app. by right.
  - intros Hin. apply Hnot. apply in_or_app. by left.
Qed.

(** C1.  A rejection without feedback is refused on the client: an error
    toast is the only effect, so no request goes out.  This holds for the
    detail page ([handleReview], where blank feedback, the empty text
    included, counts as none) and for the queue ([handleQuickAction], where
    the prompt was cancelled or left empty).  Conversely a rejection whose
    run contains a network request carried non-empty feedback, and a
    rejection with feedback does send the request, with that feedback. *)
Theorem rejection_requires_feedback :
  (∀ id feedback submitting env b,
     JS.trim feedback = "" →
     Browser.effects_of
       (EventApproval.handleReview id feedback submitting Wire.review_rejected) env b =
     [Browser.ToastError "Please provide feedback explaining why the event was rejected"]) ∧
  (∀ events eventId env b,
     Browser.promptAnswer env = None ∨ Browser.promptAnswer env = Some "" →
     PendingEvents.handleQuickAction events eventId Wire.review_rejected env b =
     (Browser.Normal events,
      Browser.record (Browser.ToastError "Feedback is required for rejections") b) ∧
     Browser.effects_of
       (PendingEvents.handleQuickAction events eventId Wire.review_rejected) env b =
     [Browser.ToastError "Feedback is required for rejections"]) ∧
  (∀ id feedback submitting env b,
     ¬ Browser.no_network
         (Browser.effects_of
            (EventApproval.handleReview id feedback submitting Wire.review_rejected) env b) →
     feedback ≠ "") ∧
  (∀ events eventId env b,
     ¬ Browser.no_network
         (Browser.effects_of
            (PendingEvents.handleQuickAction events eventId Wire.review_rejected) env b) →
     ∃ text, Browser.promptAnswer env = Some text ∧ text ≠ "") ∧
  (∀ id feedback submitting env b,
     JS.trim feedback ≠ "" →
     ∃ rest,
       Browser.effects_of
         (EventApproval.handleReview id feedback submitting Wire.review_rejected) env b =
       Browser.Http (Axios.outgoing "put" ("/admin/events/" +:+ id +:+ "/review")
                       (Wire.ReviewBody Wire.review_rejected feedback) ∅ env b) :: rest) ∧
  (∀ events eventId text env b,
     Browser.promptAnswer env = Some text → text ≠ "" →
     ∃ rest,
       Browser.effects_of
         (PendingEvents.handleQuickAction events eventId Wire.review_rejected) env b =
       Browser.Http (Axios.outgoing "put" ("/admin/events/" +:+ eventId +:+ "/review")
                       (Wire.QuickReviewBody Wire.review_rejected text) ∅ env b) :: rest).
Proof.
  assert (Hquick : ∀ events eventId env b,
            JS.truthy_opt (Browser.promptAnswer env) = false →
            Browser.effects_of
              (PendingEvents.handleQuickAction events eventId Wire.review_rejected) env b =
            [Browser.ToastError "Feedback is required for rejections"]).
  { intros events eventId env b H. unfold Browser.effects_of.
    rewrite handleQuickAction_no_feedback by done. by trace_effects. }
  assert (Hreview : ∀ id feedback submitting env b,
            JS.trim feedback = "" →
            Browser.effects_of
              (EventApproval.handleReview id feedback submitting Wire.review_rejected) env b =
            [Browser.ToastError
               "Please provide feedback explaining why the event was rejected"]).
  { intros id feedback submitting env b H. unfold Browser.effects_of.
    rewrite handleReview_blank by done. by trace_effects. }
  refine (conj Hreview (conj _ (conj _ (conj _ (conj _ _))))).
  - intros events eventId env b H. split.
    + apply handleQuickAction_no_feedback. by destruct H as [-> | ->].
    + apply Hquick. by destruct H as [-> | ->].
  - intros id feedback submitting env b Hnet ->. apply Hnet. by rewrite Hreview.
  - intros events eventId env b Hnet.
    destruct (Browser.promptAnswer env) as [text|] eqn:Hp.
    + exists text. split; [done|]. intros ->. apply Hnet. rewrite Hquick; [done|].
      by rewrite Hp.
    + exfalso. apply Hnet. rewrite Hquick; [done|]. by rewrite Hp.
  - intros id feedback submitting env b H. apply handleReview_dispatch. by right.
  - intros events eventId text env b Hp Hne.
    assert (Ht : JS.truthy_opt (Browser.promptAnswer env) = true).
    { rewrite Hp. simpl. by apply truthy_spec. }
    unfold Browser.effects_of.
    rewrite handleQuickAction_run by (by right). cbv zeta.
    assert (JS.or_default (Browser.promptAnswer env) "" = text) as ->.
    { rewrite Hp. simpl. apply truthy_spec in Hne. by rewrite Hne. }
    destruct (Browser.server env _) as [st d|].
    + destruct (Browser.resolves st).
      * destruct (Wire.success d); trace_effects; eauto.
      * destruct (st =? 401); trace_effects; eauto.
    + trace_effects; eauto.
Qed.

Lemma rejection_requires_feedback_witness :
  Browser.effects_of
    (EventApproval.handleReview "e1" "" false Wire.review_rejected)
    (Examples.always (Browser.Answer 200 (Examples.envelope true))) Examples.fresh =
  [Browser.ToastError "Please provide feedback explaining why the event was rejected"] ∧
  Browser.effects_of
    (PendingEvents.handleQuickAction [Examples.queued "1"] "1" Wire.review_rejected)
    (Examples.answering (Some "") (Browser.Answer 200 (Examples.envelope true)))
    Examples.fresh =
  [Browser.ToastError "Feedback is required for rejections"] ∧
  (∃ rest,
     Browser.effects_of
       (EventApproval.handleReview "e1" "Venue is not confirmed" false Wire.review_rejected)
       (Examples.always (Browser.Answer 200 (Examples.envelope true))) Examples.fresh =
     Browser.Http
       (Axios.outgoing "put" "/admin/events/e1/review"
          (Wire.ReviewBody Wire.review_rejected "Venue is not confirmed") ∅
          (Examples.always (Browser.Answer 200 (Examples.envelope true))) Examples.fresh)
     :: rest).
Proof.
  destruct rejection_requires_feedback as (Hreview & Hquick & _ & _ & Hsend & _).
  split; [|split].
  - apply Hreview. reflexivity.
  - apply Hquick. right. reflexivity.
  - apply (Hsend "e1" "Venue is not confirmed"). vm_compute. discriminate.
Defined.

(** C9.  A quick review that goes out (an approval, or a rejection with
    feedback) sends one review request for the event and changes the local
    pending list according to the reply to that request.  On a success
    response the run ends with the success toast and the new list is the
    old one without the reviewed event: an entry stays iff its id is not
    the reviewed id, and with distinct ids the list loses exactly that
    entry and keeps the others in place.  On a failure response or a
    transport error the list is returned unchanged and the run ends with an
    error toast. *)
Theorem review_updates_pending_queue
    (events : list PendingEvents.Event) (eventId : string)
    (status : Wire.ReviewStatus) (env : Browser.Env) (b : Browser.State) :
  status = Wire.review_approved ∨ JS.truthy_opt (Browser.promptAnswer env) = true →
  let notes := match status with
               | Wire.review_approved => ""
               | Wire.review_rejected => JS.or_default (Browser.promptAnswer env) ""
               end in
  let config := Axios.outgoing "put" ("/admin/events/" +:+ eventId +:+ "/review")
                  (Wire.QuickReviewBody status notes) ∅ env b in
  let run := PendingEvents.handleQuickAction events eventId status in
  (Spec.reply_ok (Browser.server env config) = true →
   Browser.result_of run env b = Browser.Normal (PendingEvents.without eventId events) ∧
   Browser.effects_of run env b =
     [Browser.Http config;
      Browser.ToastSuccess ("Event " +:+ Wire.status_text status +:+ " successfully")] ∧
   (∀ e, In e (PendingEvents.without eventId events) ↔
         In e events ∧ PendingEvents._id e ≠ eventId) ∧
   (∀ l1 e0 l2,
      events = (l1 ++ e0 :: l2)%list → PendingEvents._id e0 = eventId →
      List.NoDup (map PendingEvents._id events) →
      PendingEvents.without eventId events = (l1 ++ l2)%list)) ∧
  (Spec.reply_ok (Browser.server env config) = false →
   Browser.result_of run env b = Browser.Normal events ∧
   ∃ text, Browser.effects_of run env b = [Browser.Http config; Browser.ToastError text]).
Proof.
  intros Hsent.
  pose proof (handleQuickAction_run events eventId status env b Hsent) as Hrun.
  cbv zeta in *. split; intros Hreply.
  - unfold Browser.result_of, Browser.effects_of. rewrite Hrun.
    destruct (Browser.server env _) as [st d|]; simpl in Hreply; [|done].
    apply andb_true_iff in Hreply as [-> ->].
    split; [reflexivity|]. split; [by trace_effects|]. split.
    + intros e. apply without_In.
    + intros l1 e0 l2 -> Hid Hnd. by apply without_unique.
  - unfold Browser.result_of, Browser.effects_of. rewrite Hrun.
    destruct (Browser.server env _) as [st d|]; simpl in Hreply.
    + destruct (Browser.resolves st); simpl in Hreply.
      * rewrite Hreply. split; [done|]. trace_effects. eauto.
      * split; [done|]. destruct (st =? 401); trace_effects; eauto.
    + split; [done|]. trace_effects. eauto.
Qed.

Lemma review_updates_pending_queue_witness :
  Browser.result_of
    (PendingEvents.handleQuickAction [Examples.queued "1"; Examples.queued "2"] "1"
       Wire.review_approved)
    (Examples.always (Browser.Answer 200 (Examples.envelope true))) Examples.fresh =
  Browser.Normal (PendingEvents.without "1" [Examples.queued "1"; Examples.queued "2"]) ∧
  PendingEvents.without "1" [Examples.queued "1"; Examples.queued "2"] = [Examples.queued "2"] ∧
  Browser.result_of
    (PendingEvents.handleQuickAction [Examples.queued "1"; Examples.queued "2"] "1"
       Wire.review_rejected)
    (Examples.answering (Some "Duplicate listing") Browser.NoAnswer) Examples.fresh =
  Browser.Normal [Examples.queued "1"; Examples.queued "2"].
Proof.
  destruct (review_updates_pending_queue
              [Examples.queued "1"; Examples.queued "2"] "1" Wire.review_approved
              (Examples.always (Browser.Answer 200 (Examples.envelope true)))
              Examples.fresh (or_introl eq_refl)) as [Hok _].
  destruct (Hok eq_refl) as (Hres & _ & _ & Hone).
  destruct (review_updates_pending_queue
              [Examples.queued "1"; Examples.queued "2"] "1" Wire.review_rejected
              (Examples.answering (Some "Duplicate listing") Browser.NoAnswer)
              Examples.fresh (or_intror eq_refl)) as [_ Hfail].
  destruct (Hfail eq_refl) as [Hkept _].
  split; [exact Hres|]. split; [|exact Hkept].
  apply (Hone [] (Examples.queued "1") [Examples.queued "2"]); [reflexivity..|].
  vm_compute. repeat constructor; simpl; intuition discriminate.
Defined.

(** ** The API client's interceptors *)

Lemma holds_truthy (s : gmap string string) (k v : string) :
  Spec.holds s k v → Browser.getItem s k = Some v ∧ JS.truthy v = true.
Proof. intros [H Hne]. split; [done | by apply truthy_spec]. Qed.

Lemma holds_nothing_falsy (s : gmap string string) (k : string) :
  Spec.holds_nothing s k → JS.truthy_opt (Browser.getItem s k) = false.
Proof. by intros [-> | ->]. Qed.

Lemma holds_or_nothing (s : gmap string string) (k : string) :
  (∃ v, Spec.holds s k v) ∨ Spec.holds_nothing s k.
Proof.
  unfold Spec.holds, Spec.holds_nothing.
  destruct (Browser.getItem s k) as [v|]; [|by right; left].
  destruct v as [|c v]; [by right; right|]. left. by eexists.
Qed.

Lemma requestInterceptor_local (config : Browser.Config) (env : Browser.Env)
    (b : Browser.State) (t : string) :
  Spec.holds (Browser.localStorage b) "token" t →
  Axios.requestInterceptor config env b =
  (Browser.Normal (Axios.with_header "Authorization" ("Bearer " +:+ t) config), b).
Proof.
  intros [Hget Ht]%holds_truthy.
  unfold Axios.requestInterceptor, Browser.bind, Browser.get, Browser.ret, JS.or_else.
  rewrite Hget. cbn [JS.truthy_opt]. rewrite Ht. by rewrite Ht.
Qed.

Lemma requestInterceptor_session (config : Browser.Config) (env : Browser.Env)
    (b : Browser.State) (t : string) :
  Spec.holds_nothing (Browser.localStorage b) "token" →
  Spec.holds (Browser.sessionStorage b) "token" t →
  Axios.requestInterceptor config env b =
  (Browser.Normal (Axios.with_header "Authorization" ("Bearer " +:+ t) config), b).
Proof.
  intros Hno%holds_nothing_falsy [Hget Ht]%holds_truthy.
  unfold Axios.requestInterceptor, Browser.bind, Browser.get, Browser.ret, JS.or_else.
  rewrite Hno, Hget. by rewrite Ht.
Qed.

Lemma requestInterceptor_none (config : Browser.Config) (env : Browser.Env)
    (b : Browser.State) :
  Spec.holds_nothing (Browser.localStorage b) "token" →
  Spec.holds_nothing (Browser.sessionStorage b) "token" →
  Axios.requestInterceptor config env b = (Browser.Normal config, b).
Proof.
  intros Hno%holds_nothing_falsy Hno'.
  unfold Axios.requestInterceptor, Browser.bind, Browser.get, Browser.ret, JS.or_else.
  rewrite Hno. by destruct Hno' as [-> | ->].
Qed.

(** C10.  The request interceptor sets [Authorization] to "Bearer t" where
    t is the token held by durable storage; if durable storage holds none,
    the token held by session storage; and it leaves the request as it is
    when neither tier holds one.  A tier holds a token when [getItem] gives
    a non-empty string.  So with tokens in both tiers the durable one is
    sent, and the same goes for every request made through the client. *)
Theorem request_interceptor_token_precedence
    (config : Browser.Config) (env : Browser.Env) (b : Browser.State) :
  (∀ t, Spec.holds (Browser.localStorage b) "token" t →
        Axios.requestInterceptor config env b =
        (Browser.Normal (Axios.with_header "Authorization" ("Bearer " +:+ t) config), b) ∧
        ∀ method url body own,
          Browser.headers (Axios.outgoing method url body own env b) !! "Authorization"
          = Some ("Bearer " +:+ t)) ∧
  (Spec.holds_nothing (Browser.localStorage b) "token" →
   ∀ t, Spec.holds (Browser.sessionStorage b) "token" t →
        Axios.requestInterceptor config env b =
        (Browser.Normal (Axios.with_header "Authorization" ("Bearer " +:+ t) config), b) ∧
        ∀ method url body own,
          Browser.headers (Axios.outgoing method url body own env b) !! "Authorization"
          = Some ("Bearer " +:+ t)) ∧
  (Spec.holds_nothing (Browser.localStorage b) "token" →
   Spec.holds_nothing (Browser.sessionStorage b) "token" →
   Axios.requestInterceptor config env b = (Browser.Normal config, b) ∧
   ∀ method url body own,
     Browser.headers (Axios.outgoing method url body own env b) =
     own ∪ Browser.defaults_common b ∪ Axios.instance_headers).
Proof.
  split; [|split].
  - intros t H. split; [by apply requestInterceptor_local|].
    intros method url body own. unfold Axios.outgoing.
    rewrite (requestInterceptor_local _ _ _ t H). simpl. apply lookup_insert_eq.
  - intros Hno t H. split; [by apply requestInterceptor_session|].
    intros method url body own. unfold Axios.outgoing.
    rewrite (requestInterceptor_session _ _ _ t Hno H). simpl. apply lookup_insert_eq.
  - intros Hno Hno'. split; [by apply requestInterceptor_none|].
    intros method url body own. unfold Axios.outgoing.
    by rewrite (requestInterceptor_none _ _ _ Hno Hno').
Qed.

Lemma request_interceptor_token_precedence_witness :
  Axios.requestInterceptor Examples.listEvents (Examples.always Browser.NoAnswer)
    Examples.bothTiers =
  (Browser.Normal (Axios.with_header "Authorization" "Bearer abc" Examples.listEvents),
   Examples.bothTiers) ∧
  Axios.requestInterceptor Examples.listEvents (Examples.always Browser.NoAnswer)
    Examples.sessionOnly =
  (Browser.Normal (Axios.with_header "Authorization" "Bearer xyz" Examples.listEvents),
   Examples.sessionOnly) ∧
  Axios.requestInterceptor Examples.listEvents (Examples.always Browser.NoAnswer)
    Examples.fresh =
  (Browser.Normal Examples.listEvents, Examples.fresh).
Proof.
  destruct (request_interceptor_token_precedence Examples.listEvents
              (Examples.always Browser.NoAnswer) Examples.bothTiers) as (Hboth & _ & _).
  destruct (request_interceptor_token_precedence Examples.listEvents
              (Examples.always Browser.NoAnswer) Examples.sessionOnly) as (_ & Hsession & _).
  destruct (request_interceptor_token_precedence Examples.listEvents
              (Examples.always Browser.NoAnswer) Examples.fresh) as (_ & _ & Hnone).
  split; [|split].
  - apply (Hboth "abc"). split; [reflexivity | discriminate].
  - apply (Hsession (or_introl eq_refl) "xyz"). split; [reflexivity | discriminate].
  - apply (Hnone (or_introl eq_refl) (or_introl eq_refl)).
Defined.

Lemma clearCredentials_storage (b : Browser.State) :
  Browser.getItem (Browser.localStorage (Axios.clearCredentials b)) "token" = None ∧
  Browser.getItem (Browser.localStorage (Axios.clearCredentials b)) "user" = None ∧
  Browser.getItem (Browser.sessionStorage (Axios.clearCredentials b)) "token" = None ∧
  Browser.getItem (Browser.sessionStorage (Axios.clearCredentials b)) "user" = None.
Proof.
  unfold Axios.clearCredentials, Browser.getItem, Browser.removeItem. simpl.
  repeat split.
  - rewrite lookup_delete_ne by done. apply lookup_delete_eq.
  - apply lookup_delete_eq.
  - rewrite lookup_delete_ne by done. apply lookup_delete_eq.
  - apply lookup_delete_eq.
Qed.

(** C7.  A reply with status 401 to a request made through the API client
    is rejected to the caller after the response interceptor has removed
    [token] and [user] from both storage tiers; the only effect of the
    request is the request itself, so the client performs no redirect. *)
Theorem unauthorized_reply_clears_credentials
    (method url : string) (body : Wire.Body) (own : gmap string string)
    (env : Browser.Env) (b : Browser.State) (d : Wire.ResponseData) :
  Browser.server env (Axios.outgoing method url body own env b) = Browser.Answer 401 d →
  let b' := Browser.state_after (Axios.request method url body own) env b in
  Browser.result_of (Axios.request method url body own) env b =
    Browser.Throw (Browser.AxiosError (Some (401, d))) ∧
  Browser.getItem (Browser.localStorage b') "token" = None ∧
  Browser.getItem (Browser.localStorage b') "user" = None ∧
  Browser.getItem (Browser.sessionStorage b') "token" = None ∧
  Browser.getItem (Browser.sessionStorage b') "user" = None ∧
  Browser.effects_of (Axios.request method url body own) env b =
    [Browser.Http (Axios.outgoing method url body own env b)] ∧
  Browser.no_redirect (Browser.effects_of (Axios.request method url body own) env b).
Proof.
  intros Hreply. cbv zeta.
  unfold Browser.state_after, Browser.result_of, Browser.effects_of, Browser.no_redirect.
  rewrite request_run. cbv zeta. rewrite Hreply. simpl.
  pose proof (clearCredentials_storage
                (Browser.record
                   (Browser.Http (Axios.outgoing method url body own env b)) b))
    as (H1 & H2 & H3 & H4).
  repeat split; try assumption.
  - by rewrite drop_trace.
  - by rewrite drop_trace.
Qed.

Lemma unauthorized_reply_clears_credentials_witness :
  let b' := Browser.state_after (Axios.request "get" "/admin/dashboard" Wire.NoBody ∅)
              (Examples.always (Browser.Answer 401 (Examples.envelope false)))
              Examples.bothTiers in
  Browser.getItem (Browser.localStorage b') "token" = None ∧
  Browser.getItem (Browser.sessionStorage b') "token" = None.
Proof.
  destruct (unauthorized_reply_clears_credentials "get" "/admin/dashboard" Wire.NoBody ∅
              (Examples.always (Browser.Answer 401 (Examples.envelope false)))
              Examples.bothTiers (Examples.envelope false) eq_refl)
    as (_ & H1 & _ & H3 & _).
  exact (conj H1 H3).
Defined.

(** C7 fails as stated: the organizer's event context sends its requests
    with axios itself, which has no interceptor.  A 401 on its delete
    request is rejected to the caller while [token] and [user] stay in both
    storage tiers. *)
Lemma default_axios_unauthorized_keeps_credentials :
  let env := Examples.always (Browser.Answer 401 (Examples.envelope false)) in
  let sent := {| Browser.method := "delete"; Browser.url := "/api/events/e1";
                 Browser.body := Wire.NoBody; Browser.headers := ∅ |} in
  let run := EventContext.deleteEvent Examples.errorMessage Examples.listed "e1" in
  let b' := Browser.state_after run env Examples.bothTiers in
  Browser.effects_of run env Examples.bothTiers = [Browser.Http sent] ∧
  Browser.server env sent = Browser.Answer 401 (Examples.envelope false) ∧
  Browser.result_of run env Examples.bothTiers =
    Browser.Normal
      {| EventContext.provider :=
           {| EventContext.events := EventContext.events Examples.listed;
              EventContext.loading := false;
              EventContext.error := Some "Request failed" |};
         EventContext.rejected :=
           Some (Browser.AxiosError (Some (401, Examples.envelope false))) |} ∧
  Browser.getItem (Browser.localStorage b') "token" = Some "abc" ∧
  Browser.getItem (Browser.localStorage b') "user" = Some "{alice}" ∧
  Browser.getItem (Browser.sessionStorage b') "token" = Some "xyz" ∧
  Browser.getItem (Browser.sessionStorage b') "user" = Some "{alice}".
Proof. vm_compute. repeat split. Qed.

(** ** The session store *)

Lemma loadUserFromStorage_hydrate (JSON_parse : string → option Wire.User)
    (st : AuthContext.AuthState) (env : Browser.Env) (b : Browser.State)
    (t su : string) (u : Wire.User) :
  Spec.holds (Browser.localStorage b) "token" t →
  Spec.holds (Browser.localStorage b) "user" su →
  JSON_parse su = Some u →
  AuthContext.loadUserFromStorage JSON_parse st env b =
  (Browser.Normal {| AuthContext.user := Some u; AuthContext.token := Some t;
                     AuthContext.loading := false |},
   Browser.set_defaults (fun h => <["Authorization" := "Bearer " +:+ t]> h) b).
Proof.
  intros [Ht Htt]%holds_truthy [Hu Hut]%holds_truthy Hparse.
  unfold AuthContext.loadUserFromStorage.
  unfold Browser.bind at 1. unfold Browser.get at 1.
  rewrite Ht, Hu, Htt, Hut, Hparse. reflexivity.
Qed.

(** What [login] stores is what a reload hydrates from, provided parsing
    undoes serialization. *)
Section SessionRoundTrip.
Variable JSON_parse : string → option Wire.User.
Variable JSON_stringify : Wire.User → string.
Hypothesis parse_stringify : ∀ u, JSON_parse (JSON_stringify u) = Some u.
Hypothesis stringify_nonempty : ∀ u, JSON_stringify u ≠ "".

Lemma login_then_reload (newToken : string) (u : Wire.User)
    (st : AuthContext.AuthState) (env : Browser.Env) (b : Browser.State) :
  newToken ≠ "" →
  Browser.result_of (AuthContext.loadUserFromStorage JSON_parse AuthContext.initial) env
    (Browser.state_after (AuthContext.login JSON_stringify newToken u st) env b) =
  Browser.Normal {| AuthContext.user := Some u; AuthContext.token := Some newToken;
                    AuthContext.loading := false |}.
Proof.
  intros Hne. unfold Browser.result_of.
  rewrite (loadUserFromStorage_hydrate JSON_parse AuthContext.initial env _
             newToken (JSON_stringify u) u); [done| | |apply parse_stringify].
  - split; [|done]. unfold Browser.getItem. simpl. unfold Browser.setItem.
    rewrite lookup_insert_ne by done. apply lookup_insert_eq.
  - split; [|apply stringify_nonempty]. unfold Browser.getItem. simpl.
    apply lookup_insert_eq.
Qed.
End SessionRoundTrip.

(** The sign-in page stores the session in the tier picked by "remember
    me" and leaves the other tier alone. *)
Lemma store_tier (JSON_stringify : Wire.User → string) (remember : bool)
    (response : Wire.ResponseData) (u : Wire.User) (env : Browser.Env) (b : Browser.State) :
  let b' := Browser.state_after (OrganizerLoginPage.store JSON_stringify remember response u)
              env b in
  if remember then
    Browser.getItem (Browser.localStorage b') "token"
      = Some (OrganizerLoginPage.token_text (Wire.token response)) ∧
    Browser.sessionStorage b' = Browser.sessionStorage b
  else
    Browser.getItem (Browser.sessionStorage b') "token"
      = Some (OrganizerLoginPage.token_text (Wire.token response)) ∧
    Browser.localStorage b' = Browser.localStorage b.
Proof.
  cbv zeta. unfold Browser.state_after, OrganizerLoginPage.store, Browser.getItem,
    Browser.setItem.
  destruct remember; simpl; (split; [|reflexivity]);
    rewrite lookup_insert_ne by done; apply lookup_insert_eq.
Qed.

(** C8.  On start, a token and a serialized user held by durable storage
    make the session authenticated: the parsed user and the token are
    loaded, the default [Authorization] header is set to the bearer token,
    and the run has no effect at all, so nothing goes over the network.
    If durable storage does not hold both, the session stays anonymous and
    nothing changes. *)
Theorem hydration_from_durable_storage
    (JSON_parse : string → option Wire.User) (env : Browser.Env) (b : Browser.State) :
  (∀ t su u,
     Spec.holds (Browser.localStorage b) "token" t →
     Spec.holds (Browser.localStorage b) "user" su →
     JSON_parse su = Some u →
     Browser.result_of
       (AuthContext.loadUserFromStorage JSON_parse AuthContext.initial) env b =
     Browser.Normal {| AuthContext.user := Some u; AuthContext.token := Some t;
                       AuthContext.loading := false |} ∧
     AuthContext.isAuthenticated
       {| AuthContext.user := Some u; AuthContext.token := Some t;
          AuthContext.loading := false |} = true ∧
     Browser.defaults_common
       (Browser.state_after
          (AuthContext.loadUserFromStorage JSON_parse AuthContext.initial) env b)
       !! "Authorization" = Some ("Bearer " +:+ t) ∧
     Browser.effects_of
       (AuthContext.loadUserFromStorage JSON_parse AuthContext.initial) env b = []) ∧
  (Spec.holds_nothing (Browser.localStorage b) "token" ∨
   Spec.holds_nothing (Browser.localStorage b) "user" →
   AuthContext.loadUserFromStorage JSON_parse AuthContext.initial env b =
   (Browser.Normal {| AuthContext.user := None; AuthContext.token := None;
                      AuthContext.loading := false |}, b) ∧
   AuthContext.isAuthenticated
     {| AuthContext.user := None; AuthContext.token := None;
        AuthContext.loading := false |} = false).
Proof.
  split.
  - intros t su u Ht Hu Hparse.
    unfold Browser.result_of, Browser.state_after, Browser.effects_of.
    rewrite (loadUserFromStorage_hydrate JSON_parse AuthContext.initial env b t su u)
      by done.
    simpl. repeat split.
    + apply lookup_insert_eq.
    + rewrite <- (app_nil_r (Browser.trace b)) at 2. apply drop_trace.
  - intros H. split; [|reflexivity].
    unfold AuthContext.loadUserFromStorage.
    unfold Browser.bind at 1. unfold Browser.get at 1.
    destruct H as [[H | H] | [H | H]]; rewrite H.
    + reflexivity.
    + destruct (Browser.getItem (Browser.localStorage b) "user"); reflexivity.
    + destruct (Browser.getItem (Browser.localStorage b) "token"); reflexivity.
    + destruct (Browser.getItem (Browser.localStorage b) "token") as [t|]; [|reflexivity].
      by rewrite andb_false_r.
Qed.

Lemma hydration_from_durable_storage_witness :
  Browser.result_of
    (AuthContext.loadUserFromStorage Examples.parse AuthContext.initial)
    (Examples.always Browser.NoAnswer) Examples.remembered =
  Browser.Normal {| AuthContext.user := Some Examples.alice; AuthContext.token := Some "abc";
                    AuthContext.loading := false |} ∧
  AuthContext.loadUserFromStorage Examples.parse AuthContext.initial
    (Examples.always Browser.NoAnswer) Examples.sessionOnly =
  (Browser.Normal {| AuthContext.user := None; AuthContext.token := None;
                     AuthContext.loading := false |}, Examples.sessionOnly).
Proof.
  destruct (hydration_from_durable_storage Examples.parse
              (Examples.always Browser.NoAnswer) Examples.remembered) as [Hload _].
  destruct (hydration_from_durable_storage Examples.parse
              (Examples.always Browser.NoAnswer) Examples.sessionOnly) as [_ Hanon].
  split.
  - apply (Hload "abc" "{alice}" Examples.alice).
    + split; [reflexivity | discriminate].
    + split; [reflexivity | discriminate].
    + reflexivity.
  - apply Hanon. left. left. reflexivity.
Defined.

(** C3, as the code has it.  [logout] resets the provider's user and token,
    removes [token] and [user] from durable storage and deletes the default
    [Authorization] header, without any other effect; session storage is
    left as it was.  When session storage holds no token, a request made
    next that sets no [Authorization] of its own goes out without one. *)
Theorem logout_clears_durable_tier
    (st : AuthContext.AuthState) (env : Browser.Env) (b : Browser.State) :
  let b' := Browser.state_after (AuthContext.logout st) env b in
  Browser.result_of (AuthContext.logout st) env b =
    Browser.Normal {| AuthContext.user := None; AuthContext.token := None;
                      AuthContext.loading := AuthContext.loading st |} ∧
  Browser.getItem (Browser.localStorage b') "token" = None ∧
  Browser.getItem (Browser.localStorage b') "user" = None ∧
  Browser.defaults_common b' !! "Authorization" = None ∧
  Browser.sessionStorage b' = Browser.sessionStorage b ∧
  Browser.effects_of (AuthContext.logout st) env b = [] ∧
  (Spec.holds_nothing (Browser.sessionStorage b) "token" →
   ∀ method url body own env',
     own !! "Authorization" = None →
     Browser.headers (Axios.outgoing method url body own env' b') !! "Authorization" = None).
Proof.
  cbv zeta. unfold Browser.state_after, Browser.result_of, Browser.effects_of.
  unfold AuthContext.logout, Browser.bind, Browser.modify, Browser.ret. simpl.
  unfold Browser.getItem, Browser.removeItem.
  assert (Hlocal : delete "user" (delete "token" (Browser.localStorage b)) !! "token"
                   = None).
  { rewrite lookup_delete_ne by done. apply lookup_delete_eq. }
  split; [reflexivity|]. split; [exact Hlocal|].
  split; [apply lookup_delete_eq|]. split; [apply lookup_delete_eq|].
  split; [reflexivity|].
  split; [rewrite <- (app_nil_r (Browser.trace b)) at 2; apply drop_trace|].
  intros Hsession method url body own env' Hown.
  unfold Axios.outgoing.
  rewrite requestInterceptor_none.
  - simpl. rewrite !lookup_union_None.
    split; [split|]; [exact Hown | apply lookup_delete_eq | by vm_compute].
  - simpl. by left.
  - exact Hsession.
Qed.

Lemma logout_clears_durable_tier_witness :
  Browser.headers
    (Axios.outgoing "get" "/events" Wire.NoBody ∅ (Examples.always Browser.NoAnswer)
       (Browser.state_after (AuthContext.logout AuthContext.initial)
          (Examples.always Browser.NoAnswer) Examples.remembered))
    !! "Authorization" = None.
Proof.
  destruct (logout_clears_durable_tier AuthContext.initial
              (Examples.always Browser.NoAnswer) Examples.remembered)
    as (_ & _ & _ & _ & _ & _ & Hnext).
  apply Hnext; [left|]; reflexivity.
Defined.

(** C3 fails as stated: after a sign-in without "remember me" the token is
    in session storage, [logout] leaves it there, and the next request
    still carries it. *)
Lemma logout_keeps_session_token :
  let env := Examples.always Browser.NoAnswer in
  let signedIn :=
    Browser.state_after
      (OrganizerLoginPage.handleLogin Examples.stringify (Examples.signInPage false))
      (Examples.always (Browser.Answer 200 (Examples.signedIn "xyz"))) Examples.fresh in
  let b' := Browser.state_after (AuthContext.logout AuthContext.initial) env signedIn in
  Browser.getItem (Browser.sessionStorage b') "token" = Some "xyz" ∧
  Browser.getItem (Browser.sessionStorage b') "user" = Some "{alice}" ∧
  Browser.headers (Axios.outgoing "get" "/events" Wire.NoBody ∅ env b') !! "Authorization"
  = Some "Bearer xyz".
Proof. vm_compute. repeat split. Qed.

(** ** The role-gated route *)

Lemma role_text_matches (r : Wire.Role) (q : Routes.RequiredRole) :
  String.eqb (Routes.role_text r) (Routes.required_text q) = true ↔ r = Spec.role_of q.
Proof. destruct r, q; simpl; split; congruence. Qed.

(** C5 fails as stated: while the session store is still loading, as it is
    on start, there is no user and yet the route does not redirect to the
    sign-in page; it shows the loading placeholder. *)
Lemma route_waits_while_loading :
  AuthContext.user AuthContext.initial = None ∧
  Routes.ProtectedRoute AuthContext.initial (Some Routes.required_admin)
    = Routes.LoadingPlaceholder ∧
  Routes.ProtectedRoute AuthContext.initial (Some Routes.required_admin)
    ≠ Routes.NavigateTo "/signin".
Proof. split; [reflexivity|]. split; [reflexivity | discriminate]. Qed.

(** C5, as the code has it.  While the session store is loading the route
    renders a loading placeholder.  Once it has loaded, there are three
    outcomes: without a user, a redirect to "/signin"; with a user whose
    role differs from the required role, a redirect to "/"; with a user of
    the required role, the protected content.  The outcome depends on the
    store's user and loading flag and on the required role only. *)
Theorem protected_route_outcomes
    (auth : AuthContext.AuthState) (required : Routes.RequiredRole) :
  (AuthContext.loading auth = true →
   Routes.ProtectedRoute auth (Some required) = Routes.LoadingPlaceholder) ∧
  (AuthContext.loading auth = false →
   (AuthContext.user auth = None →
    Routes.ProtectedRoute auth (Some required) = Routes.NavigateTo "/signin") ∧
   (∀ u, AuthContext.user auth = Some u → Wire.role u ≠ Spec.role_of required →
         Routes.ProtectedRoute auth (Some required) = Routes.NavigateTo "/") ∧
   (∀ u, AuthContext.user auth = Some u → Wire.role u = Spec.role_of required →
         Routes.ProtectedRoute auth (Some required) = Routes.Children)) ∧
  (∀ auth', AuthContext.user auth' = AuthContext.user auth →
            AuthContext.loading auth' = AuthContext.loading auth →
            Routes.ProtectedRoute auth' (Some required) =
            Routes.ProtectedRoute auth (Some required)).
Proof.
  unfold Routes.ProtectedRoute. split; [|split].
  - by intros ->.
  - intros ->. split; [|split].
    + by intros ->.
    + intros u -> Hne.
      destruct (String.eqb _ _) eqn:E; [|done].
      by apply role_text_matches in E.
    + intros u -> Heq. apply role_text_matches in Heq. by rewrite Heq.
  - by intros auth' -> ->.
Qed.

Lemma protected_route_outcomes_witness :
  Routes.ProtectedRoute
    {| AuthContext.user := None; AuthContext.token := None; AuthContext.loading := false |}
    (Some Routes.required_admin) = Routes.NavigateTo "/signin" ∧
  Routes.ProtectedRoute
    {| AuthContext.user := Some Examples.alice; AuthContext.token := Some "abc";
       AuthContext.loading := false |}
    (Some Routes.required_admin) = Routes.NavigateTo "/" ∧
  Routes.ProtectedRoute
    {| AuthContext.user := Some Examples.alice; AuthContext.token := Some "abc";
       AuthContext.loading := false |}
    (Some Routes.required_organizer) = Routes.Children.
Proof.
  split; [|split].
  - apply (protected_route_outcomes
             {| AuthContext.user := None; AuthContext.token := None;
                AuthContext.loading := false |} Routes.required_admin); reflexivity.
  - apply (protected_route_outcomes
             {| AuthContext.user := Some Examples.alice; AuthContext.token := Some "abc";
                AuthContext.loading := false |} Routes.required_admin)
      with (u := Examples.alice); [reflexivity | reflexivity | discriminate].
  - apply (protected_route_outcomes
             {| AuthContext.user := Some Examples.alice; AuthContext.token := Some "abc";
                AuthContext.loading := false |} Routes.required_organizer)
      with (u := Examples.alice); reflexivity.
Defined.

(** ** The catalog and the approval status *)






(** ** The submission form *)

Lemma ticketFilled_spec (t : Wire.TicketType) :
  CreateEvent.ticketFilled t = true ↔
  Wire.name t ≠ "" ∧ Wire.price t ≠ "" ∧ Wire.quantity t ≠ "".
Proof.
  unfold CreateEvent.ticketFilled. rewrite !andb_true_iff, !truthy_spec. tauto.
Qed.

Lemma hasValidTicket_spec (l : list Wire.TicketType) :
  CreateEvent.hasValidTicket l = true ↔ ∃ t, In t l ∧ CreateEvent.ticketFilled t = true.
Proof.
  induction l as [|t l IH]; simpl.
  - split; [done | by intros (t & [] & _)].
  - destruct (CreateEvent.ticketFilled t) eqn:E.
    + split; [intros _; exists t; auto | done].
    + rewrite IH. split.
      * intros (t' & Hin & Ht'). exists t'. auto.
      * intros (t' & [<- | Hin] & Ht'); [congruence | by exists t'].
Qed.

Lemma require_other (ok : bool) (field text k : string)
    (acc : gmap string string * bool) :
  field ≠ k → fst (CreateEvent.require ok field text acc) !! k = fst acc !! k.
Proof.
  intros Hne. unfold CreateEvent.require. destruct ok; [done|].
  simpl. by rewrite lookup_insert_ne.
Qed.

Lemma validateForm_tickets (f : CreateEvent.Form) :
  fst (CreateEvent.validateForm f) !! "tickets" = None ↔
  CreateEvent.hasValidTicket (CreateEvent.ticketTypes f) = true.
Proof.
  unfold CreateEvent.validateForm.
  destruct (CreateEvent.hasValidTicket (CreateEvent.ticketTypes f)).
  - unfold CreateEvent.require at 1. rewrite !require_other by done. simpl.
    by rewrite lookup_empty.
  - unfold CreateEvent.require at 1. simpl. by rewrite lookup_insert_eq.
Qed.

Lemma handleSubmit_dispatch (f : CreateEvent.Form) (env : Browser.Env) (b : Browser.State) :
  snd (CreateEvent.validateForm f) = true →
  ∃ rest,
    Browser.effects_of (CreateEvent.handleSubmit f) env b =
    Browser.Http (Axios.outgoing "post" "/public/events"
                    (Wire.EventBody (CreateEvent.eventData f)) ∅ env b) :: rest.
Proof.
  intros Hvalid. unfold Browser.effects_of, CreateEvent.handleSubmit.
  destruct (CreateEvent.validateForm f) as [newErrors isValid]. simpl in Hvalid.
  subst isValid. cbn [negb].
  unfold Browser.bind at 1. unfold Browser.try_catch.
  unfold Browser.bind at 1. unfold Axios.post.
  rewrite request_run. cbv zeta.
  destruct (Browser.server env _) as [st d|].
  - destruct (Browser.resolves st).
    + destruct (Wire.success d); trace_effects; eauto.
    + destruct (st =? 401); trace_effects; eauto.
  - trace_effects; eauto.
Qed.

(** C4 fails as stated: a tier with a name, a price and the quantity "0"
    passes validation and is part of the posted payload, though its
    quantity is not at least 1. *)
Lemma zero_quantity_tier_is_submitted :
  let f := Examples.form [Examples.soldOut] in
  snd (CreateEvent.validateForm f) = true ∧
  Wire.ed_tickets (CreateEvent.eventData f) = [Examples.soldOut] ∧
  ¬ Spec.tier_valid Examples.soldOut.
Proof.
  cbv zeta. split; [by vm_compute|]. split; [reflexivity|].
  intros (_ & _ & q & Hq & Hle). vm_compute in Hq. injection Hq as <-. lia.
Qed.

(** C4, as the code has it.  The posted payload holds exactly the tiers
    whose name, price and quantity are all non-empty, in their order; no
    numeric test is applied.  Other tiers are left out without an error of
    their own: the form's ticket error appears only when no tier at all is
    filled in.  A valid form posts this payload.  Of two tiers of which one
    has an empty name and the other is filled in, only the latter is
    posted. *)
Theorem submitted_tiers_are_the_filled_ones
    (f : CreateEvent.Form) (env : Browser.Env) (b : Browser.State) :
  (∀ t, In t (Wire.ed_tickets (CreateEvent.eventData f)) ↔
        In t (CreateEvent.ticketTypes f) ∧
        Wire.name t ≠ "" ∧ Wire.price t ≠ "" ∧ Wire.quantity t ≠ "") ∧
  sublist (Wire.ed_tickets (CreateEvent.eventData f)) (CreateEvent.ticketTypes f) ∧
  (fst (CreateEvent.validateForm f) !! "tickets" = None ↔
   ∃ t, In t (CreateEvent.ticketTypes f) ∧ CreateEvent.ticketFilled t = true) ∧
  (snd (CreateEvent.validateForm f) = true →
   ∃ rest,
     Browser.effects_of (CreateEvent.handleSubmit f) env b =
     Browser.Http (Axios.outgoing "post" "/public/events"
                     (Wire.EventBody (CreateEvent.eventData f)) ∅ env b) :: rest) ∧
  (∀ good bad,
     CreateEvent.ticketFilled good = true → Wire.name bad = "" →
     CreateEvent.ticketTypes f = [good; bad] ∨ CreateEvent.ticketTypes f = [bad; good] →
     Wire.ed_tickets (CreateEvent.eventData f) = [good]).
Proof.
  split; [|split; [|split; [|split]]].
  - intros t. simpl. by rewrite filter_In, ticketFilled_spec.
  - simpl. apply filter_sublist.
  - by rewrite validateForm_tickets, hasValidTicket_spec.
  - apply handleSubmit_dispatch.
  - intros good bad Hgood Hbad Hshape. simpl.
    assert (Hnot : CreateEvent.ticketFilled bad = false).
    { unfold CreateEvent.ticketFilled. by rewrite Hbad. }
    destruct Hshape as [-> | ->]; simpl; by rewrite Hgood, Hnot.
Qed.

Lemma submitted_tiers_are_the_filled_ones_witness :
  Wire.ed_tickets (CreateEvent.eventData (Examples.form [Examples.vip; Examples.unnamed]))
    = [Examples.vip] ∧
  ∃ rest,
    Browser.effects_of
      (CreateEvent.handleSubmit (Examples.form [Examples.vip; Examples.unnamed]))
      (Examples.always (Browser.Answer 201 (Examples.envelope true))) Examples.fresh =
    Browser.Http
      (Axios.outgoing "post" "/public/events"
         (Wire.EventBody
            (CreateEvent.eventData (Examples.form [Examples.vip; Examples.unnamed]))) ∅
         (Examples.always (Browser.Answer 201 (Examples.envelope true))) Examples.fresh)
    :: rest.
Proof.
  destruct (submitted_tiers_are_the_filled_ones
              (Examples.form [Examples.vip; Examples.unnamed])
              (Examples.always (Browser.Answer 201 (Examples.envelope true)))
              Examples.fresh) as (_ & _ & _ & Hpost & Hpair).
  split.
  - apply (Hpair Examples.vip Examples.unnamed); [reflexivity | reflexivity |].
    left. reflexivity.
  - apply Hpost. by vm_compute.
Defined.

(** * Further properties of the session store and the API client *)

(** X1.  What [login] writes is what a reload reads: after [login] with a
    non-empty token, for a user whose serialization is non-empty and parses
    back to the user, the mount effect of a fresh provider yields that user
    and that token and the session counts as authenticated. *)
Theorem login_survives_reload
    (JSON_parse : string → option Wire.User) (JSON_stringify : Wire.User → string)
    (newToken : string) (u : Wire.User) (st : AuthContext.AuthState)
    (env : Browser.Env) (b : Browser.State) :
  newToken ≠ "" →
  JSON_stringify u ≠ "" →
  JSON_parse (JSON_stringify u) = Some u →
  let stored := Browser.state_after (AuthContext.login JSON_stringify newToken u st) env b in
  Browser.getItem (Browser.localStorage stored) "token" = Some newToken ∧
  Browser.getItem (Browser.localStorage stored) "user" = Some (JSON_stringify u) ∧
  Browser.result_of (AuthContext.loadUserFromStorage JSON_parse AuthContext.initial)
    env stored =
  Browser.Normal {| AuthContext.user := Some u; AuthContext.token := Some newToken;
                    AuthContext.loading := false |}.
Proof.
  intros Hne Hser Hparse. cbv zeta.
  assert (Ht : Browser.getItem
                 (Browser.localStorage
                    (Browser.state_after (AuthContext.login JSON_stringify newToken u st) env b))
                 "token" = Some newToken).
  { unfold Browser.getItem. simpl. unfold Browser.setItem.
    rewrite lookup_insert_ne by done. apply lookup_insert_eq. }
  assert (Hu : Browser.getItem
                 (Browser.localStorage
                    (Browser.state_after (AuthContext.login JSON_stringify newToken u st) env b))
                 "user" = Some (JSON_stringify u)).
  { unfold Browser.getItem. simpl. apply lookup_insert_eq. }
  split; [exact Ht|]. split; [exact Hu|].
  unfold Browser.result_of.
  by rewrite (loadUserFromStorage_hydrate JSON_parse AuthContext.initial env _
                newToken (JSON_stringify u) u).
Qed.

Lemma login_survives_reload_witness :
  Browser.result_of (AuthContext.loadUserFromStorage Examples.parse AuthContext.initial)
    (Examples.always Browser.NoAnswer)
    (Browser.state_after
       (AuthContext.login Examples.stringify "abc" Examples.alice Examples.anonymous)
       (Examples.always Browser.NoAnswer) Examples.fresh) =
  Browser.Normal {| AuthContext.user := Some Examples.alice; AuthContext.token := Some "abc";
                    AuthContext.loading := false |}.
Proof.
  apply (login_survives_reload Examples.parse Examples.stringify "abc" Examples.alice
           Examples.anonymous (Examples.always Browser.NoAnswer) Examples.fresh);
    [discriminate | discriminate | reflexivity].
Defined.

(** X2.  After [login] with a non-empty token every request made through
    the API client goes out with "Bearer" and that token, whatever headers
    the request sets itself and whatever session storage holds. *)
Theorem login_token_on_every_request
    (JSON_stringify : Wire.User → string) (newToken : string) (u : Wire.User)
    (st : AuthContext.AuthState) (env : Browser.Env) (b : Browser.State) :
  newToken ≠ "" →
  ∀ method url body own env',
    Browser.headers
      (Axios.outgoing method url body own env'
         (Browser.state_after (AuthContext.login JSON_stringify newToken u st) env b))
      !! "Authorization" = Some ("Bearer " +:+ newToken).
Proof.
  intros Hne method url body own env'. unfold Axios.outgoing.
  rewrite (requestInterceptor_local _ _ _ newToken).
  - simpl. apply lookup_insert_eq.
  - split; [|done]. unfold Browser.getItem. simpl. unfold Browser.setItem.
    rewrite lookup_insert_ne by done. apply lookup_insert_eq.
Qed.

Lemma login_token_on_every_request_witness :
  Browser.headers
    (Axios.outgoing "get" "/admin/dashboard" Wire.NoBody {[ "Authorization" := "Basic x" ]}
       (Examples.always Browser.NoAnswer)
       (Browser.state_after
          (AuthContext.login Examples.stringify "abc" Examples.root Examples.anonymous)
          (Examples.always Browser.NoAnswer) Examples.sessionOnly))
    !! "Authorization" = Some "Bearer abc".
Proof.
  apply (login_token_on_every_request Examples.stringify "abc" Examples.root
           Examples.anonymous (Examples.always Browser.NoAnswer) Examples.sessionOnly).
  discriminate.
Defined.

(** X3.  A stored user that does not parse stops the mount effect with a
    syntax error: the browser state is left as it was, no default header is
    set, and the provider's state is not updated, so its loading flag is
    never cleared. *)
Theorem unparsable_user_stops_hydration
    (JSON_parse : string → option Wire.User) (st : AuthContext.AuthState)
    (env : Browser.Env) (b : Browser.State) (t su : string) :
  Spec.holds (Browser.localStorage b) "token" t →
  Spec.holds (Browser.localStorage b) "user" su →
  JSON_parse su = None →
  AuthContext.loadUserFromStorage JSON_parse st env b =
  (Browser.Throw Browser.SyntaxError, b).
Proof.
  intros [Ht Htt]%holds_truthy [Hu Hut]%holds_truthy Hparse.
  unfold AuthContext.loadUserFromStorage.
  unfold Browser.bind at 1. unfold Browser.get at 1.
  rewrite Ht, Hu, Htt, Hut, Hparse. reflexivity.
Qed.

Lemma unparsable_user_stops_hydration_witness :
  AuthContext.loadUserFromStorage Examples.parse AuthContext.initial
    (Examples.always Browser.NoAnswer) Examples.corrupted =
  (Browser.Throw Browser.SyntaxError, Examples.corrupted).
Proof.
  apply (unparsable_user_stops_hydration Examples.parse AuthContext.initial
           (Examples.always Browser.NoAnswer) Examples.corrupted "abc" "{alice").
  - split; [reflexivity | discriminate].
  - split; [reflexivity | discriminate].
  - reflexivity.
Defined.

Lemma unauthorized_reply_clears_credentials_parts
    (method url : string) (body : Wire.Body) (own : gmap string string)
    (env : Browser.Env) (b : Browser.State) (d : Wire.ResponseData) :
  Browser.server env (Axios.outgoing method url body own env b) = Browser.Answer 401 d →
  let b' := Browser.state_after (Axios.request method url body own) env b in
  Browser.defaults_common b' = Browser.defaults_common b ∧
  Browser.getItem (Browser.localStorage b') "token" = None ∧
  Browser.getItem (Browser.sessionStorage b') "token" = None.
Proof.
  intros Hreply. cbv zeta. unfold Browser.state_after.
  rewrite request_run. cbv zeta. rewrite Hreply. simpl.
  pose proof (clearCredentials_storage
                (Browser.record
                   (Browser.Http (Axios.outgoing method url body own env b)) b))
    as (H1 & _ & H3 & _).
  by repeat split.
Qed.

(** X4.  The 401 handler clears the two storage tiers only: the client's
    default headers stay as they were.  So a default [Authorization]
    header, as [login] sets it, is still sent with the next request that
    brings no [Authorization] of its own. *)
Theorem unauthorized_reply_keeps_default_header
    (method url : string) (body : Wire.Body) (own : gmap string string)
    (env : Browser.Env) (b : Browser.State) (d : Wire.ResponseData) :
  Browser.server env (Axios.outgoing method url body own env b) = Browser.Answer 401 d →
  let b' := Browser.state_after (Axios.request method url body own) env b in
  Browser.defaults_common b' = Browser.defaults_common b ∧
  ∀ v method' url' body' own' env',
    Browser.defaults_common b !! "Authorization" = Some v →
    own' !! "Authorization" = None →
    Browser.headers (Axios.outgoing method' url' body' own' env' b') !! "Authorization"
    = Some v.
Proof.
  intros Hreply. cbv zeta.
  destruct (unauthorized_reply_clears_credentials_parts method url body own env b d Hreply)
    as (Hdef & Hlocal & Hsession).
  split; [exact Hdef|].
  intros v method' url' body' own' env' Hv Hown. unfold Axios.outgoing.
  rewrite requestInterceptor_none; [|by left|by left].
  simpl. rewrite Hdef.
  apply lookup_union_Some_l. rewrite lookup_union_r by done. exact Hv.
Qed.

Lemma unauthorized_reply_keeps_default_header_witness :
  let env := Examples.always (Browser.Answer 401 (Examples.envelope false)) in
  let signedIn :=
    Browser.state_after
      (AuthContext.login Examples.stringify "abc" Examples.root Examples.anonymous)
      env Examples.fresh in
  let rejected :=
    Browser.state_after (Axios.request "get" "/admin/dashboard" Wire.NoBody ∅) env signedIn in
  Browser.headers (Axios.outgoing "get" "/admin/events/pending" Wire.NoBody ∅ env rejected)
    !! "Authorization" = Some "Bearer abc".
Proof.
  cbv zeta.
  apply (unauthorized_reply_keeps_default_header "get" "/admin/dashboard" Wire.NoBody ∅
           (Examples.always (Browser.Answer 401 (Examples.envelope false)))
           (Browser.state_after
              (AuthContext.login Examples.stringify "abc" Examples.root Examples.anonymous)
              (Examples.always (Browser.Answer 401 (Examples.envelope false)))
              Examples.fresh)
           (Examples.envelope false) eq_refl);
    reflexivity.
Defined.

(** X5.  Only a 401 touches the stored session.  When the reply is not a
    401, the request leaves both storage tiers and the default headers as
    they were and its only effect is the request itself: a 2xx reply is
    returned to the caller, any other reply and a missing reply are thrown. *)
Theorem other_replies_keep_credentials
    (method url : string) (body : Wire.Body) (own : gmap string string)
    (env : Browser.Env) (b : Browser.State) :
  (∀ d, Browser.server env (Axios.outgoing method url body own env b)
        ≠ Browser.Answer 401 d) →
  let b' := Browser.state_after (Axios.request method url body own) env b in
  Browser.localStorage b' = Browser.localStorage b ∧
  Browser.sessionStorage b' = Browser.sessionStorage b ∧
  Browser.defaults_common b' = Browser.defaults_common b ∧
  Browser.effects_of (Axios.request method url body own) env b =
    [Browser.Http (Axios.outgoing method url body own env b)] ∧
  Browser.result_of (Axios.request method url body own) env b =
  match Browser.server env (Axios.outgoing method url body own env b) with
  | Browser.Answer status d =>
      if Browser.resolves status then Browser.Normal d
      else Browser.Throw (Browser.AxiosError (Some (status, d)))
  | Browser.NoAnswer => Browser.Throw (Browser.AxiosError None)
  end.
Proof.
  intros Hnot. cbv zeta.
  unfold Browser.state_after, Browser.effects_of, Browser.result_of.
  rewrite request_run. cbv zeta.
  destruct (Browser.server env _) as [status d|] eqn:Hreply.
  - destruct (Browser.resolves status) eqn:Hres.
    + simpl. repeat split. apply drop_trace.
    + destruct (Z.eqb_spec status 401) as [->|Hne].
      * by destruct (Hnot d).
      * simpl. repeat split. apply drop_trace.
  - simpl. repeat split. apply drop_trace.
Qed.

Lemma other_replies_keep_credentials_witness :
  Browser.localStorage
    (Browser.state_after (Axios.request "get" "/events" Wire.NoBody ∅)
       (Examples.always (Browser.Answer 500 (Examples.envelope false))) Examples.bothTiers)
  = Browser.localStorage Examples.bothTiers ∧
  Browser.result_of (Axios.request "get" "/events" Wire.NoBody ∅)
    (Examples.always Browser.NoAnswer) Examples.bothTiers =
  Browser.Throw (Browser.AxiosError None).
Proof.
  split.
  - apply (other_replies_keep_credentials "get" "/events" Wire.NoBody ∅
             (Examples.always (Browser.Answer 500 (Examples.envelope false)))
             Examples.bothTiers).
    intros d. discriminate.
  - apply (other_replies_keep_credentials "get" "/events" Wire.NoBody ∅
             (Examples.always Browser.NoAnswer) Examples.bothTiers).
    intros d. discriminate.
Defined.

(** * Further properties of the sign-in pages *)

Lemma emailRegex_nonempty (s : string) : JS.emailRegex_test s = true → JS.truthy s = true.
Proof. by destruct s. Qed.

Ltac enter_handleLogin Hre Hpw :=
  unfold OrganizerLoginPage.handleLogin, OrganizerLoginPage.validateEmail;
  cbn -[JS.truthy JS.emailRegex_test];
  rewrite (emailRegex_nonempty _ Hre), Hre; cbn -[JS.truthy JS.emailRegex_test];
  rewrite Hpw; cbn -[JS.truthy JS.emailRegex_test];
  unfold Browser.bind at 1; unfold Browser.try_catch; unfold Browser.bind at 1;
  unfold Axios.post; rewrite request_run; cbv zeta.

Lemma handleLogin_other_role (stringify : Wire.User → string)
    (p : OrganizerLoginPage.Page) (env : Browser.Env) (b : Browser.State)
    (status : Z) (d : Wire.ResponseData) (u : Wire.User) :
  JS.emailRegex_test (OrganizerLoginPage.email p) = true →
  JS.truthy (OrganizerLoginPage.password p) = true →
  Browser.server env (OrganizerLoginPage.signInRequest p env b) = Browser.Answer status d →
  Browser.resolves status = true → Wire.success d = true → Wire.user d = Some u →
  Wire.role u ≠ Wire.role_organizer →
  OrganizerLoginPage.handleLogin stringify p env b =
  (Browser.Normal
     (OrganizerLoginPage.with_isLoading false
        (OrganizerLoginPage.with_generalError
           "This account is not registered as an organizer" (OrganizerLoginPage.submitted p))),
   Browser.record (Browser.ToastError "This account is not registered as an organizer")
     (Browser.record (Browser.Http (OrganizerLoginPage.signInRequest p env b)) b)).
Proof.
  intros Hre Hpw Hreply Hres Hok Hu Hrole. unfold OrganizerLoginPage.signInRequest in *.
  enter_handleLogin Hre Hpw. rewrite Hreply, Hres, Hok, Hu.
  destruct (Wire.role u); try reflexivity. by destruct Hrole.
Qed.

Lemma handleLogin_organizer (stringify : Wire.User → string)
    (p : OrganizerLoginPage.Page) (env : Browser.Env) (b : Browser.State)
    (status : Z) (d : Wire.ResponseData) (u : Wire.User) :
  JS.emailRegex_test (OrganizerLoginPage.email p) = true →
  JS.truthy (OrganizerLoginPage.password p) = true →
  Browser.server env (OrganizerLoginPage.signInRequest p env b) = Browser.Answer status d →
  Browser.resolves status = true → Wire.success d = true → Wire.user d = Some u →
  Wire.role u = Wire.role_organizer →
  OrganizerLoginPage.handleLogin stringify p env b =
  (Browser.Normal (OrganizerLoginPage.with_isLoading false (OrganizerLoginPage.submitted p)),
   Browser.record (Browser.Navigate "/organizer-portal")
     (Browser.record (Browser.ToastSuccess "Successfully logged in!")
        (Browser.state_after
           (OrganizerLoginPage.store stringify (OrganizerLoginPage.rememberMe p) d u) env
           (Browser.record (Browser.Http (OrganizerLoginPage.signInRequest p env b)) b)))).
Proof.
  intros Hre Hpw Hreply Hres Hok Hu Hrole. unfold OrganizerLoginPage.signInRequest in *.
  enter_handleLogin Hre Hpw. rewrite Hreply, Hres, Hok, Hu, Hrole.
  unfold Browser.state_after, OrganizerLoginPage.store.
  by destruct (OrganizerLoginPage.rememberMe p).
Qed.

Lemma handleLogin_unauthorized (stringify : Wire.User → string)
    (p : OrganizerLoginPage.Page) (env : Browser.Env) (b : Browser.State)
    (d : Wire.ResponseData) :
  JS.emailRegex_test (OrganizerLoginPage.email p) = true →
  JS.truthy (OrganizerLoginPage.password p) = true →
  Browser.server env (OrganizerLoginPage.signInRequest p env b) = Browser.Answer 401 d →
  OrganizerLoginPage.handleLogin stringify p env b =
  (Browser.Normal
     (OrganizerLoginPage.with_isLoading false
        (OrganizerLoginPage.with_passwordError "Invalid email or password" (OrganizerLoginPage.submitted p))),
   Browser.record (Browser.ToastError "Invalid email or password")
     (Axios.clearCredentials (Browser.record (Browser.Http (OrganizerLoginPage.signInRequest p env b)) b))).
Proof.
  intros Hre Hpw Hreply. unfold OrganizerLoginPage.signInRequest in *.
  enter_handleLogin Hre Hpw. by rewrite Hreply.
Qed.

(** X6.  The organizer's sign-in validates before it sends.  If the e-mail
    does not match the pattern (the empty e-mail included) or the password
    is empty, the handler has no effect and leaves the browser as it was,
    with an e-mail or password error on the page; otherwise its first
    effect is the sign-in request with the typed e-mail and password. *)
Theorem sign_in_validates_before_sending
    (stringify : Wire.User → string) (p : OrganizerLoginPage.Page)
    (env : Browser.Env) (b : Browser.State) :
  (JS.emailRegex_test (OrganizerLoginPage.email p) = false ∨
   OrganizerLoginPage.password p = "" →
   ∃ p', OrganizerLoginPage.handleLogin stringify p env b = (Browser.Normal p', b) ∧
         OrganizerLoginPage.isLoading p' = OrganizerLoginPage.isLoading p ∧
         (OrganizerLoginPage.emailError p' ≠ "" ∨ OrganizerLoginPage.passwordError p' ≠ "")) ∧
  (JS.emailRegex_test (OrganizerLoginPage.email p) = true →
   OrganizerLoginPage.password p ≠ "" →
   ∃ rest,
     Browser.effects_of (OrganizerLoginPage.handleLogin stringify p) env b =
     Browser.Http (OrganizerLoginPage.signInRequest p env b) :: rest).
Proof.
  split.
  - intros Hbad.
    unfold OrganizerLoginPage.handleLogin, OrganizerLoginPage.validateEmail.
    cbn -[JS.truthy JS.emailRegex_test].
    destruct (JS.truthy (OrganizerLoginPage.email p)) eqn:Hem;
      cbn -[JS.truthy JS.emailRegex_test].
    + destruct (JS.emailRegex_test (OrganizerLoginPage.email p)) eqn:Hre;
        cbn -[JS.truthy JS.emailRegex_test].
      * destruct Hbad as [Hbad | Hpw]; [discriminate|]. rewrite Hpw. simpl.
        eexists. split; [reflexivity|]. split; [reflexivity|]. right. discriminate.
      * destruct (JS.truthy (OrganizerLoginPage.password p)); simpl;
          (eexists; split; [reflexivity|]; split; [reflexivity|]; left; discriminate).
    + destruct (JS.truthy (OrganizerLoginPage.password p)); simpl;
        (eexists; split; [reflexivity|]; split; [reflexivity|]; left; discriminate).
  - intros Hre Hpw%truthy_spec.
    unfold Browser.effects_of, OrganizerLoginPage.signInRequest.
    enter_handleLogin Hre Hpw.
    destruct (Browser.server env _) as [st d|].
    + destruct (Browser.resolves st).
      * destruct (Wire.success d).
        -- destruct (Wire.user d) as [u|].
           ++ destruct (Wire.role u), (OrganizerLoginPage.rememberMe p);
                trace_effects; eauto.
           ++ trace_effects; eauto.
        -- trace_effects; eauto.
      * destruct (st =? 401); [trace_effects; eauto|].
        destruct (st =? 400); trace_effects; eauto.
    + trace_effects; eauto.
Qed.

Lemma sign_in_validates_before_sending_witness :
  (∃ p', OrganizerLoginPage.handleLogin Examples.stringify
           Examples.mistypedPage
           (Examples.always (Browser.Answer 200 (Examples.signedIn "xyz"))) Examples.fresh
         = (Browser.Normal p', Examples.fresh)) ∧
  ∃ rest,
    Browser.effects_of
      (OrganizerLoginPage.handleLogin Examples.stringify (Examples.signInPage true))
      (Examples.always (Browser.Answer 200 (Examples.signedIn "xyz"))) Examples.fresh =
    Browser.Http
      (OrganizerLoginPage.signInRequest (Examples.signInPage true)
         (Examples.always (Browser.Answer 200 (Examples.signedIn "xyz"))) Examples.fresh)
    :: rest.
Proof.
  split.
  - destruct (sign_in_validates_before_sending Examples.stringify
                Examples.mistypedPage
                (Examples.always (Browser.Answer 200 (Examples.signedIn "xyz")))
                Examples.fresh) as [Hgate _].
    destruct (Hgate (or_introl eq_refl)) as (p' & Hrun & _). by exists p'.
  - apply (sign_in_validates_before_sending Examples.stringify (Examples.signInPage true));
      [reflexivity | discriminate].
Defined.

(** X7.  A successful sign-in of an account that is not an organizer's
    stores nothing: both storage tiers and the default headers are as
    before, the user gets an error toast and is not sent to the portal. *)
Theorem sign_in_refuses_other_roles
    (stringify : Wire.User → string) (p : OrganizerLoginPage.Page)
    (env : Browser.Env) (b : Browser.State)
    (status : Z) (d : Wire.ResponseData) (u : Wire.User) :
  JS.emailRegex_test (OrganizerLoginPage.email p) = true →
  OrganizerLoginPage.password p ≠ "" →
  Browser.server env (OrganizerLoginPage.signInRequest p env b) = Browser.Answer status d →
  Browser.resolves status = true → Wire.success d = true → Wire.user d = Some u →
  Wire.role u ≠ Wire.role_organizer →
  let run := OrganizerLoginPage.handleLogin stringify p in
  Browser.localStorage (Browser.state_after run env b) = Browser.localStorage b ∧
  Browser.sessionStorage (Browser.state_after run env b) = Browser.sessionStorage b ∧
  Browser.defaults_common (Browser.state_after run env b) = Browser.defaults_common b ∧
  Browser.effects_of run env b =
    [Browser.Http (OrganizerLoginPage.signInRequest p env b);
     Browser.ToastError "This account is not registered as an organizer"] ∧
  Browser.no_redirect (Browser.effects_of run env b).
Proof.
  intros Hre Hpw%truthy_spec Hreply Hres Hok Hu Hrole. cbv zeta.
  unfold Browser.state_after, Browser.effects_of, Browser.no_redirect.
  rewrite (handleLogin_other_role stringify p env b status d u) by done.
  simpl. rewrite <- app_assoc, drop_trace. by repeat split.
Qed.

Lemma sign_in_refuses_other_roles_witness :
  Browser.sessionStorage
    (Browser.state_after
       (OrganizerLoginPage.handleLogin Examples.stringify (Examples.signInPage false))
       (Examples.always (Browser.Answer 200 (Examples.signedInAs Examples.root "xyz")))
       Examples.fresh)
  = Browser.sessionStorage Examples.fresh.
Proof.
  apply (sign_in_refuses_other_roles Examples.stringify (Examples.signInPage false)
           (Examples.always (Browser.Answer 200 (Examples.signedInAs Examples.root "xyz")))
           Examples.fresh 200 (Examples.signedInAs Examples.root "xyz") Examples.root);
    try reflexivity; discriminate.
Defined.

(** X8.  A successful organizer sign-in writes the token and the
    serialized user to exactly one tier, durable storage with "remember me"
    and session storage without, and leaves the other tier and the default
    headers alone; it then announces success and navigates to the portal. *)
Theorem sign_in_stores_in_chosen_tier
    (stringify : Wire.User → string) (p : OrganizerLoginPage.Page)
    (env : Browser.Env) (b : Browser.State)
    (status : Z) (d : Wire.ResponseData) (u : Wire.User) (t : string) :
  JS.emailRegex_test (OrganizerLoginPage.email p) = true →
  OrganizerLoginPage.password p ≠ "" →
  Browser.server env (OrganizerLoginPage.signInRequest p env b) = Browser.Answer status d →
  Browser.resolves status = true → Wire.success d = true →
  Wire.user d = Some u → Wire.role u = Wire.role_organizer → Wire.token d = Some t →
  let run := OrganizerLoginPage.handleLogin stringify p in
  let b' := Browser.state_after run env b in
  (if OrganizerLoginPage.rememberMe p then
     Browser.getItem (Browser.localStorage b') "token" = Some t ∧
     Browser.getItem (Browser.localStorage b') "user" = Some (stringify u) ∧
     Browser.sessionStorage b' = Browser.sessionStorage b
   else
     Browser.getItem (Browser.sessionStorage b') "token" = Some t ∧
     Browser.getItem (Browser.sessionStorage b') "user" = Some (stringify u) ∧
     Browser.localStorage b' = Browser.localStorage b) ∧
  Browser.defaults_common b' = Browser.defaults_common b ∧
  Browser.effects_of run env b =
    [Browser.Http (OrganizerLoginPage.signInRequest p env b);
     Browser.ToastSuccess "Successfully logged in!";
     Browser.Navigate "/organizer-portal"].
Proof.
  intros Hre Hpw%truthy_spec Hreply Hres Hok Hu Hrole Ht. cbv zeta.
  unfold Browser.state_after at 1 2 3 4 5 6 7, Browser.effects_of.
  rewrite (handleLogin_organizer stringify p env b status d u) by done.
  unfold Browser.state_after, OrganizerLoginPage.store, Browser.getItem, Browser.setItem.
  rewrite Ht.
  destruct (OrganizerLoginPage.rememberMe p); simpl;
    rewrite <- !app_assoc, drop_trace;
    (split; [split; [rewrite lookup_insert_ne by done; apply lookup_insert_eq|];
             split; [apply lookup_insert_eq | reflexivity] | by split]).
Qed.

Lemma sign_in_stores_in_chosen_tier_witness :
  Browser.getItem
    (Browser.sessionStorage
       (Browser.state_after
          (OrganizerLoginPage.handleLogin Examples.stringify (Examples.signInPage false))
          (Examples.always (Browser.Answer 200 (Examples.signedIn "xyz"))) Examples.fresh))
    "token" = Some "xyz" ∧
  Browser.getItem
    (Browser.localStorage
       (Browser.state_after
          (OrganizerLoginPage.handleLogin Examples.stringify (Examples.signInPage true))
          (Examples.always (Browser.Answer 200 (Examples.signedIn "xyz"))) Examples.fresh))
    "token" = Some "xyz".
Proof.
  split.
  - apply (sign_in_stores_in_chosen_tier Examples.stringify (Examples.signInPage false)
             (Examples.always (Browser.Answer 200 (Examples.signedIn "xyz")))
             Examples.fresh 200 (Examples.signedIn "xyz") Examples.alice "xyz");
      try reflexivity; discriminate.
  - apply (sign_in_stores_in_chosen_tier Examples.stringify (Examples.signInPage true)
             (Examples.always (Browser.Answer 200 (Examples.signedIn "xyz")))
             Examples.fresh 200 (Examples.signedIn "xyz") Examples.alice "xyz");
      try reflexivity; discriminate.
Defined.

(** X9.  A sign-in attempt answered with 401 removes [token] and [user]
    from both storage tiers, so that it also ends a session stored before
    the attempt; the page shows "Invalid email or password" on the
    password field and is no longer loading. *)
Theorem rejected_sign_in_clears_stored_session
    (stringify : Wire.User → string) (p : OrganizerLoginPage.Page)
    (env : Browser.Env) (b : Browser.State) (d : Wire.ResponseData) :
  JS.emailRegex_test (OrganizerLoginPage.email p) = true →
  OrganizerLoginPage.password p ≠ "" →
  Browser.server env (OrganizerLoginPage.signInRequest p env b) = Browser.Answer 401 d →
  let run := OrganizerLoginPage.handleLogin stringify p in
  let b' := Browser.state_after run env b in
  Browser.getItem (Browser.localStorage b') "token" = None ∧
  Browser.getItem (Browser.localStorage b') "user" = None ∧
  Browser.getItem (Browser.sessionStorage b') "token" = None ∧
  Browser.getItem (Browser.sessionStorage b') "user" = None ∧
  (∃ p', Browser.result_of run env b = Browser.Normal p' ∧
         OrganizerLoginPage.passwordError p' = "Invalid email or password" ∧
         OrganizerLoginPage.isLoading p' = false) ∧
  Browser.effects_of run env b =
    [Browser.Http (OrganizerLoginPage.signInRequest p env b);
     Browser.ToastError "Invalid email or password"].
Proof.
  intros Hre Hpw%truthy_spec Hreply. cbv zeta.
  unfold Browser.state_after, Browser.result_of, Browser.effects_of.
  rewrite (handleLogin_unauthorized stringify p env b d) by done.
  pose proof (clearCredentials_storage
                (Browser.record
                   (Browser.Http (OrganizerLoginPage.signInRequest p env b)) b))
    as (H1 & H2 & H3 & H4).
  simpl. rewrite <- app_assoc, drop_trace.
  repeat split; try assumption. eexists. by repeat split.
Qed.

Lemma rejected_sign_in_clears_stored_session_witness :
  Browser.getItem
    (Browser.localStorage
       (Browser.state_after
          (OrganizerLoginPage.handleLogin Examples.stringify (Examples.signInPage false))
          (Examples.always (Browser.Answer 401 (Examples.envelope false)))
          Examples.remembered))
    "token" = None.
Proof.
  apply (rejected_sign_in_clears_stored_session Examples.stringify
           (Examples.signInPage false)
           (Examples.always (Browser.Answer 401 (Examples.envelope false)))
           Examples.remembered (Examples.envelope false));
    try reflexivity; discriminate.
Defined.

(** Where a successful organizer sign-in leaves the session. *)
Lemma sign_in_tiers
    (stringify : Wire.User → string) (p : OrganizerLoginPage.Page)
    (env : Browser.Env) (b : Browser.State)
    (status : Z) (d : Wire.ResponseData) (u : Wire.User) (t : string) :
  JS.emailRegex_test (OrganizerLoginPage.email p) = true →
  OrganizerLoginPage.password p ≠ "" →
  Browser.server env (OrganizerLoginPage.signInRequest p env b) = Browser.Answer status d →
  Browser.resolves status = true → Wire.success d = true →
  Wire.user d = Some u → Wire.role u = Wire.role_organizer → Wire.token d = Some t →
  let b' := Browser.state_after (OrganizerLoginPage.handleLogin stringify p) env b in
  (OrganizerLoginPage.rememberMe p = true →
   Browser.getItem (Browser.localStorage b') "token" = Some t ∧
   Browser.getItem (Browser.localStorage b') "user" = Some (stringify u) ∧
   Browser.sessionStorage b' = Browser.sessionStorage b) ∧
  (OrganizerLoginPage.rememberMe p = false →
   Browser.getItem (Browser.sessionStorage b') "token" = Some t ∧
   Browser.getItem (Browser.sessionStorage b') "user" = Some (stringify u) ∧
   Browser.localStorage b' = Browser.localStorage b).
Proof.
  intros Hre Hpw%truthy_spec Hreply Hres Hok Hu Hrole Ht. cbv zeta.
  unfold Browser.state_after at 1 2 3 4 5 6.
  rewrite (handleLogin_organizer stringify p env b status d u) by done.
  unfold Browser.state_after, OrganizerLoginPage.store, Browser.getItem, Browser.setItem.
  rewrite Ht.
  split; intros ->; simpl;
    (split; [rewrite lookup_insert_ne by done; apply lookup_insert_eq|];
     split; [apply lookup_insert_eq | reflexivity]).
Qed.

Lemma loadUserFromStorage_anonymous (JSON_parse : string → option Wire.User)
    (st : AuthContext.AuthState) (env : Browser.Env) (b : Browser.State) :
  Spec.holds_nothing (Browser.localStorage b) "token" ∨
  Spec.holds_nothing (Browser.localStorage b) "user" →
  AuthContext.loadUserFromStorage JSON_parse st env b =
  (Browser.Normal {| AuthContext.user := AuthContext.user st;
                     AuthContext.token := AuthContext.token st;
                     AuthContext.loading := false |}, b).
Proof.
  intros H. unfold AuthContext.loadUserFromStorage.
  unfold Browser.bind at 1. unfold Browser.get at 1.
  destruct H as [[H | H] | [H | H]]; rewrite H.
  - reflexivity.
  - destruct (Browser.getItem (Browser.localStorage b) "user"); reflexivity.
  - destruct (Browser.getItem (Browser.localStorage b) "token"); reflexivity.
  - destruct (Browser.getItem (Browser.localStorage b) "token") as [t|]; [|reflexivity].
    by rewrite andb_false_r.
Qed.

(** X10.  What a reload makes of an organizer's sign-in.  With "remember
    me" the reloaded session store hydrates the user and the organizer
    route renders its content.  Without it, and with no session in durable
    storage, the reloaded store is anonymous and the organizer route
    redirects to "/signin", although requests through the API client still
    carry the token from session storage. *)
Theorem sign_in_after_reload
    (JSON_parse : string → option Wire.User) (stringify : Wire.User → string)
    (p : OrganizerLoginPage.Page) (env : Browser.Env) (b : Browser.State)
    (status : Z) (d : Wire.ResponseData) (u : Wire.User) (t : string) :
  JS.emailRegex_test (OrganizerLoginPage.email p) = true →
  OrganizerLoginPage.password p ≠ "" →
  Browser.server env (OrganizerLoginPage.signInRequest p env b) = Browser.Answer status d →
  Browser.resolves status = true → Wire.success d = true →
  Wire.user d = Some u → Wire.role u = Wire.role_organizer →
  Wire.token d = Some t → t ≠ "" →
  let b' := Browser.state_after (OrganizerLoginPage.handleLogin stringify p) env b in
  let reload := AuthContext.loadUserFromStorage JSON_parse AuthContext.initial in
  (OrganizerLoginPage.rememberMe p = true →
   stringify u ≠ "" → JSON_parse (stringify u) = Some u →
   ∃ auth, Browser.result_of reload env b' = Browser.Normal auth ∧
           AuthContext.user auth = Some u ∧
           Routes.ProtectedRoute auth (Some Routes.required_organizer) = Routes.Children) ∧
  (OrganizerLoginPage.rememberMe p = false →
   Spec.holds_nothing (Browser.localStorage b) "token" →
   (∃ auth, Browser.result_of reload env b' = Browser.Normal auth ∧
            AuthContext.user auth = None ∧
            Routes.ProtectedRoute auth (Some Routes.required_organizer)
            = Routes.NavigateTo "/signin") ∧
   ∀ method url body own env',
     Browser.headers (Axios.outgoing method url body own env' b') !! "Authorization"
     = Some ("Bearer " +:+ t)).
Proof.
  intros Hre Hpw Hreply Hres Hok Hu Hrole Ht Hne. cbv zeta.
  destruct (sign_in_tiers stringify p env b status d u t Hre Hpw Hreply Hres Hok Hu Hrole Ht)
    as [Hyes Hno].
  split.
  - intros Hrm Hser Hparse. destruct (Hyes Hrm) as (Htok & Husr & _).
    unfold Browser.result_of.
    rewrite (loadUserFromStorage_hydrate JSON_parse AuthContext.initial env _ t (stringify u) u)
      by done.
    eexists. split; [reflexivity|]. split; [reflexivity|].
    unfold Routes.ProtectedRoute. simpl. by rewrite Hrole.
  - intros Hrm Hnone. destruct (Hno Hrm) as (Htok & _ & Hlocal). split.
    + unfold Browser.result_of.
      rewrite loadUserFromStorage_anonymous by (left; by rewrite Hlocal).
      eexists. by repeat split.
    + intros method url body own env'. unfold Axios.outgoing.
      rewrite (requestInterceptor_session _ _ _ t); [|by rewrite Hlocal|done].
      simpl. apply lookup_insert_eq.
Qed.

Lemma sign_in_after_reload_witness :
  (∃ auth,
     Browser.result_of (AuthContext.loadUserFromStorage Examples.parse AuthContext.initial)
       (Examples.always (Browser.Answer 200 (Examples.signedIn "xyz")))
       (Browser.state_after
          (OrganizerLoginPage.handleLogin Examples.stringify (Examples.signInPage true))
          (Examples.always (Browser.Answer 200 (Examples.signedIn "xyz"))) Examples.fresh)
     = Browser.Normal auth ∧
     AuthContext.user auth = Some Examples.alice ∧
     Routes.ProtectedRoute auth (Some Routes.required_organizer) = Routes.Children) ∧
  (∃ auth,
     Browser.result_of (AuthContext.loadUserFromStorage Examples.parse AuthContext.initial)
       (Examples.always (Browser.Answer 200 (Examples.signedIn "xyz")))
       (Browser.state_after
          (OrganizerLoginPage.handleLogin Examples.stringify (Examples.signInPage false))
          (Examples.always (Browser.Answer 200 (Examples.signedIn "xyz"))) Examples.fresh)
     = Browser.Normal auth ∧
     AuthContext.user auth = None ∧
     Routes.ProtectedRoute auth (Some Routes.required_organizer)
     = Routes.NavigateTo "/signin").
Proof.
  split.
  - apply (sign_in_after_reload Examples.parse Examples.stringify (Examples.signInPage true)
             (Examples.always (Browser.Answer 200 (Examples.signedIn "xyz")))
             Examples.fresh 200 (Examples.signedIn "xyz") Examples.alice "xyz");
      try reflexivity; discriminate.
  - apply (sign_in_after_reload Examples.parse Examples.stringify (Examples.signInPage false)
             (Examples.always (Browser.Answer 200 (Examples.signedIn "xyz")))
             Examples.fresh 200 (Examples.signedIn "xyz") Examples.alice "xyz");
      try reflexivity; try discriminate.
    left. reflexivity.
Defined.

(** * Further properties of the administrator's sign-in *)

Lemma adminLogin_sent (stringify : Wire.User → string) (p : AdminLogin.Page)
    (auth : AuthContext.AuthState) (env : Browser.Env) (b : Browser.State) :
  JS.truthy (AdminLogin.email p) = true → JS.truthy (AdminLogin.password p) = true →
  let config := Axios.outgoing "post" "/auth/signin"
                  (Wire.SignInBody (AdminLogin.email p) (AdminLogin.password p)) ∅ env b in
  let b1 := Browser.record (Browser.Http config) b in
  let sent := AdminLogin.with_error None (AdminLogin.with_isLoading true p) in
  AdminLogin.handleSubmit stringify p auth env b =
  match Browser.server env config with
  | Browser.Answer status d =>
      if Browser.resolves status then
        if Wire.success d then
          match Wire.user d with
          | Some userData =>
              match Wire.role userData with
              | Wire.role_admin =>
                  (Browser.Normal
                     (AdminLogin.with_isLoading false sent,
                      {| AuthContext.user := Some userData; AuthContext.token := Wire.token d;
                         AuthContext.loading := AuthContext.loading auth |}),
                   Browser.record (Browser.Navigate "/admin")
                     (Browser.record (Browser.ToastSuccess "Login successful!")
                        (Browser.state_after
                           (AuthContext.login stringify
                              (OrganizerLoginPage.token_text (Wire.token d)) userData auth)
                           env b1)))
              | _ =>
                  (Browser.Normal
                     (AdminLogin.with_isLoading false
                        (AdminLogin.with_error
                           (Some "Access denied. Only admin users can login here.") sent),
                      auth), b1)
              end
          | None =>
              (Browser.Normal
                 (AdminLogin.with_isLoading false
                    (AdminLogin.with_error (Some "Invalid credentials") sent), auth), b1)
          end
        else
          (Browser.Normal
             (AdminLogin.with_isLoading false
                (AdminLogin.with_error
                   (Some (JS.or_default (Wire.message d) "Login failed")) sent), auth), b1)
      else
        (Browser.Normal
           (AdminLogin.with_isLoading false
              (AdminLogin.with_error
                 (Some (JS.or_default (Wire.message d) "Invalid credentials")) sent), auth),
         if status =? 401 then Axios.clearCredentials b1 else b1)
  | Browser.NoAnswer =>
      (Browser.Normal
         (AdminLogin.with_isLoading false
            (AdminLogin.with_error (Some "Invalid credentials") sent), auth), b1)
  end.
Proof.
  intros Hem Hpw. cbv zeta. unfold AdminLogin.handleSubmit.
  rewrite Hem, Hpw. cbn [negb orb].
  unfold Browser.bind at 1. unfold Browser.try_catch. unfold Browser.bind at 1.
  unfold Axios.post. cbn [AdminLogin.email AdminLogin.password AdminLogin.with_error
                          AdminLogin.with_isLoading].
  rewrite request_run. cbv zeta.
  destruct (Browser.server env _) as [status d|]; [|reflexivity].
  destruct (Browser.resolves status).
  - destruct (Wire.success d); [|reflexivity].
    destruct (Wire.user d) as [userData|]; [|reflexivity].
    destruct (Wire.role userData); try reflexivity.
    unfold AdminLogin.login_with, Browser.state_after, OrganizerLoginPage.token_text.
    destruct (Wire.token d); reflexivity.
  - destruct (status =? 401); reflexivity.
Qed.

(** X11.  A successful administrator sign-in goes through the session
    store: the user and token are in the store's state, the token and the
    serialized user are in durable storage, the default header carries the
    bearer token, success is announced and the page moves to "/admin".
    With the store loaded, the admin route then renders its content. *)
Theorem admin_sign_in_opens_admin_route
    (stringify : Wire.User → string) (p : AdminLogin.Page)
    (auth : AuthContext.AuthState) (env : Browser.Env) (b : Browser.State)
    (status : Z) (d : Wire.ResponseData) (u : Wire.User) (t : string) :
  AdminLogin.email p ≠ "" → AdminLogin.password p ≠ "" →
  Browser.server env
    (Axios.outgoing "post" "/auth/signin"
       (Wire.SignInBody (AdminLogin.email p) (AdminLogin.password p)) ∅ env b)
  = Browser.Answer status d →
  Browser.resolves status = true → Wire.success d = true →
  Wire.user d = Some u → Wire.role u = Wire.role_admin → Wire.token d = Some t →
  let run := AdminLogin.handleSubmit stringify p auth in
  let b' := Browser.state_after run env b in
  (∃ p' auth',
     Browser.result_of run env b = Browser.Normal (p', auth') ∧
     AdminLogin.isLoading p' = false ∧ AdminLogin.error p' = None ∧
     AuthContext.user auth' = Some u ∧ AuthContext.token auth' = Some t ∧
     (AuthContext.loading auth = false →
      Routes.ProtectedRoute auth' (Some Routes.required_admin) = Routes.Children)) ∧
  Browser.getItem (Browser.localStorage b') "token" = Some t ∧
  Browser.getItem (Browser.localStorage b') "user" = Some (stringify u) ∧
  Browser.defaults_common b' !! "Authorization" = Some ("Bearer " +:+ t) ∧
  Browser.effects_of run env b =
    [Browser.Http
       (Axios.outgoing "post" "/auth/signin"
          (Wire.SignInBody (AdminLogin.email p) (AdminLogin.password p)) ∅ env b);
     Browser.ToastSuccess "Login successful!";
     Browser.Navigate "/admin"].
Proof.
  intros Hem%truthy_spec Hpw%truthy_spec Hreply Hres Hok Hu Hrole Ht. cbv zeta.
  unfold Browser.state_after at 1 2 3, Browser.result_of, Browser.effects_of.
  rewrite (adminLogin_sent stringify p auth env b Hem Hpw). cbv zeta.
  rewrite Hreply, Hres, Hok, Hu, Hrole, Ht.
  unfold Browser.state_after, Browser.getItem. simpl. unfold Browser.setItem.
  split; [|split; [|split; [|split]]].
  - eexists _, _. split; [reflexivity|]. repeat split.
    intros Hloaded. unfold Routes.ProtectedRoute. simpl. by rewrite Hloaded, Hrole.
  - rewrite lookup_insert_ne by done. apply lookup_insert_eq.
  - apply lookup_insert_eq.
  - apply lookup_insert_eq.
  - by rewrite <- !app_assoc, drop_trace.
Qed.

Lemma admin_sign_in_opens_admin_route_witness :
  ∃ p' auth',
    Browser.result_of
      (AdminLogin.handleSubmit Examples.stringify Examples.adminPage Examples.anonymous)
      (Examples.always (Browser.Answer 200 (Examples.signedInAs Examples.root "abc")))
      Examples.fresh = Browser.Normal (p', auth') ∧
    Routes.ProtectedRoute auth' (Some Routes.required_admin) = Routes.Children.
Proof.
  destruct (admin_sign_in_opens_admin_route Examples.stringify Examples.adminPage
              Examples.anonymous
              (Examples.always (Browser.Answer 200 (Examples.signedInAs Examples.root "abc")))
              Examples.fresh 200 (Examples.signedInAs Examples.root "abc") Examples.root "abc")
    as ((p' & auth' & Hrun & _ & _ & _ & _ & Hroute) & _);
    try reflexivity; try discriminate.
  exists p', auth'. split; [exact Hrun|]. by apply Hroute.
Defined.

(** X12.  The administrator's sign-in changes the session store only for
    an administrator: whenever the handler returns a store state other
    than the one it started from, the backend had answered with a 2xx
    success envelope whose user has the role admin.  In particular an
    empty e-mail or password, a failure, and a user of another role leave
    the store's state as it was. *)
Theorem admin_sign_in_only_for_admins
    (stringify : Wire.User → string) (p : AdminLogin.Page)
    (auth : AuthContext.AuthState) (env : Browser.Env) (b : Browser.State)
    (p' : AdminLogin.Page) (auth' : AuthContext.AuthState) :
  Browser.result_of (AdminLogin.handleSubmit stringify p auth) env b
    = Browser.Normal (p', auth') →
  auth' ≠ auth →
  ∃ status d u,
    Browser.server env
      (Axios.outgoing "post" "/auth/signin"
         (Wire.SignInBody (AdminLogin.email p) (AdminLogin.password p)) ∅ env b)
    = Browser.Answer status d ∧
    Browser.resolves status = true ∧ Wire.success d = true ∧
    Wire.user d = Some u ∧ Wire.role u = Wire.role_admin ∧
    AuthContext.user auth' = Some u.
Proof.
  unfold Browser.result_of. intros Hrun Hchanged.
  destruct (JS.truthy (AdminLogin.email p)) eqn:Hem;
    [destruct (JS.truthy (AdminLogin.password p)) eqn:Hpw|].
  - rewrite (adminLogin_sent stringify p auth env b Hem Hpw) in Hrun. cbv zeta in Hrun.
    destruct (Browser.server env _) as [status d|]; [|simpl in Hrun; congruence].
    destruct (Browser.resolves status) eqn:Hres;
      [|destruct (status =? 401); simpl in Hrun; congruence].
    destruct (Wire.success d) eqn:Hok; [|simpl in Hrun; congruence].
    destruct (Wire.user d) as [u|] eqn:Hu; [|simpl in Hrun; congruence].
    destruct (Wire.role u) eqn:Hrole; simpl in Hrun; try congruence.
    exists status, d, u. repeat split; try done.
    injection Hrun as _ <-. reflexivity.
  - unfold AdminLogin.handleSubmit in Hrun. rewrite Hem, Hpw in Hrun.
    simpl in Hrun. congruence.
  - unfold AdminLogin.handleSubmit in Hrun. rewrite Hem in Hrun.
    simpl in Hrun. congruence.
Qed.

Lemma admin_sign_in_only_for_admins_witness :
  ∃ status d u,
    Browser.server
      (Examples.always (Browser.Answer 200 (Examples.signedInAs Examples.root "abc")))
      (Axios.outgoing "post" "/auth/signin"
         (Wire.SignInBody (AdminLogin.email Examples.adminPage)
            (AdminLogin.password Examples.adminPage)) ∅
         (Examples.always (Browser.Answer 200 (Examples.signedInAs Examples.root "abc")))
         Examples.fresh)
    = Browser.Answer status d ∧
    Browser.resolves status = true ∧ Wire.success d = true ∧
    Wire.user d = Some u ∧ Wire.role u = Wire.role_admin ∧
    AuthContext.user
      {| AuthContext.user := Some Examples.root; AuthContext.token := Some "abc";
         AuthContext.loading := false |} = Some u.
Proof.
  apply (admin_sign_in_only_for_admins Examples.stringify Examples.adminPage
           Examples.anonymous
           (Examples.always (Browser.Answer 200 (Examples.signedInAs Examples.root "abc")))
           Examples.fresh
           (AdminLogin.with_isLoading false
              (AdminLogin.with_error None (AdminLogin.with_isLoading true Examples.adminPage)))
           {| AuthContext.user := Some Examples.root; AuthContext.token := Some "abc";
              AuthContext.loading := false |}).
  - reflexivity.
  - discriminate.
Defined.

(** * The e-mail pattern *)

Lemma allPlain_app (a b : string) :
  JS.allPlain (a +:+ b) = JS.allPlain a && JS.allPlain b.
Proof.
  induction a as [|x a IH]; simpl; [done|]. by rewrite IH, andb_assoc.
Qed.

Lemma dotBeforeEnd_spec (s : string) :
  JS.dotBeforeEnd s = true ↔ ∃ b c, s = b +:+ "." +:+ c ∧ c ≠ "".
Proof.
  induction s as [|x s IH].
  - simpl. split; [done|]. intros (b & c & H & _). by destruct b.
  - destruct s as [|y r].
    + simpl. split; [done|]. intros (b & c & H & Hc).
      destruct b as [|x' b]; simpl in H.
      * injection H as _ H. by destruct c.
      * injection H as _ H. by destruct b.
    + change (JS.dotBeforeEnd (String x (String y r)))
        with (Ascii.eqb x "."%char || JS.dotBeforeEnd (String y r)).
      rewrite orb_true_iff, IH. split.
      * intros [Hx | (b & c & H & Hc)].
        -- apply Ascii.eqb_eq in Hx as ->. by exists "", (String y r).
        -- exists (String x b), c. simpl. by rewrite H.
      * intros (b & c & H & Hc). destruct b as [|x' b]; simpl in H.
        -- injection H as -> _. by left.
        -- injection H as _ H. right. by exists b, c.
Qed.

Lemma dottedName_spec (s : string) :
  JS.dottedName s = true ↔
  ∃ b c, s = b +:+ "." +:+ c ∧ b ≠ "" ∧ c ≠ "" ∧
         JS.allPlain b = true ∧ JS.allPlain c = true.
Proof.
  unfold JS.dottedName. rewrite andb_true_iff. split.
  - intros [Hplain Hdot]. destruct s as [|x s]; [done|].
    apply dotBeforeEnd_spec in Hdot as (b & c & -> & Hc).
    exists (String x b), c. split; [done|]. split; [done|]. split; [done|].
    change (String x (b +:+ "." +:+ c)) with (String x b +:+ "." +:+ c) in Hplain.
    rewrite allPlain_app, andb_true_iff in Hplain. destruct Hplain as [Hb Hrest].
    split; [done|]. exact Hrest.
  - intros (b & c & -> & Hb & Hc & Hpb & Hpc). split.
    + rewrite allPlain_app, Hpb. simpl. exact Hpc.
    + destruct b as [|x b]; [done|]. simpl. apply dotBeforeEnd_spec. by exists b, c.
Qed.

Lemma emailRegex_from_spec (seen : bool) (s : string) :
  JS.emailRegex_from seen s = true ↔
  ∃ l d, s = l +:+ "@" +:+ d ∧ JS.allPlain l = true ∧ (seen = true ∨ l ≠ "") ∧
         JS.dottedName d = true.
Proof.
  revert seen. induction s as [|x s IH]; intros seen.
  - simpl. split; [done|]. intros (l & d & H & _). by destruct l.
  - simpl. destruct (Ascii.eqb_spec x "@"%char) as [->|Hx].
    + rewrite andb_true_iff. split.
      * intros [-> Hd]. exists "", s. repeat split; by auto.
      * intros (l & d & H & Hl & Hseen & Hd). destruct l as [|x' l]; simpl in H.
        -- injection H as ->. by destruct Hseen.
        -- injection H as <- _. by simpl in Hl.
    + rewrite andb_true_iff, IH. split.
      * intros [Hp (l & d & -> & Hl & _ & Hd)]. exists (String x l), d.
        repeat split; [| by right | done]. simpl. by rewrite Hp, Hl.
      * intros (l & d & H & Hl & _ & Hd). destruct l as [|x' l]; simpl in H.
        -- by injection H as -> _.
        -- injection H as <- ->. simpl in Hl. apply andb_true_iff in Hl as [Hp Hl].
           split; [done|]. exists l, d. repeat split; by auto.
Qed.

(** X13.  The e-mail check of the sign-in and sign-up pages accepts the
    empty text, which is reported as missing by the caller, and otherwise
    exactly the texts of the form local@name.rest in which the three parts
    are non-empty and free of white space and further at signs; the parts
    after the at sign may contain more dots.  The sign-up page's copy of
    the check gives the same verdict. *)
Theorem validateEmail_accepts (value : string) (p : OrganizerLoginPage.Page) :
  (fst (OrganizerLoginPage.validateEmail value p) = true ↔
   value = "" ∨
   ∃ l b c, value = l +:+ "@" +:+ b +:+ "." +:+ c ∧
            l ≠ "" ∧ b ≠ "" ∧ c ≠ "" ∧
            JS.allPlain l = true ∧ JS.allPlain b = true ∧ JS.allPlain c = true) ∧
  fst (OrganizerSignupPage.validateEmail value)
  = fst (OrganizerLoginPage.validateEmail value p).
Proof.
  split; [|unfold OrganizerSignupPage.validateEmail, OrganizerLoginPage.validateEmail;
           by destruct (_ && _)].
  unfold OrganizerLoginPage.validateEmail, JS.emailRegex_test.
  destruct (JS.emailRegex_from false value) eqn:Hre; simpl.
  - split; [intros _ | done]. right.
    apply emailRegex_from_spec in Hre as (l & d & -> & Hl & [Hs | Hne] & Hd); [done|].
    apply dottedName_spec in Hd as (b & c & -> & Hb & Hc & Hpb & Hpc).
    by exists l, b, c.
  - destruct value as [|x value]; simpl.
    + split; [by left | done].
    + split; [done|]. intros [H | (l & b & c & H & Hl & Hb & Hc & Hpl & Hpb & Hpc)];
        [done|].
      assert (JS.emailRegex_from false (String x value) = true); [|congruence].
      apply emailRegex_from_spec. exists l, (b +:+ "." +:+ c).
      repeat split; [done | done | by right |]. apply dottedName_spec. by exists b, c.
Qed.

(** * Further properties of the submission form *)

Lemma require_snd (ok : bool) (field text : string) (acc : gmap string string * bool) :
  snd (CreateEvent.require ok field text acc) = ok && snd acc.
Proof. unfold CreateEvent.require. by destruct ok. Qed.

Lemma require_empty (ok : bool) (field text : string) (acc : gmap string string * bool) :
  fst (CreateEvent.require ok field text acc) = ∅ ↔ ok = true ∧ fst acc = ∅.
Proof.
  unfold CreateEvent.require. destruct ok; simpl.
  - tauto.
  - split; [|by intros [? _]]. intros H. by apply insert_non_empty in H.
Qed.

Lemma validateForm_valid_empty (f : CreateEvent.Form) :
  snd (CreateEvent.validateForm f) = true ↔ fst (CreateEvent.validateForm f) = ∅.
Proof.
  unfold CreateEvent.validateForm.
  rewrite !require_snd, !require_empty. simpl.
  rewrite !andb_true_iff. intuition.
Qed.

(** X14.  [validateForm] reports a form as valid exactly when it records no
    error, and that is exactly when title, location and description are
    not blank, date, time and category are given, and some ticket type has
    a name, a price and a quantity. *)
Theorem validateForm_valid_iff (f : CreateEvent.Form) :
  (snd (CreateEvent.validateForm f) = true ↔ fst (CreateEvent.validateForm f) = ∅) ∧
  (snd (CreateEvent.validateForm f) = true ↔
   JS.trim (CreateEvent.title f) ≠ "" ∧
   CreateEvent.date f ≠ None ∧
   CreateEvent.time f ≠ "" ∧
   JS.trim (CreateEvent.location f) ≠ "" ∧
   CreateEvent.category f ≠ "" ∧
   JS.trim (CreateEvent.description f) ≠ "" ∧
   ∃ t, In t (CreateEvent.ticketTypes f) ∧
        Wire.name t ≠ "" ∧ Wire.price t ≠ "" ∧ Wire.quantity t ≠ "").
Proof.
  split; [apply validateForm_valid_empty|].
  unfold CreateEvent.validateForm.
  - rewrite !require_snd. simpl. rewrite !andb_true_iff, !truthy_spec, hasValidTicket_spec.
    assert (Hdate : (match CreateEvent.date f with Some _ => true | None => false end) = true
                    ↔ CreateEvent.date f ≠ None) by (by destruct (CreateEvent.date f)).
    rewrite Hdate.
    assert (Htick : (∃ t, In t (CreateEvent.ticketTypes f) ∧ CreateEvent.ticketFilled t = true)
                    ↔ ∃ t, In t (CreateEvent.ticketTypes f) ∧
                           Wire.name t ≠ "" ∧ Wire.price t ≠ "" ∧ Wire.quantity t ≠ "").
    { split; intros (t & Hin & Ht); exists t; split; try done; by apply ticketFilled_spec. }
    rewrite Htick. tauto.
Qed.

(** X15.  A form that does not validate is never posted: the handler's
    only effect is the toast asking to fix the errors, the browser state is
    otherwise untouched, and the form comes back with the errors found and
    its submitting flag as it was. *)
Theorem invalid_form_is_not_posted
    (f : CreateEvent.Form) (env : Browser.Env) (b : Browser.State) :
  snd (CreateEvent.validateForm f) = false →
  CreateEvent.handleSubmit f env b =
  (Browser.Normal (CreateEvent.with_errors (fst (CreateEvent.validateForm f)) f),
   Browser.record (Browser.ToastError "Please fix the errors in the form") b) ∧
  Browser.effects_of (CreateEvent.handleSubmit f) env b =
    [Browser.ToastError "Please fix the errors in the form"] ∧
  fst (CreateEvent.validateForm f) ≠ ∅.
Proof.
  intros Hinvalid.
  assert (Hrun : CreateEvent.handleSubmit f env b =
                 (Browser.Normal (CreateEvent.with_errors (fst (CreateEvent.validateForm f)) f),
                  Browser.record (Browser.ToastError "Please fix the errors in the form") b)).
  { unfold CreateEvent.handleSubmit.
    destruct (CreateEvent.validateForm f) as [newErrors isValid]. simpl in *.
    by subst isValid. }
  split; [exact Hrun|]. split.
  - unfold Browser.effects_of. rewrite Hrun. simpl. apply drop_trace.
  - intros Hempty. apply validateForm_valid_empty in Hempty. congruence.
Qed.

Lemma invalid_form_is_not_posted_witness :
  Browser.effects_of (CreateEvent.handleSubmit (Examples.form [Examples.unnamed]))
    (Examples.always (Browser.Answer 200 (Examples.envelope true))) Examples.fresh =
  [Browser.ToastError "Please fix the errors in the form"].
Proof.
  apply (invalid_form_is_not_posted (Examples.form [Examples.unnamed])
           (Examples.always (Browser.Answer 200 (Examples.envelope true))) Examples.fresh).
  by vm_compute.
Defined.

Lemma mapBackendError_keys (current acc : gmap string string) (err : Wire.FieldError)
    (k : string) :
  is_Some (CreateEvent.mapBackendError current acc err !! k) →
  k = "tickets" ∨ k = "general" ∨
  (JS.hasProperty current k = true ∧ k ≠ "__proto__") ∨ is_Some (acc !! k).
Proof.
  unfold CreateEvent.mapBackendError.
  destruct (JS.startsWith (Wire.param err) "tickets").
  - destruct (decide (k = "tickets")) as [->|Hne]; [by left|].
    rewrite lookup_insert_ne by done. auto.
  - destruct (JS.hasProperty current (Wire.param err)) eqn:Hin.
    + unfold JS.setProperty.
      destruct (String.eqb_spec (Wire.param err) "__proto__") as [Heq|Hproto]; [auto|].
      destruct (decide (k = Wire.param err)) as [->|Hne]; [auto|].
      rewrite lookup_insert_ne by done. auto.
    + destruct (decide (k = "general")) as [->|Hne]; [auto|].
      rewrite lookup_insert_ne by done. auto.
Qed.

Lemma mapBackendErrors_keys (current : gmap string string) (l : list Wire.FieldError)
    (acc : gmap string string) (k : string) :
  is_Some (fold_left (CreateEvent.mapBackendError current) l acc !! k) →
  k = "tickets" ∨ k = "general" ∨
  (JS.hasProperty current k = true ∧ k ≠ "__proto__") ∨ is_Some (acc !! k).
Proof.
  revert acc. induction l as [|err l IH]; intros acc; simpl; [auto|].
  intros H. destruct (IH _ H) as [?|[?|[?|Hacc]]]; auto.
  by apply mapBackendError_keys in Hacc.
Qed.

(** X16.  When the backend rejects a valid form with a list of field
    errors, the form's new error object is built from an empty object by
    one step per error, and its keys are among "tickets", "general" and
    the property names of the error object the form held when it was
    submitted ([err.param in errors]).  Those names are the object's own
    keys and the names every object inherits, such as "toString"; the
    inherited "__proto__" passes the test but is never written.  So an
    error for a field reaches that field only if the field already showed
    an error: on a form without errors a field error that is not about
    tickets and does not carry an inherited name is reported as the general
    error. *)
Theorem backend_errors_land_on_shown_fields
    (f : CreateEvent.Form) (env : Browser.Env) (b : Browser.State)
    (status : Z) (d : Wire.ResponseData) (l : list Wire.FieldError) :
  snd (CreateEvent.validateForm f) = true →
  Browser.server env
    (Axios.outgoing "post" "/public/events" (Wire.EventBody (CreateEvent.eventData f)) ∅ env b)
  = Browser.Answer status d →
  Browser.resolves status = false →
  Wire.errors d = Some l →
  ∃ g, Browser.result_of (CreateEvent.handleSubmit f) env b = Browser.Normal g ∧
       CreateEvent.errors g = fold_left (CreateEvent.mapBackendError (CreateEvent.errors f)) l ∅ ∧
       CreateEvent.isSubmitting g = false ∧
       (∀ k, is_Some (CreateEvent.errors g !! k) →
             k = "tickets" ∨ k = "general" ∨
             (k ≠ "__proto__" ∧
              (is_Some (CreateEvent.errors f !! k) ∨ In k JS.objectPrototype))) ∧
       (∀ err, l = [err] → CreateEvent.errors f = ∅ →
               JS.startsWith (Wire.param err) "tickets" = false →
               ¬ In (Wire.param err) JS.objectPrototype →
               CreateEvent.errors g = {[ "general" := Wire.msg err ]}).
Proof.
  intros Hvalid Hreply Hres Herrors.
  assert (Hin : ∀ k, JS.inherited k = true ↔ In k JS.objectPrototype).
  { intros k. unfold JS.inherited. rewrite existsb_exists. split.
    - intros (x & Hx & ->%String.eqb_eq). exact Hx.
    - intros Hk. exists k. split; [exact Hk | apply String.eqb_refl]. }
  unfold Browser.result_of, CreateEvent.handleSubmit.
  destruct (CreateEvent.validateForm f) as [newErrors isValid]. simpl in Hvalid.
  subst isValid. cbn [negb].
  unfold Browser.bind at 1. unfold Browser.try_catch.
  unfold Browser.bind at 1. unfold Axios.post.
  rewrite request_run. cbv zeta. rewrite Hreply, Hres.
  unfold Axios.error_errors. rewrite Herrors.
  assert (Hkeys : ∀ k,
            is_Some (fold_left (CreateEvent.mapBackendError (CreateEvent.errors f)) l ∅ !! k) →
            k = "tickets" ∨ k = "general" ∨
            (k ≠ "__proto__" ∧
             (is_Some (CreateEvent.errors f !! k) ∨ In k JS.objectPrototype))).
  { intros k Hk. apply mapBackendErrors_keys in Hk as [?|[?|[[Hp Hne]|Hk]]]; auto.
    - right. right. split; [exact Hne|].
      unfold JS.hasProperty in Hp. apply orb_true_iff in Hp as [Hown|Hinh].
      + left. by apply bool_decide_eq_true in Hown.
      + right. by apply Hin.
    - rewrite lookup_empty in Hk. by destruct Hk. }
  assert (Hone : ∀ err, l = [err] → CreateEvent.errors f = ∅ →
                   JS.startsWith (Wire.param err) "tickets" = false →
                   ¬ In (Wire.param err) JS.objectPrototype →
                   fold_left (CreateEvent.mapBackendError (CreateEvent.errors f)) l ∅
                   = {[ "general" := Wire.msg err ]}).
  { intros err -> Hempty Htickets Hplain. simpl.
    unfold CreateEvent.mapBackendError, JS.hasProperty. rewrite Htickets, Hempty.
    rewrite lookup_empty.
    destruct (JS.inherited (Wire.param err)) eqn:Hinh; [by apply Hin in Hinh|].
    rewrite bool_decide_eq_false_2 by (by intros [? ?]). reflexivity. }
  destruct (status =? 401); simpl;
    (eexists; split; [reflexivity|]; split; [reflexivity|]; split; [reflexivity|];
     split; [exact Hkeys | exact Hone]).
Qed.

Lemma backend_errors_land_on_shown_fields_witness :
  (∃ g,
     Browser.result_of (CreateEvent.handleSubmit (Examples.form [Examples.vip]))
       (Examples.always (Browser.Answer 422 (Examples.refused "title" "Title is too short")))
       Examples.fresh = Browser.Normal g ∧
     CreateEvent.errors g = {[ "general" := "Title is too short" ]}) ∧
  (∃ g,
     Browser.result_of (CreateEvent.handleSubmit (Examples.form [Examples.vip]))
       (Examples.always (Browser.Answer 422 (Examples.refused "toString" "Invalid value")))
       Examples.fresh = Browser.Normal g ∧
     CreateEvent.errors g = {[ "toString" := "Invalid value" ]}).
Proof.
  split.
  - destruct (backend_errors_land_on_shown_fields (Examples.form [Examples.vip])
                (Examples.always
                   (Browser.Answer 422 (Examples.refused "title" "Title is too short")))
                Examples.fresh 422 _ _ ltac:(by vm_compute) eq_refl eq_refl eq_refl)
      as (g & Hrun & _ & _ & _ & Hone).
    exists g. split; [exact Hrun|].
    apply (Hone {| Wire.param := "title"; Wire.msg := "Title is too short" |});
      [reflexivity | reflexivity | reflexivity |].
    simpl. intuition discriminate.
  - destruct (backend_errors_land_on_shown_fields (Examples.form [Examples.vip])
                (Examples.always
                   (Browser.Answer 422 (Examples.refused "toString" "Invalid value")))
                Examples.fresh 422 _ _ ltac:(by vm_compute) eq_refl eq_refl eq_refl)
      as (g & Hrun & Herr & _).
    exists g. split; [exact Hrun|]. rewrite Herr. by vm_compute.
Defined.

Lemma filterIndex_spec {A} (from index : Z) (l : list A) :
  CreateEvent.filterIndex from index l =
  if (from <=? index) && (index <? from + Z.of_nat (length l))
  then delete (Z.to_nat (index - from)) l
  else l.
Proof.
  revert from. induction l as [|x l IH]; intros from.
  - cbn. by destruct (_ && _).
  - cbn [CreateEvent.filterIndex length]. rewrite IH, Nat2Z.inj_succ.
    destruct (Z.eqb_spec from index) as [Heq|Hne];
      destruct (Z.leb_spec from index) as [Hle|Hgt];
      destruct (Z.leb_spec (from + 1) index) as [Hle'|Hgt'];
      destruct (Z.ltb_spec index (from + 1 + Z.of_nat (length l))) as [Hlt|Hge];
      destruct (Z.ltb_spec index (from + Z.succ (Z.of_nat (length l)))) as [Hlt'|Hge'];
      cbn [andb]; try lia; try reflexivity.
    + replace (index - from) with 0 by lia. reflexivity.
    + replace (Z.to_nat (index - from)) with (S (Z.to_nat (index - (from + 1)))) by lia.
      reflexivity.
Qed.

Lemma hasValidTicket_blank (l : list Wire.TicketType) :
  CreateEvent.hasValidTicket (l ++ [CreateEvent.blankTicket])%list
  = CreateEvent.hasValidTicket l.
Proof.
  induction l as [|t l IH]; simpl; [reflexivity|]. by rewrite IH.
Qed.

(** X17.  Adding a ticket type appends a blank tier, and a blank tier is
    invisible to submission: validation gives the same verdict and errors
    and the payload is the same as before.  Removing the tier at the
    position it was added gives the form back. *)
Theorem blank_tier_is_not_submitted (f : CreateEvent.Form) :
  CreateEvent.ticketTypes (CreateEvent.handleAddTicketType f)
    = (CreateEvent.ticketTypes f ++ [CreateEvent.blankTicket])%list ∧
  CreateEvent.validateForm (CreateEvent.handleAddTicketType f) = CreateEvent.validateForm f ∧
  CreateEvent.eventData (CreateEvent.handleAddTicketType f) = CreateEvent.eventData f ∧
  CreateEvent.handleRemoveTicketType (Z.of_nat (length (CreateEvent.ticketTypes f)))
    (CreateEvent.handleAddTicketType f) = f.
Proof.
  split; [reflexivity|]. split; [|split].
  - unfold CreateEvent.validateForm, CreateEvent.handleAddTicketType. simpl.
    by rewrite hasValidTicket_blank.
  - unfold CreateEvent.eventData, CreateEvent.handleAddTicketType. simpl.
    rewrite List.filter_app. simpl. by rewrite app_nil_r.
  - unfold CreateEvent.handleRemoveTicketType, CreateEvent.handleAddTicketType.
    destruct f as [ti da tm lo ca de pu im tk er su]. unfold CreateEvent.with_ticketTypes.
    cbn [CreateEvent.ticketTypes CreateEvent.title CreateEvent.date CreateEvent.time
         CreateEvent.location CreateEvent.category CreateEvent.description
         CreateEvent.isPublished CreateEvent.eventImages CreateEvent.errors
         CreateEvent.isSubmitting].
    f_equal. rewrite filterIndex_spec, length_app.
    destruct (Z.leb_spec 0 (Z.of_nat (length tk))) as [_|Hneg]; [|lia].
    destruct (Z.ltb_spec (Z.of_nat (length tk))
                (0 + Z.of_nat (length tk + length [CreateEvent.blankTicket])))
      as [_|Hge]; [|simpl in Hge; lia].
    cbn [andb]. rewrite Z.sub_0_r, Nat2Z.id.
    rewrite (delete_middle tk [] CreateEvent.blankTicket). apply app_nil_r.
Qed.

Lemma delete_beyond {A} (i : nat) (l : list A) : (length l ≤ i)%nat → delete i l = l.
Proof.
  intros H. rewrite delete_take_drop, take_ge, drop_ge by lia. apply app_nil_r.
Qed.

Lemma splice1_spec {A} (index : Z) (l : list A) :
  CreateEvent.splice1 index l =
  if 0 <=? index then delete (Z.to_nat index) l
  else delete (Z.to_nat (Z.of_nat (length l) + index)) l.
Proof.
  unfold CreateEvent.splice1.
  destruct (Z.ltb_spec index 0) as [Hneg|Hpos].
  - replace (0 <=? index) with false by (symmetry; lia).
    replace (Z.to_nat (Z.max (Z.of_nat (length l) + index) 0))
      with (Z.to_nat (Z.of_nat (length l) + index)) by lia.
    by rewrite delete_take_drop, Nat.add_1_r.
  - replace (0 <=? index) with true by (symmetry; lia).
    destruct (Z.lt_ge_cases index (Z.of_nat (length l))) as [Hin|Hout].
    + replace (Z.min index (Z.of_nat (length l))) with index by lia.
      by rewrite delete_take_drop, Nat.add_1_r.
    + replace (Z.to_nat (Z.min index (Z.of_nat (length l)))) with (length l) by lia.
      rewrite delete_beyond by lia.
      rewrite take_ge, drop_ge by lia. apply app_nil_r.
Qed.

(** X18.  The two removal handlers of the form.  Both delete the entry at
    a non-negative index and change nothing when that index is past the
    end.  On a negative index the ticket handler ([filter]) changes
    nothing, while the image handler ([splice]) counts from the end.
    Either way at most one entry goes and the other list is untouched. *)
Theorem removal_handlers (index : Z) (f : CreateEvent.Form) :
  CreateEvent.ticketTypes (CreateEvent.handleRemoveTicketType index f) =
    (if 0 <=? index then delete (Z.to_nat index) (CreateEvent.ticketTypes f)
     else CreateEvent.ticketTypes f) ∧
  CreateEvent.eventImages (CreateEvent.handleRemoveImage index f) =
    (if 0 <=? index then delete (Z.to_nat index) (CreateEvent.eventImages f)
     else delete (Z.to_nat (Z.of_nat (length (CreateEvent.eventImages f)) + index))
            (CreateEvent.eventImages f)) ∧
  (length (CreateEvent.ticketTypes (CreateEvent.handleRemoveTicketType index f)) =
     if (0 <=? index) && (index <? Z.of_nat (length (CreateEvent.ticketTypes f)))
     then pred (length (CreateEvent.ticketTypes f))
     else length (CreateEvent.ticketTypes f)) ∧
  (length (CreateEvent.eventImages (CreateEvent.handleRemoveImage index f)) =
     if (index <? Z.of_nat (length (CreateEvent.eventImages f)))
        && negb (length (CreateEvent.eventImages f) =? 0)%nat
     then pred (length (CreateEvent.eventImages f))
     else length (CreateEvent.eventImages f)) ∧
  CreateEvent.eventImages (CreateEvent.handleRemoveTicketType index f)
    = CreateEvent.eventImages f ∧
  CreateEvent.ticketTypes (CreateEvent.handleRemoveImage index f)
    = CreateEvent.ticketTypes f.
Proof.
  assert (Hticket : CreateEvent.ticketTypes (CreateEvent.handleRemoveTicketType index f) =
                    if 0 <=? index then delete (Z.to_nat index) (CreateEvent.ticketTypes f)
                    else CreateEvent.ticketTypes f).
  { unfold CreateEvent.handleRemoveTicketType. simpl.
    rewrite filterIndex_spec, Z.sub_0_r, Z.add_0_l.
    destruct (Z.leb_spec 0 index) as [Hpos|Hneg]; simpl; [|reflexivity].
    destruct (Z.ltb_spec index (Z.of_nat (length (CreateEvent.ticketTypes f))));
      [reflexivity|]. by rewrite delete_beyond by lia. }
  assert (Himage : CreateEvent.eventImages (CreateEvent.handleRemoveImage index f) =
                   if 0 <=? index then delete (Z.to_nat index) (CreateEvent.eventImages f)
                   else delete (Z.to_nat (Z.of_nat (length (CreateEvent.eventImages f)) + index))
                          (CreateEvent.eventImages f)).
  { unfold CreateEvent.handleRemoveImage. simpl. apply splice1_spec. }
  split; [exact Hticket|]. split; [exact Himage|].
  split; [|split; [|split; reflexivity]].
  - rewrite Hticket.
    destruct (Z.leb_spec 0 index) as [Hpos|Hneg]; simpl; [|reflexivity].
    destruct (Z.ltb_spec index (Z.of_nat (length (CreateEvent.ticketTypes f)))).
    + rewrite length_delete; [lia|]. apply lookup_lt_is_Some. lia.
    + by rewrite delete_beyond by lia.
  - rewrite Himage.
    destruct (CreateEvent.eventImages f) as [|x l] eqn:Hl.
    { simpl. rewrite andb_false_r. by destruct (0 <=? index). }
    rewrite andb_true_r.
    destruct (Z.leb_spec 0 index) as [Hpos|Hneg].
    + destruct (Z.ltb_spec index (Z.of_nat (length (x :: l)))).
      * rewrite length_delete; [simpl; lia|]. apply lookup_lt_is_Some. lia.
      * by rewrite delete_beyond by lia.
    + destruct (Z.ltb_spec index (Z.of_nat (length (x :: l)))) as [_|Hge]; [|lia].
      rewrite length_delete; [simpl; lia|]. apply lookup_lt_is_Some.
      cbn [length] in *. lia.
Qed.

(** * Further properties of the lists and their filters *)

Lemma matchesSearch_empty (e : Wire.CatalogEvent) : EventsList.matchesSearch "" e = true.
Proof. unfold EventsList.matchesSearch. simpl. by rewrite includes_empty. Qed.

Lemma matchesCategory_all (e : Wire.CatalogEvent) : EventsList.matchesCategory "all" e = true.
Proof. reflexivity. Qed.

Lemma filter_filter_and {A} (g h : A → bool) (l : list A) :
  List.filter g (List.filter h l) = List.filter (fun x => g x && h x) l.
Proof.
  induction l as [|x l IH]; simpl; [done|].
  destruct (h x); simpl; rewrite ?andb_true_r, ?andb_false_r.
  - destruct (g x); by rewrite IH.
  - exact IH.
Qed.

Lemma filter_all {A} (g : A → bool) (l : list A) :
  (∀ x, g x = true) → List.filter g l = l.
Proof.
  intros Hg. induction l as [|x l IH]; simpl; [done|]. by rewrite Hg, IH.
Qed.

(** X19.  In the public catalog the empty search with the category "all"
    lists every fetched event, and search and category act as two filters
    that can be applied one after the other in either order; filtering an
    already filtered list again changes nothing. *)
Theorem catalog_filters_compose
    (term selected : string) (l : list Wire.CatalogEvent) :
  EventsList.filteredEvents "" "all" l = l ∧
  EventsList.filteredEvents term selected l =
    EventsList.filteredEvents term "all" (EventsList.filteredEvents "" selected l) ∧
  EventsList.filteredEvents term selected l =
    EventsList.filteredEvents "" selected (EventsList.filteredEvents term "all" l) ∧
  EventsList.filteredEvents term selected (EventsList.filteredEvents term selected l) =
    EventsList.filteredEvents term selected l.
Proof.
  unfold EventsList.filteredEvents. repeat split.
  - apply filter_all. intros e. by rewrite matchesSearch_empty, matchesCategory_all.
  - rewrite filter_filter_and. apply List.filter_ext. intros e.
    by rewrite matchesSearch_empty, matchesCategory_all, andb_true_r.
  - rewrite filter_filter_and. apply List.filter_ext. intros e.
    rewrite matchesSearch_empty, matchesCategory_all, andb_true_r. simpl.
    apply andb_comm.
  - rewrite filter_filter_and. apply List.filter_ext. intros e.
    apply andb_diag.
Qed.

Lemma string_length_app (a b : string) :
  String.length (a +:+ b) = (String.length a + String.length b)%nat.
Proof. induction a as [|x a IH]; simpl; [done|]. by rewrite IH. Qed.

Lemma substring_prefix (n : nat) (s : string) :
  (n ≤ String.length s)%nat →
  ∃ rest, s = substring 0 n s +:+ rest ∧ String.length (substring 0 n s) = n.
Proof.
  revert s. induction n as [|n IH]; intros s Hn.
  - exists s. by destruct s.
  - destruct s as [|x s]; simpl in Hn; [lia|].
    destruct (IH s) as (rest & Hs & Hlen); [lia|].
    exists rest. split; [exact (f_equal (String x) Hs) | exact (f_equal S Hlen)].
Qed.

(** X20.  [truncateDescription] returns a text that fits unchanged.  A
    longer text is cut to its first [maxLength] code units (none for a
    negative [maxLength]) followed by three dots, so the result has
    [maxLength + 3] units: never more than three over the limit, but up to
    two units longer than a text that exceeds the limit by one or two. *)
Theorem truncateDescription_bounds (text : string) (maxLength : Z) :
  (Z.of_nat (String.length text) ≤ maxLength →
   EventsList.truncateDescription text maxLength = text) ∧
  (maxLength < Z.of_nat (String.length text) →
   ∃ kept rest,
     text = kept +:+ rest ∧
     Z.of_nat (String.length kept) = Z.max 0 maxLength ∧
     EventsList.truncateDescription text maxLength = kept +:+ "..." ∧
     Z.of_nat (String.length (EventsList.truncateDescription text maxLength))
     = Z.max 0 maxLength + 3).
Proof.
  unfold EventsList.truncateDescription. split.
  - intros Hfit. by destruct (Z.leb_spec (Z.of_nat (String.length text)) maxLength); [|lia].
  - intros Hlong.
    destruct (Z.leb_spec (Z.of_nat (String.length text)) maxLength); [lia|].
    destruct (substring_prefix (Z.to_nat maxLength) text) as (rest & Htext & Hlen); [lia|].
    exists (substring 0 (Z.to_nat maxLength) text), rest.
    split; [exact Htext|]. split; [lia|]. split; [reflexivity|].
    rewrite string_length_app, Hlen. simpl. lia.
Qed.

Lemma truncateDescription_bounds_witness :
  EventsList.truncateDescription "An evening of jazz" EventsList.defaultMaxLength
    = "An evening of jazz" ∧
  EventsList.truncateDescription "An evening of jazz" 10 = "An evening..." ∧
  EventsList.truncateDescription "jazz" 3 = "jaz...".
Proof.
  split; [|split].
  - apply (truncateDescription_bounds "An evening of jazz" EventsList.defaultMaxLength).
    by vm_compute.
  - destruct (truncateDescription_bounds "An evening of jazz" 10) as [_ Hcut].
    destruct Hcut as (kept & rest & _ & _ & Hres & _); [by vm_compute|].
    reflexivity.
  - destruct (truncateDescription_bounds "jazz" 3) as [_ Hcut].
    destruct Hcut as (kept & rest & _ & _ & Hres & _); [by vm_compute|].
    reflexivity.
Defined.

(** X21.  The catalog fetch always settles: it never throws, clears the
    loading flag, and keeps the events of a 2xx success envelope and none
    otherwise.  It ends without error message exactly when the reply is a
    2xx success envelope whose [count] is not 0; a [count] of 0 sets the
    "no approved events" message whatever [data] holds. *)
Theorem catalog_fetch_settles (env : Browser.Env) (b : Browser.State) :
  ∃ st b',
    EventsList.fetchApprovedEvents EventsList.initial env b = (Browser.Normal st, b') ∧
    EventsList.loading st = false ∧
    EventsList.events st =
      match Browser.server env (Axios.outgoing "get" "/events" Wire.NoBody ∅ env b) with
      | Browser.Answer status d =>
          if Browser.resolves status && Wire.success d then default [] (Wire.data d) else []
      | Browser.NoAnswer => []
      end ∧
    (EventsList.error st = None ↔
     ∃ status d,
       Browser.server env (Axios.outgoing "get" "/events" Wire.NoBody ∅ env b)
         = Browser.Answer status d ∧
       Browser.resolves status = true ∧ Wire.success d = true ∧ Wire.count d ≠ Some 0).
Proof.
  unfold EventsList.fetchApprovedEvents, Browser.try_catch.
  unfold Browser.bind at 1. unfold Browser.bind at 1. unfold Axios.get.
  rewrite request_run. cbv zeta.
  destruct (Browser.server env _) as [status d|].
  - destruct (Browser.resolves status) eqn:Hres; simpl.
    + destruct (Wire.success d) eqn:Hok; simpl.
      * destruct (Wire.count d) as [[| |]|] eqn:Hcount; simpl;
          (eexists _, _; split; [reflexivity|]; split; [reflexivity|];
           split; [reflexivity|]).
        -- split; [done|]. intros (? & ? & [= <- <-] & _ & _ & Hc). congruence.
        -- split; [|done]. intros _. exists status, d. by rewrite Hcount.
        -- split; [|done]. intros _. exists status, d. by rewrite Hcount.
        -- split; [|done]. intros _. exists status, d. by rewrite Hcount.
      * eexists _, _. split; [reflexivity|]. split; [reflexivity|]. split; [reflexivity|].
        split; [done|]. intros (? & ? & [= <- <-] & _ & Hs & _). congruence.
    + eexists _, _. split; [reflexivity|]. split; [reflexivity|]. split; [reflexivity|].
      split; [done|]. intros (? & ? & [= <- <-] & Hr & _). congruence.
  - simpl. eexists _, _. split; [reflexivity|]. split; [reflexivity|]. split; [reflexivity|].
    split; [done|]. intros (? & ? & [=] & _).
Qed.

Lemma pending_matchesSearch_empty (e : PendingEvents.Event) :
  PendingEvents.matchesSearch "" e = true.
Proof. unfold PendingEvents.matchesSearch. simpl. by rewrite includes_empty. Qed.

(** X22.  In the review queue the empty search shows the whole queue, the
    search keeps an event iff the lower-cased term occurs in its
    lower-cased title, location or organizer name, and searching commutes
    with the removal of a reviewed event: the rows shown after a review are
    the rows shown before, without the reviewed one. *)
Theorem queue_search_and_removal
    (term eventId : string) (events : list PendingEvents.Event) :
  PendingEvents.filteredEvents "" events = events ∧
  (∀ e, In e (PendingEvents.filteredEvents term events) ↔
        In e events ∧
        (Spec.ci_substring term (PendingEvents.title e) ∨
         Spec.ci_substring term (PendingEvents.location e) ∨
         ∃ o, PendingEvents.organizer e = Some o ∧
              Spec.ci_substring term (Wire.organizer_name o))) ∧
  PendingEvents.filteredEvents term (PendingEvents.without eventId events) =
  PendingEvents.without eventId (PendingEvents.filteredEvents term events).
Proof.
  unfold PendingEvents.filteredEvents, PendingEvents.without. split; [|split].
  - apply filter_all, pending_matchesSearch_empty.
  - intros e. rewrite filter_In. unfold PendingEvents.matchesSearch, Spec.ci_substring.
    rewrite !orb_true_iff, !includes_spec.
    destruct (PendingEvents.organizer e) as [o|].
    + rewrite includes_spec. split.
      * intros [Hin [[H|H]|H]]; eauto 7.
      * intros [Hin [H|[H|(o' & [= <-] & H)]]]; eauto.
    + split.
      * intros [Hin [[H|H]|H]]; eauto 7. discriminate.
      * intros [Hin [H|[H|(o' & [=] & H)]]]; eauto.
  - rewrite !filter_filter_and. apply List.filter_ext. intros e. apply andb_comm.
Qed.

(** X23.  The badge of an organizer's event follows the approval status
    first: a pending event shows "Pending Approval" and a rejected one
    "Rejected", published or not and whatever its date; "Draft" is shown
    exactly for approved events that are not published; and one of the
    date badges is shown exactly for events that are approved and
    published. *)
Theorem status_badge_follows_approval
    (getEventStatus : OrganizerEvents.Event → OrganizerEvents.EventStatus)
    (event : OrganizerEvents.Event) :
  let badge := OrganizerEvents.getStatusBadge getEventStatus event in
  (badge = OrganizerEvents.PendingApproval ↔
   OrganizerEvents.approvalStatus event = Wire.pending) ∧
  (badge = OrganizerEvents.Rejected ↔
   OrganizerEvents.approvalStatus event = Wire.rejected) ∧
  (badge = OrganizerEvents.Draft ↔
   OrganizerEvents.approvalStatus event = Wire.approved ∧
   OrganizerEvents.published event = false) ∧
  (badge = OrganizerEvents.Upcoming ∨ badge = OrganizerEvents.Ongoing ∨
   badge = OrganizerEvents.Completed ↔
   OrganizerEvents.approvalStatus event = Wire.approved ∧
   OrganizerEvents.published event = true).
Proof.
  cbv zeta. unfold OrganizerEvents.getStatusBadge.
  destruct (OrganizerEvents.approvalStatus event), (OrganizerEvents.published event);
    simpl; try destruct (getEventStatus event);
    repeat split; try tauto; try congruence; intuition congruence.
Qed.

Lemma handleDelete_run (events : list OrganizerEvents.Event) (eventId eventTitle : string)
    (env : Browser.Env) (b : Browser.State) :
  let config := Axios.outgoing "delete" ("/events/" +:+ eventId) Wire.NoBody ∅ env b in
  let b1 := Browser.record (Browser.Http config) b in
  OrganizerEvents.handleDelete events true eventId eventTitle env b =
  match Browser.server env config with
  | Browser.Answer status d =>
      if Browser.resolves status then
        if Wire.success d then
          (Browser.Normal
             (List.filter
                (fun event => negb (String.eqb (OrganizerEvents._id event) eventId)) events),
           Browser.record
             (Browser.ToastSuccess
                ("Event " +:+ OrganizerEvents.quote +:+ eventTitle +:+ OrganizerEvents.quote
                 +:+ " has been deleted")) b1)
        else
          (Browser.Normal events,
           Browser.record
             (Browser.ToastError (JS.or_default (Wire.message d) "Failed to delete event")) b1)
      else
        (Browser.Normal events,
         Browser.record
           (Browser.ToastError
              (JS.or_default (Wire.message d) "An error occurred while deleting the event"))
           (if status =? 401 then Axios.clearCredentials b1 else b1))
  | Browser.NoAnswer =>
      (Browser.Normal events,
       Browser.record (Browser.ToastError "An error occurred while deleting the event") b1)
  end.
Proof.
  cbv zeta. unfold OrganizerEvents.handleDelete, Browser.try_catch.
  unfold Browser.bind at 1. rewrite request_run. cbv zeta.
  destruct (Browser.server env _) as [status d|]; [|reflexivity].
  destruct (Browser.resolves status); [destruct (Wire.success d); reflexivity|].
  destruct (status =? 401); reflexivity.
Qed.

(** X24.  Deleting an event from the organizer's list.  If the
    confirmation is declined nothing happens at all.  If it is given, one
    DELETE request is sent; the list loses the events with the deleted id
    on a 2xx success envelope and is returned unchanged, with an error
    toast, otherwise.  Whatever the reply, an event with another id is
    never removed and no event is added. *)
Theorem delete_removes_only_the_confirmed_event
    (events : list OrganizerEvents.Event) (eventId eventTitle : string)
    (env : Browser.Env) (b : Browser.State) :
  OrganizerEvents.handleDelete events false eventId eventTitle env b
    = (Browser.Normal events, b) ∧
  (∃ result rest,
     Browser.result_of (OrganizerEvents.handleDelete events true eventId eventTitle) env b
       = Browser.Normal result ∧
     Browser.effects_of (OrganizerEvents.handleDelete events true eventId eventTitle) env b
       = Browser.Http (Axios.outgoing "delete" ("/events/" +:+ eventId) Wire.NoBody ∅ env b)
         :: rest ∧
     (Spec.reply_ok
        (Browser.server env
           (Axios.outgoing "delete" ("/events/" +:+ eventId) Wire.NoBody ∅ env b)) = true →
      ∀ e, In e result ↔ In e events ∧ OrganizerEvents._id e ≠ eventId) ∧
     (Spec.reply_ok
        (Browser.server env
           (Axios.outgoing "delete" ("/events/" +:+ eventId) Wire.NoBody ∅ env b)) = false →
      result = events ∧ ∃ text, rest = [Browser.ToastError text]) ∧
     (∀ e, In e result → In e events) ∧
     (∀ e, In e events → OrganizerEvents._id e ≠ eventId → In e result)).
Proof.
  split; [reflexivity|].
  assert (Hkeep : ∀ e, In e (List.filter
                              (fun event => negb (String.eqb (OrganizerEvents._id event) eventId))
                              events)
                       ↔ In e events ∧ OrganizerEvents._id e ≠ eventId).
  { intros e. rewrite filter_In, negb_true_iff.
    by rewrite <- not_true_iff_false, String.eqb_eq. }
  unfold Browser.result_of, Browser.effects_of.
  rewrite handleDelete_run. cbv zeta.
  destruct (Browser.server env _) as [status d|]; simpl Spec.reply_ok.
  - destruct (Browser.resolves status).
    + destruct (Wire.success d); trace_effects.
      * eexists _, _. split; [reflexivity|]. split; [reflexivity|].
        split; [intros _; apply Hkeep|]. split; [done|].
        split; intros e; rewrite Hkeep; tauto.
      * eexists _, _. split; [reflexivity|]. split; [reflexivity|].
        split; [done|]. split; [intros _; split; [done|]; by eexists|]. tauto.
    + destruct (status =? 401); trace_effects;
        (eexists _, _; split; [reflexivity|]; split; [reflexivity|];
         split; [done|]; split; [intros _; split; [done|]; by eexists|]; tauto).
  - trace_effects.
    eexists _, _. split; [reflexivity|]. split; [reflexivity|].
    split; [done|]. split; [intros _; split; [done|]; by eexists|]. tauto.
Qed.

(** X25.  After [login], [logout] puts the browser back: if durable storage
    held no token and no user and there was no default [Authorization]
    header, then the two storage tiers and the default headers after
    [login] followed by [logout] are exactly those from before, and the
    store's user and token are empty again. *)
Theorem logout_undoes_login
    (JSON_stringify : Wire.User → string) (newToken : string) (u : Wire.User)
    (st : AuthContext.AuthState) (env : Browser.Env) (b : Browser.State) :
  Browser.getItem (Browser.localStorage b) "token" = None →
  Browser.getItem (Browser.localStorage b) "user" = None →
  Browser.defaults_common b !! "Authorization" = None →
  ∀ st',
    Browser.result_of (AuthContext.login JSON_stringify newToken u st) env b
      = Browser.Normal st' →
    AuthContext.logout st' env
      (Browser.state_after (AuthContext.login JSON_stringify newToken u st) env b) =
    (Browser.Normal {| AuthContext.user := None; AuthContext.token := None;
                       AuthContext.loading := AuthContext.loading st |}, b).
Proof.
  unfold Browser.getItem. intros Htoken Huser Hheader st' [= <-].
  unfold Browser.state_after, AuthContext.login, AuthContext.logout, Browser.bind,
    Browser.modify, Browser.ret, Browser.set_local, Browser.set_defaults,
    Browser.setItem, Browser.removeItem.
  cbn [fst snd Browser.localStorage Browser.sessionStorage Browser.defaults_common
       Browser.trace AuthContext.loading].
  f_equal. destruct b as [local session defaults tr].
  cbn [Browser.localStorage Browser.sessionStorage Browser.defaults_common Browser.trace] in *.
  f_equal.
  - rewrite (delete_insert_ne _ "token" "user") by done.
    rewrite (delete_insert_id _ "token") by done.
    by rewrite delete_insert_id.
  - by rewrite delete_insert_id.
Qed.

Lemma logout_undoes_login_witness :
  AuthContext.logout
    {| AuthContext.user := Some Examples.root; AuthContext.token := Some "abc";
       AuthContext.loading := false |}
    (Examples.always Browser.NoAnswer)
    (Browser.state_after
       (AuthContext.login Examples.stringify "abc" Examples.root Examples.anonymous)
       (Examples.always Browser.NoAnswer) Examples.sessionOnly) =
  (Browser.Normal Examples.anonymous, Examples.sessionOnly).
Proof.
  apply (logout_undoes_login Examples.stringify "abc" Examples.root Examples.anonymous
           (Examples.always Browser.NoAnswer) Examples.sessionOnly);
    reflexivity.
Defined.

(** * The phone pattern of the organizer's sign-up *)

Lemma matchClasses_Forall2 (classes : list (ascii → bool)) (s : string) :
  OrganizerSignupPage.matchClasses classes s = true ↔
  Forall2 (fun class c => class c = true) classes (list_ascii_of_string s).
Proof.
  revert s. induction classes as [|p classes IH]; intros s.
  - destruct s as [|c s]; simpl.
    + split; [intros _; constructor | done].
    + split; [done | inversion 1].
  - destruct s as [|c s]; simpl.
    + split; [done | inversion 1].
    + rewrite andb_true_iff, IH. split.
      * intros [Hp Hrest]. by constructor.
      * inversion 1; subst. by split.
Qed.

Lemma matchClasses_length (classes : list (ascii → bool)) (s : string) :
  OrganizerSignupPage.matchClasses classes s = true →
  String.length s = length classes.
Proof.
  revert s. induction classes as [|p classes IH]; intros s.
  - by destruct s.
  - destruct s as [|c s]; simpl; [done|].
    intros [_ H]%andb_true_iff. by rewrite (IH s H).
Qed.

(** X26.  The phone check accepts a blank value, and otherwise exactly the
    values that the pattern describes unit by unit: "+94", a white-space
    unit, two digits, a white-space unit, three digits, a white-space unit
    and four digits.  An accepted value that is not blank therefore has 15
    code units and starts with "+94"; the separators may be any white
    space, a tab as well as a space. *)
Theorem validatePhone_accepts (value : string) :
  (fst (OrganizerSignupPage.validatePhone value) = true ↔
   JS.trim value = "" ∨
   Forall2 (fun class c => class c = true) OrganizerSignupPage.phoneRegex
     (list_ascii_of_string value)) ∧
  (fst (OrganizerSignupPage.validatePhone value) = true → JS.trim value ≠ "" →
   String.length value = 15%nat ∧ ∃ rest, value = "+94" +:+ rest).
Proof.
  assert (Hiff : fst (OrganizerSignupPage.validatePhone value) = true ↔
                 JS.trim value = "" ∨
                 OrganizerSignupPage.matchClasses OrganizerSignupPage.phoneRegex value = true).
  { unfold OrganizerSignupPage.validatePhone.
    destruct (JS.truthy (JS.trim value)) eqn:Htrim.
    - assert (Hv : JS.truthy value = true).
      { apply truthy_spec. apply trim_nonempty. by apply truthy_spec. }
      rewrite Hv. cbn [andb]. apply truthy_spec in Htrim.
      destruct (OrganizerSignupPage.matchClasses OrganizerSignupPage.phoneRegex value);
        cbn [negb fst].
      + split; auto.
      + split; [done|]. intros [H | H]; [contradiction | discriminate].
    - rewrite andb_false_r. simpl. apply truthy_false in Htrim. split; auto. }
  split.
  - by rewrite Hiff, matchClasses_Forall2.
  - intros Hok Hne. apply Hiff in Hok as [Hblank | Hmatch]; [done|].
    split; [by apply matchClasses_length in Hmatch|].
    destruct value as [|c1 [|c2 [|c3 rest]]]; cbn [OrganizerSignupPage.matchClasses
      OrganizerSignupPage.phoneRegex] in Hmatch; rewrite ?andb_false_r in Hmatch;
      try discriminate.
    apply andb_true_iff in Hmatch as [H1 Hmatch].
    apply andb_true_iff in Hmatch as [H2 Hmatch].
    apply andb_true_iff in Hmatch as [H3 _].
    apply Ascii.eqb_eq in H1 as ->. apply Ascii.eqb_eq in H2 as ->.
    apply Ascii.eqb_eq in H3 as ->. by exists rest.
Qed.

Lemma validatePhone_accepts_witness :
  String.length "+94 77 123 4567" = 15%nat ∧
  fst (OrganizerSignupPage.validatePhone "+94 77 123 4567") = true ∧
  fst (OrganizerSignupPage.validatePhone "+94 77 1234567") = false.
Proof.
  split; [|split; reflexivity].
  apply (validatePhone_accepts "+94 77 123 4567"); [reflexivity | discriminate].
Defined.

(** * The event context's client *)

Lemma axios_request_run (method url : string) (body : Wire.Body)
    (env : Browser.Env) (b : Browser.State) :
  let sent := {| Browser.method := method; Browser.url := url; Browser.body := body;
                 Browser.headers := ∅ |} in
  EventContext.axios_request method url body env b =
  (match Browser.server env sent with
   | Browser.Answer status d =>
       if Browser.resolves status then Browser.Normal d
       else Browser.Throw (Browser.AxiosError (Some (status, d)))
   | Browser.NoAnswer => Browser.Throw (Browser.AxiosError None)
   end,
   Browser.record (Browser.Http sent) b).
Proof.
  cbv zeta. unfold EventContext.axios_request.
  unfold Browser.bind, Browser.emit, Browser.modify, Browser.ask.
  destruct (Browser.server env _) as [status d|]; [|reflexivity].
  by destruct (Browser.resolves status).
Qed.

(** X27.  The event context's delete goes out through axios itself: one
    request without any header, whatever the storage tiers hold, and
    whatever the reply, a 401 included, the two storage tiers and the API
    client's default headers are left as they were.  The call resolves
    exactly on a 2xx reply, and then the events with the deleted id are
    gone; otherwise it rejects with the error it caught, with the events
    unchanged and the error's message shown.  Loading is cleared in both
    cases. *)
Theorem default_axios_leaves_credentials
    (message_of : Browser.JsError → string) (st : EventContext.Provider) (id : string)
    (env : Browser.Env) (b : Browser.State) :
  let sent := {| Browser.method := "delete"; Browser.url := "/api/events/" +:+ id;
                 Browser.body := Wire.NoBody; Browser.headers := ∅ |} in
  let run := EventContext.deleteEvent message_of st id in
  Browser.state_after run env b = Browser.record (Browser.Http sent) b ∧
  Browser.effects_of run env b = [Browser.Http sent] ∧
  ∃ s, Browser.result_of run env b = Browser.Normal s ∧
       EventContext.loading (EventContext.provider s) = false ∧
       (EventContext.rejected s = None ↔
        ∃ status d, Browser.server env sent = Browser.Answer status d ∧
                    Browser.resolves status = true) ∧
       (EventContext.rejected s = None →
        EventContext.error (EventContext.provider s) = None ∧
        ∀ e, In e (EventContext.events (EventContext.provider s)) ↔
             In e (EventContext.events st) ∧ EventContext._id e ≠ id) ∧
       (∀ err, EventContext.rejected s = Some err →
               EventContext.events (EventContext.provider s) = EventContext.events st ∧
               EventContext.error (EventContext.provider s) = Some (message_of err) ∧
               err = Browser.AxiosError
                       match Browser.server env sent with
                       | Browser.Answer status d => Some (status, d)
                       | Browser.NoAnswer => None
                       end).
Proof.
  cbv zeta.
  unfold Browser.state_after, Browser.effects_of, Browser.result_of,
    EventContext.deleteEvent, Browser.try_catch, Browser.bind.
  rewrite axios_request_run. cbv zeta.
  destruct (Browser.server env _) as [status d|] eqn:Hreply.
  - destruct (Browser.resolves status) eqn:Hres; simpl.
    + split; [reflexivity|]. split; [apply drop_trace|].
      eexists. split; [reflexivity|]. split; [reflexivity|]. split; [|split].
      * split; [intros _; by exists status, d | done].
      * intros _. split; [reflexivity|]. intros e. simpl.
        rewrite filter_In, negb_true_iff.
        by rewrite <- not_true_iff_false, String.eqb_eq.
      * intros err [=].
    + split; [reflexivity|]. split; [apply drop_trace|].
      eexists. split; [reflexivity|]. split; [reflexivity|]. split; [|split].
      * split; [done|]. intros (status' & d' & [= <- <-] & Hr). congruence.
      * intros [=].
      * intros err [= <-]. by repeat split.
  - simpl. split; [reflexivity|]. split; [apply drop_trace|].
    eexists. split; [reflexivity|]. split; [reflexivity|]. split; [|split].
    + split; [done|]. intros (status' & d' & [=] & _).
    + intros [=].
    + intros err [= <-]. by repeat split.
Qed.
